(** * Preflight: the context-selection engine, embedded and verified

    A shallow embedding of the core of the [preflight-ai] repository
    (token accounting and pricing, stage configuration, compression,
    codebase index, project memory, change-intent classification, context
    selection, context injection, post-change update) together with the
    properties its specification states about it and further properties
    read off the code.

    Conventions of the embedding.
    - A Python [str] is a Rocq [string] holding the UTF-8 encoding of the
      text.  All delimiters the code looks for are ASCII, so searching,
      splitting and replacing on bytes agrees with Python on code points.
    - A Python [int] is a [Z]; the result of [len] is a [nat].
    - A Python [float] is an IEEE 754 binary64 number, a [spec_float] of
      the Standard Library's [SpecFloat], and its arithmetic is the
      arithmetic specified there: every operation rounds to the nearest
      float, ties to even.
    - A Python [dict] with string keys is an association list in insertion
      order ([dict V]); [d[k] = v] keeps the position of an existing key
      and appends a new one, as CPython does.
    - A JSON object of the persisted files is a record with the fields of
      the schema the code writes; a field is optional exactly where the
      code reads it with [.get(key, default)] or tests [key in d].
      Documents that parse but have another shape are outside the model.
    - A Python [set] of strings is a [gset string].
    - Code that can raise returns a [result]; the exception classes are the
      constructors of [exn].
    - Libraries outside the repository ([tiktoken], [json], [re]) are
      interfaces (type classes); every theorem holds for every
      implementation of them. *)

From Stdlib Require Import ZArith QArith Qpower Qabs String Ascii List Lia.
From Stdlib Require Import DecimalString Lqa Bool.
From Stdlib Require SpecFloat.
From stdpp Require Import base option list gmap sets strings.

Local Open Scope string_scope.
Local Open Scope list_scope.
Set Warnings "-register-all".

(* ===================================================================== *)
(** * Part I: the model                                                   *)
(* ===================================================================== *)

(** ** Python values used throughout *)

Module Py.

(** The double quote and the line feed, which string literals of this file
    do not spell. *)
Definition dq : string := String (ascii_of_nat 34) EmptyString.
Definition nl : string := String (ascii_of_nat 10) EmptyString.

(** The string made of the bytes with the given codes. *)
Definition bytes (codes : list nat) : string :=
  string_of_list_ascii (map ascii_of_nat codes).

(** [s.replace(old, new)] for one-character [old] and [new]. *)
Fixpoint replace_char (old new : ascii) (s : string) : string :=
  match s with
  | EmptyString => EmptyString
  | String c s' =>
      String (if Ascii.eqb c old then new else c) (replace_char old new s')
  end.

(** [needle in hay] for two [str]: substring test; the empty string is in
    every string. *)
Fixpoint str_in (needle hay : string) : bool :=
  String.prefix needle hay ||
  match hay with
  | EmptyString => false
  | String _ hay' => str_in needle hay'
  end.

(** [s.split(sep)] for a one-character separator: never returns an empty
    list, keeps empty fields. *)
Fixpoint split (sep : ascii) (s : string) : list string :=
  match s with
  | EmptyString => [EmptyString]
  | String c s' =>
      if Ascii.eqb c sep then EmptyString :: split sep s'
      else match split sep s' with
           | [] => [String c EmptyString]
           | w :: ws => String c w :: ws
           end
  end.

(** [sep.join(parts)]. *)
Definition join (sep : string) (parts : list string) : string :=
  String.concat sep parts.

(** [str(n)] for an [int]. *)
Definition str_of_int (n : Z) : string :=
  match n with
  | Z0 => "0"
  | Zpos p => NilEmpty.string_of_uint (Pos.to_uint p)
  | Zneg p => "-" +:+ NilEmpty.string_of_uint (Pos.to_uint p)
  end.

(** *** Dictionaries with string keys, in insertion order *)

Definition dict (V : Type) : Type := list (string * V).

(** [d.get(k)]; [k in d] is [is_Some (dict_get k d)]. *)
Fixpoint dict_get {V} (k : string) (d : dict V) : option V :=
  match d with
  | [] => None
  | (k', v) :: d' => if String.eqb k' k then Some v else dict_get k d'
  end.

Definition dict_in {V} (k : string) (d : dict V) : bool :=
  match dict_get k d with Some _ => true | None => false end.

(** [d[k] = v]. *)
Fixpoint dict_set {V} (k : string) (v : V) (d : dict V) : dict V :=
  match d with
  | [] => [(k, v)]
  | (k', v') :: d' =>
      if String.eqb k' k then (k', v) :: d' else (k', v') :: dict_set k v d'
  end.

(** [d.pop(k, None)], the popped value dropped. *)
Fixpoint dict_pop {V} (k : string) (d : dict V) : dict V :=
  match d with
  | [] => []
  | (k', v') :: d' =>
      if String.eqb k' k then dict_pop k d' else (k', v') :: dict_pop k d'
  end.

Definition dict_keys {V} (d : dict V) : list string := map fst d.
Definition dict_values {V} (d : dict V) : list V := map snd d.

(** A dict display [{k1: v1, k2: v2, ...}]: the items are stored left to
    right, a repeated key keeps its first position and its last value. *)
Definition dict_display {V} (items : list (string * V)) : dict V :=
  fold_left (fun d kv => dict_set (fst kv) (snd kv) d) items [].

(** Keys of a Python dict are pairwise distinct. *)
Definition dict_wf {V} (d : dict V) : Prop := NoDup (dict_keys d).

(** *** Exceptions *)

Inductive exn : Type :=
| OSError
| JSONDecodeError
| UnicodeDecodeError
| ValueError (msg : string).

Inductive result (A : Type) : Type :=
| Ok (a : A)
| Raise (e : exn).
Arguments Ok {A} a.
Arguments Raise {A} e.

Definition bind {A B} (m : result A) (k : A -> result B) : result B :=
  match m with
  | Ok a => k a
  | Raise e => Raise e
  end.

End Py.

Import Py.

(** [result] is a monad; [x ← m; k] is stdpp's notation for [bind]. *)
Global Instance result_ret : MRet result := fun _ a => Ok a.
Global Instance result_bind : MBind result := fun _ _ k m => Py.bind m k.

(** ** [pathlib]: the parts of a POSIX path *)

Module Pathlib.

Definition slash : ascii := ascii_of_nat 47.
Definition dot : ascii := ascii_of_nat 46.

(** [posixpath.splitroot]: no leading slash, no root; exactly two leading
    slashes, the root ["//"]; otherwise the root ["/"]. *)
Definition splitroot (p : string) : string * string :=
  match p with
  | String c0 p1 =>
      if Ascii.eqb c0 slash then
        match p1 with
        | String c1 p2 =>
            if Ascii.eqb c1 slash then
              match p2 with
              | String c2 _ =>
                  if Ascii.eqb c2 slash then ("/", p1) else ("//", p2)
              | EmptyString => ("//", p2)
              end
            else ("/", p1)
        | EmptyString => ("/", p1)
        end
      else ("", p)
  | EmptyString => ("", p)
  end.

(** [PurePosixPath(p).parts]: the root, when there is one, then the
    components that are neither empty nor ["."]. *)
Definition parts (p : string) : list string :=
  let '(root, rel) := splitroot p in
  let parsed :=
    List.filter (fun x => negb (String.eqb x "") && negb (String.eqb x "."))
                (split slash rel) in
  if String.eqb root "" then parsed else root :: parsed.

(** [PurePosixPath(name).suffix] of a final component: from the last dot,
    unless that dot is the first or the last character. *)
Fixpoint rfind_dot (s : string) (i : nat) (last : option nat) : option nat :=
  match s with
  | EmptyString => last
  | String c s' =>
      rfind_dot s' (S i) (if Ascii.eqb c dot then Some i else last)
  end.

Definition suffix (name : string) : string :=
  match rfind_dot name 0 None with
  | Some i =>
      if (0 <? i)%nat && (i <? String.length name - 1)%nat
      then String.substring i (String.length name - i) name
      else ""
  | None => ""
  end.

End Pathlib.

(** ** [core/constants.py] *)

Module Constants.

Definition SONNET : string := "claude-sonnet-4-5".
Definition HAIKU : string := "claude-haiku-4-5-20251001".

(** The two Gemini identifiers are read from the process environment when
    the module is imported. *)
Class Environ : Type := {
  GEMINI_PRO : string;   (* PREFLIGHT_GEMINI_PRO_MODEL, or its default *)
  GEMINI_FLASH : string  (* PREFLIGHT_GEMINI_FLASH_MODEL, or its default *)
}.

(** The environment in which neither variable is set. *)
Definition default_environ : Environ :=
  {| GEMINI_PRO := "gemini-1.5-pro"; GEMINI_FLASH := "gemini-1.5-flash" |}.

(** USD per million tokens.  The rates are decimal literals; the table
    keeps the decimal numbers they spell, and each becomes the float it
    denotes where the cost is computed ([Float.literal]). *)
Record Rates : Type := {
  input : Q;
  output : Q;
  cache_read : Q;
  cache_write : Q
}.

Definition COSTS_PER_MILLION {environ : Environ} : dict Rates :=
  dict_display [
    (SONNET, {| input := 3; output := 15;
                cache_read := 3 # 10; cache_write := 375 # 100 |});
    (HAIKU, {| input := 1; output := 5;
               cache_read := 1 # 10; cache_write := 125 # 100 |});
    ("gemini-1.5-pro", {| input := 125 # 100; output := 5;
                          cache_read := 315 # 1000; cache_write := 125 # 100 |});
    ("gemini-1.5-flash", {| input := 75 # 1000; output := 3 # 10;
                            cache_read := 18 # 1000; cache_write := 75 # 1000 |});
    (GEMINI_PRO, {| input := 125 # 100; output := 10;
                    cache_read := 315 # 1000; cache_write := 125 # 100 |});
    (GEMINI_FLASH, {| input := 15 # 100; output := 6 # 10;
                      cache_read := 375 # 10000; cache_write := 15 # 100 |})
  ].

Definition CONTEXT_TOKEN_THRESHOLD : nat := 2000.

Definition IGNORED_DIRS : list string := [
  ".git"; ".svn"; "node_modules"; "venv"; ".venv"; "env"; "__pycache__";
  ".preflight"; ".claude"; ".gemini"; "dist"; "build"; ".eggs"; ".tox";
  ".mypy_cache"; ".pytest_cache"
].

Definition INDEXED_EXTENSIONS : list string := [
  ".py"; ".js"; ".ts"; ".jsx"; ".tsx"; ".go"; ".rs"; ".java"; ".rb";
  ".php"; ".swift"; ".kt"; ".c"; ".cpp"; ".h"; ".css"; ".scss"; ".html";
  ".vue"; ".svelte"; ".sql"; ".graphql"; ".proto"; ".yaml"; ".yml";
  ".toml"; ".json"; ".md"; ".txt"; ".env"; ".sh"; ".bash"; ".zsh";
  ".dockerfile"
].

Definition PREFLIGHT_DIR : string := ".preflight".
Definition MEMORY_FILE : string := "memory.json".
Definition FILE_INDEX_FILE : string := "file-index.json".

(** [x in S] for one of the two sets of names above. *)
Definition name_in (x : string) (names : list string) : bool :=
  existsb (String.eqb x) names.

End Constants.

(** ** [core/constants.py]: providers and stages *)

Module Stages.
Import Constants.

Definition PROVIDER_CLAUDE : string := "claude".
Definition PROVIDER_GEMINI : string := "gemini".

(** The configuration of one stage. *)
Record Stage : Type := {
  model : string;
  max_tokens : Z;
  temperature : Z
}.

Definition CLAUDE_STAGE_CONFIG : dict Stage :=
  dict_display [
    ("parse", {| model := HAIKU; max_tokens := 600; temperature := 0 |});
    ("questions", {| model := HAIKU; max_tokens := 1500; temperature := 0 |});
    ("analysis", {| model := HAIKU; max_tokens := 1000; temperature := 0 |});
    ("change_analysis",
     {| model := HAIKU; max_tokens := 512; temperature := 0 |});
    ("generate", {| model := SONNET; max_tokens := 8192; temperature := 0 |})
  ].

(** Alias for backward compat *)
Definition STAGE_CONFIG : dict Stage := CLAUDE_STAGE_CONFIG.

Definition GEMINI_STAGE_CONFIG {environ : Environ} : dict Stage :=
  dict_display [
    ("parse", {| model := GEMINI_FLASH; max_tokens := 600; temperature := 0 |});
    ("questions",
     {| model := GEMINI_FLASH; max_tokens := 1500; temperature := 0 |});
    ("analysis",
     {| model := GEMINI_FLASH; max_tokens := 1000; temperature := 0 |});
    ("change_analysis",
     {| model := GEMINI_FLASH; max_tokens := 512; temperature := 0 |});
    ("generate",
     {| model := GEMINI_PRO; max_tokens := 8192; temperature := 0 |})
  ].

Definition get_stage_config {environ : Environ} (provider : string)
  : dict Stage :=
  if String.eqb provider PROVIDER_GEMINI then GEMINI_STAGE_CONFIG
  else CLAUDE_STAGE_CONFIG.

End Stages.

(** ** Python's [float]

    A [float] is an IEEE 754 binary64 number and its arithmetic rounds to
    the nearest float, ties to the even one.  [SpecFloat] is the Standard
    Library's specification of that arithmetic; the operations below are
    its operations at the binary64 format. *)

Module Float.
Import SpecFloat.
Local Open Scope Z_scope.

Definition prec : Z := 53.
Definition emax : Z := 1024.

Definition float : Type := spec_float.

(** [0.0] *)
Definition zero : float := S754_zero false.

(** The integer [n >= 0] with the sign [s], as the exact operand of a
    division. *)
Definition with_sign (s : bool) (n : Z) : float :=
  match n with
  | Zpos p => S754_finite s p 0
  | _ => S754_zero s
  end.

Definition integer (n : Z) : float := with_sign (n <? 0) (Z.abs n).

(** The float nearest to [n / d], for [d > 0]: the quotient of the two
    integers rounded once.  It is an infinity where the quotient is beyond
    the largest float. *)
Definition nearest (n d : Z) : float := SFdiv prec emax (integer n) (integer d).

(** The float a decimal literal denotes: the one nearest to its value. *)
Definition literal (q : Q) : float := nearest (Qnum q) (Zpos (Qden q)).

(** [x * y] and [x + y] *)
Definition mul : float -> float -> float := SFmul prec emax.
Definition add : float -> float -> float := SFadd prec emax.

Definition is_infinite (x : float) : bool :=
  match x with
  | S754_infinity _ => true
  | _ => false
  end.

Definition is_finite (x : float) : bool :=
  match x with
  | S754_zero _ | S754_finite _ _ _ => true
  | _ => false
  end.

(** [x == y] and [x <= y] *)
Definition eqb : float -> float -> bool := SFeqb.
Definition leb : float -> float -> bool := SFleb.

(** Code that can raise [OverflowError] returns an [option]. *)
Definition OverflowError {A : Type} : option A := None.

(** [a / b] on two [int]s, [b] positive: the quotient correctly rounded,
    and [OverflowError] ("integer division result too large for a float")
    where it is beyond the largest float. *)
Definition true_div (a b : Z) : option float :=
  let q := nearest a b in
  if is_infinite q then OverflowError else Some q.

(** [n / d] rounded to the nearest integer, ties to the even one, for
    [n >= 0] and [d > 0]. *)
Definition round_half_even (n d : Z) : Z :=
  let q := n / d in
  match 2 * (n mod d) ?= d with
  | Lt => q
  | Gt => q + 1
  | Eq => if Z.even q then q else q + 1
  end.

(** The magnitude [m * 2 ^ e] in millionths, rounded to a whole number of
    them. *)
Definition millionths (m : positive) (e : Z) : Z :=
  match e with
  | Zneg p => round_half_even (Zpos m * 1000000) (2 ^ Zpos p)
  | _ => Zpos m * 1000000 * 2 ^ e
  end.

(** [round(x, 6)]: the decimal expansion of [x] is rounded to six places
    after the point, on the exact value of [x] and ties to even, and the
    decimal number obtained is read back as a float, with the sign of [x];
    zeros, infinities and the NaN round to themselves.  [OverflowError]
    ("rounded value too large to represent") where the number read back
    is beyond the largest float. *)
Definition round6 (x : float) : option float :=
  match x with
  | S754_finite s m e =>
      let r := SFdiv prec emax (with_sign s (millionths m e))
                     (integer 1000000) in
      if is_infinite r then OverflowError else Some r
  | _ => Some x
  end.

(** *** Notions used to state facts about floats *)

(** The number a float stands for; an infinity and the NaN stand for no
    number and are given 0. *)
Definition value (x : float) : Q :=
  match x with
  | S754_finite s m e =>
      let v := (inject_Z (Zpos m) * 2 ^ e)%Q in if s then (- v)%Q else v
  | _ => 0%Q
  end.

(** The sign bit. *)
Definition sign (x : float) : bool :=
  match x with
  | S754_zero s | S754_infinity s | S754_finite s _ _ => s
  | S754_nan => false
  end.

(** [x] is a zero, or a float of the format whose magnitude is below
    [2 ^ B]. *)
Definition below (B : Z) (x : float) : Prop :=
  match x with
  | S754_zero _ => True
  | S754_finite _ m e =>
      bounded prec emax m e = true /\ Zpos (digits2_pos m) + e <= B
  | _ => False
  end.

(** [x] is [0.0], a positive float or [inf]: the sign bit is clear, and
    [x] is not the NaN. *)
Definition nonneg (x : float) : Prop :=
  match x with
  | S754_nan => False
  | _ => sign x = false
  end.

Definition signQ (s : bool) (q : Q) : Q := if s then (- q)%Q else q.



End Float.

(** ** [core/token_counter.py] *)

Module TokenCounter.
Import Constants.

(** [tiktoken]'s [cl100k_base] encoder, of which the code only uses the
    length of the encoding.  (The encoder refuses a text that spells one
    of its special tokens; the model takes the texts it accepts.) *)
Class Tokenizer : Type := {
  count_tokens : string -> nat
}.

(** The local [cost] of [estimate_cost], before rounding.  Each rate is
    the float its literal denotes.  The three divisions are the only
    operations that can raise, all of them [OverflowError]. *)
Definition cost (costs : Rates) (input_tokens output_tokens
                                 cached_input_tokens : Z)
  : option Float.float :=
  a ← Float.true_div input_tokens 1000000;
  b ← Float.true_div output_tokens 1000000;
  c ← Float.true_div cached_input_tokens 1000000;
  Some (Float.add
          (Float.add (Float.mul a (Float.literal (input costs)))
                     (Float.mul b (Float.literal (output costs))))
          (Float.mul c (Float.literal (cache_read costs)))).

Definition estimate_cost {environ : Environ} (input_tokens output_tokens : Z)
           (model : string) (cached_input_tokens : Z) : option Float.float :=
  match dict_get model COSTS_PER_MILLION with
  | None => Some Float.zero
  | Some costs =>
      cost ← cost costs input_tokens output_tokens cached_input_tokens;
      Float.round6 cost
  end.

End TokenCounter.

(** ** [core/compressor.py] *)

Module Compressor.

Definition line_feed : ascii := ascii_of_nat 10.

(** Number of characters before the first occurrence of [needle]. *)
Fixpoint find (needle s : string) : option nat :=
  if String.prefix needle s then Some 0%nat
  else match s with
       | EmptyString => None
       | String _ s' => S <$> find needle s'
       end.

Fixpoint drop (n : nat) (s : string) : string :=
  match n, s with
  | S n', String _ s' => drop n' s'
  | _, _ => s
  end.

(** Length of the match, at the start of [s], of the first alternative
    [OPEN[\s\S]*?CLOSE] that matches there: the closing delimiter is the
    first one found after the opening one. *)
Fixpoint block_at (delims : list (string * string)) (s : string) : option nat :=
  match delims with
  | [] => None
  | (opening, closing) :: delims' =>
      if String.prefix opening s then
        match find closing (drop (String.length opening) s) with
        | Some n => Some (String.length opening + n + String.length closing)%nat
        | None => block_at delims' s
        end
      else block_at delims' s
  end.

(** [RE.sub("", s)] for a pattern that is an alternation of delimited
    blocks: matches are taken leftmost, left to right, without overlap.
    [skip] counts the characters of the current match still to drop. *)
Fixpoint strip_blocks (delims : list (string * string)) (skip : nat)
         (s : string) : string :=
  match s with
  | EmptyString => EmptyString
  | String c s' =>
      match skip with
      | S k => strip_blocks delims k s'
      | O =>
          match block_at delims s with
          | Some (S k) => strip_blocks delims k s'
          | _ => String c (strip_blocks delims 0 s')
          end
      end
  end.

(** [re.sub(OPENER + r"[^\n]*", "", s)]: from the opener to the end of its
    line, the line feed kept. *)
Fixpoint strip_line_comments (opener : string) (inside : bool)
         (s : string) : string :=
  match s with
  | EmptyString => EmptyString
  | String c s' =>
      if inside then
        if Ascii.eqb c line_feed
        then String c (strip_line_comments opener false s')
        else strip_line_comments opener true s'
      else if String.prefix opener s
      then strip_line_comments opener true s'
      else String c (strip_line_comments opener false s')
  end.

(** What a run of [run] line feeds becomes under
    [re.sub(r"\n{3,}", "\n\n", s)]. *)
Definition blank_run (run : nat) : string :=
  if (3 <=? run)%nat then nl +:+ nl
  else string_of_list_ascii (repeat line_feed run).

Fixpoint collapse_blank_lines (run : nat) (s : string) : string :=
  match s with
  | EmptyString => blank_run run
  | String c s' =>
      if Ascii.eqb c line_feed then collapse_blank_lines (S run) s'
      else blank_run run +:+ String c (collapse_blank_lines 0 s')
  end.

(** The characters [str.strip()] removes, in UTF-8: U+0009..U+000D,
    U+001C..U+0020, U+0085, U+00A0, U+1680, U+2000..U+200A, U+2028,
    U+2029, U+202F, U+205F, U+3000. *)
Definition WHITESPACE : list string :=
  map (fun c => bytes [c]) [9; 10; 11; 12; 13; 28; 29; 30; 31; 32]%nat
  ++ [bytes [194; 133]; bytes [194; 160]; bytes [225; 154; 128]]%nat
  ++ map (fun c => bytes [226; 128; c])
         [128; 129; 130; 131; 132; 133; 134; 135; 136; 137; 138;
          168; 169; 175]%nat
  ++ [bytes [226; 129; 159]; bytes [227; 128; 128]]%nat.

Definition string_rev (s : string) : string :=
  string_of_list_ascii (rev (list_ascii_of_string s)).

(** Length of the whitespace character [s] starts with, if any. *)
Definition space_at (spaces : list string) (s : string) : option nat :=
  String.length <$> List.find (fun w => String.prefix w s) spaces.

Fixpoint lstrip_with (spaces : list string) (skip : nat) (s : string) : string :=
  match s with
  | EmptyString => EmptyString
  | String c s' =>
      match skip with
      | S k => lstrip_with spaces k s'
      | O =>
          match space_at spaces s with
          | Some (S k) => lstrip_with spaces k s'
          | _ => s
          end
      end
  end.

Definition lstrip (s : string) : string := lstrip_with WHITESPACE 0 s.

Definition rstrip (s : string) : string :=
  string_rev (lstrip_with (map string_rev WHITESPACE) 0 (string_rev s)).

Definition strip (s : string) : string := rstrip (lstrip s).

Definition triple_double : string := dq +:+ dq +:+ dq.
Definition triple_single : string := "'''".

Definition compress_content (text : string) (aggressive : bool) : string :=
  let result := text in
  (* Always strip multi-line docstrings / block comments *)
  let result :=
    strip_blocks [(triple_double, triple_double);
                  (triple_single, triple_single)] 0 result in
  let result := strip_blocks [("/*", "*/")] 0 result in
  let result :=
    if aggressive then
      strip_line_comments "//" false (strip_line_comments "#" false result)
    else result in
  (* Collapse excessive blank lines *)
  let result := collapse_blank_lines 0 result in
  strip result +:+ nl.

Definition should_compress (token_count threshold : nat) : bool :=
  (threshold <? token_count)%nat.

End Compressor.

(** ** The [utf-8] codec in strict mode *)

Module Utf8.

Definition between (lo hi n : nat) : bool := (lo <=? n)%nat && (n <=? hi)%nat.
Definition cont (c : ascii) : bool := between 128 191 (nat_of_ascii c).

(** Range of the second byte after a three-byte lead: no overlong form, no
    surrogate. *)
Definition second3 (lead : nat) (c : ascii) : bool :=
  if (lead =? 224)%nat then between 160 191 (nat_of_ascii c)
  else if (lead =? 237)%nat then between 128 159 (nat_of_ascii c)
  else cont c.

(** Range of the second byte after a four-byte lead: no overlong form,
    nothing above U+10FFFF. *)
Definition second4 (lead : nat) (c : ascii) : bool :=
  if (lead =? 240)%nat then between 144 191 (nat_of_ascii c)
  else if (lead =? 244)%nat then between 128 143 (nat_of_ascii c)
  else cont c.

(** Whether [bytes.decode("utf-8")] succeeds. *)
Fixpoint valid (s : string) : bool :=
  match s with
  | EmptyString => true
  | String c0 s1 =>
      let lead := nat_of_ascii c0 in
      if (lead <=? 127)%nat then valid s1
      else if between 194 223 lead then
        match s1 with
        | String c1 s2 => cont c1 && valid s2
        | _ => false
        end
      else if between 224 239 lead then
        match s1 with
        | String c1 (String c2 s3) => second3 lead c1 && cont c2 && valid s3
        | _ => false
        end
      else if between 240 244 lead then
        match s1 with
        | String c1 (String c2 (String c3 s4)) =>
            second4 lead c1 && cont c2 && cont c3 && valid s4
        | _ => false
        end
      else false
  end.

End Utf8.

(** ** The world outside the process *)

Module Sys.

(** What a name in the [.preflight] directory refers to: a regular file
    with its bytes, or a directory (empty or not). *)
Inductive entry : Type :=
| File (raw : string)
| Dir (empty : bool).

(** One call of [call_ai], by its keyword arguments. *)
Record AiCall : Type := {
  stage : string;
  system_prompt : string;
  user_message : string;
  provider : string
}.

(** The [.preflight] directory, and the calls made to the external
    classifier so far, oldest first. *)
Record world : Type := {
  disk : gmap string entry;
  calls : list AiCall
}.

Definition set_disk (d : gmap string entry) (w : world) : world :=
  {| disk := d; calls := calls w |}.

(** The project files as the code reaches them, by the relative path it
    forms [self._root / rel] with: [None] when [exists()] is false,
    [Some None] when the file exists and reading it raises [OSError],
    [Some (Some text)] when [read_text(encoding="utf-8",
    errors="replace")] returns [text]. *)
Definition sources : Type := string -> option (option string).

(** Code that acts on the world and may raise.  An exception leaves the
    world as it was when it was raised. *)
Definition IO (A : Type) : Type := world -> result A * world.

Definition io_ret {A} (a : A) : IO A := fun w => (Ok a, w).
Definition io_bind {A B} (m : IO A) (k : A -> IO B) : IO B :=
  fun w => match m w with
           | (Ok a, w') => k a w'
           | (Raise e, w') => (Raise e, w')
           end.
Definition io_raise {A} (e : exn) : IO A := fun w => (Raise e, w).

(** [try: m except (json.JSONDecodeError, OSError): handler] *)
Definition caught (e : exn) : bool :=
  match e with
  | JSONDecodeError | OSError => true
  | _ => false
  end.

Definition try_except {A} (m : IO A) (handler : IO A) : IO A :=
  fun w => match m w with
           | (Raise e, w') => if caught e then handler w' else (Raise e, w')
           | r => r
           end.

(** [try: m except OSError: pass] *)
Definition try_pass (m : IO unit) : IO unit :=
  fun w => match m w with
           | (Raise OSError, w') => (Ok tt, w')
           | r => r
           end.

(** [path.exists()] *)
Definition exists_ (path : string) : IO bool :=
  fun w => (Ok (bool_decide (is_Some (disk w !! path))), w).

(** [path.read_text(encoding="utf-8")]: the decoder is strict.  The text
    returned is the one decoded; text mode then translates the newlines
    ([Builders.universal_newlines]).  The readers of the two JSON files
    are given the text before that translation: outside a JSON string the
    three newlines are the same white space, and inside one each of them
    is refused. *)
Definition read_text (path : string) : IO string :=
  fun w => match disk w !! path with
           | Some (File raw) =>
               if Utf8.valid raw then (Ok raw, w)
               else (Raise UnicodeDecodeError, w)
           | Some (Dir _) => (Raise OSError, w)
           | None => (Raise OSError, w)
           end.

(** [os.rename] and [os.replace] on POSIX: a file replaces a file; a file
    does not replace a directory, nor a directory a file; a directory
    replaces an empty directory. *)
Definition rename (src dst : string) : IO unit :=
  fun w => match disk w !! src with
           | None => (Raise OSError, w)
           | Some e =>
               match e, disk w !! dst with
               | File _, Some (Dir _)
               | Dir _, Some (File _)
               | Dir _, Some (Dir false) => (Raise OSError, w)
               | _, _ => (Ok tt, set_disk (<[dst := e]> (delete src (disk w))) w)
               end
           end.

(** The atomic write of [save] and [_write_index]: the text goes to a
    temporary file of the same directory, [tmp_path] (the name [mkstemp]
    returned), which then replaces [path]; on failure the temporary file
    is removed and the exception raised again.  The directory itself is
    taken to exist or to be creatable. *)
Definition atomic_write (tmp_path path text : string) : IO unit :=
  fun w =>
    let w1 := set_disk (<[tmp_path := File text]> (disk w)) w in
    match rename tmp_path path w1 with
    | (Ok tt, w2) => (Ok tt, w2)
    | (Raise e, w2) => (Raise e, set_disk (delete tmp_path (disk w2)) w2)
    end.

End Sys.

Global Instance io_mret : MRet Sys.IO := @Sys.io_ret.
Global Instance io_mbind : MBind Sys.IO := fun _ _ k m => Sys.io_bind m k.

(** ** The [json] module *)

Module Json.

(** [json.dump(v, f, indent=2, ensure_ascii=False)] and [json.loads(s)] at
    one type of document; [json_loads] is [None] where [json.loads] raises
    [JSONDecodeError].  A text on which [json.loads] raises anything else
    (an integer of more digits than the interpreter converts, a nesting
    deeper than its stack) is outside the model. *)
Class JsonCodec (A : Type) : Type := {
  json_dumps : A -> string;
  json_loads : string -> option A
}.

Definition loads `{JsonCodec A} (raw : string) : Sys.IO A :=
  match json_loads raw with
  | Some v => Sys.io_ret v
  | None => Sys.io_raise JSONDecodeError
  end.

End Json.

(** ** [memory/file_indexer.py] *)

Module FileIndexer.
Import Constants TokenCounter Json Sys.

(** One entry of ["files"] in [file-index.json]. *)
Record FileRecord : Type := {
  purpose : option string;
  module : option string;
  imports : option (list string);
  exports : option (list string);
  token_count : option Z;
  last_modified : option string;
  summary : option string
}.

(** The empty dict [{}] read as a file record. *)
Definition no_record : FileRecord :=
  {| purpose := None; module := None; imports := None; exports := None;
     token_count := None; last_modified := None; summary := None |}.

(** [existing["token_count"] = tokens] *)
Definition set_token_count (tokens : Z) (r : FileRecord) : FileRecord :=
  {| purpose := purpose r; module := module r; imports := imports r;
     exports := exports r; token_count := Some tokens;
     last_modified := last_modified r; summary := summary r |}.

(** The document [file-index.json]. *)
Record CodebaseIndex : Type := {
  indexed_at : option string;
  total_files : option Z;
  total_tokens_if_full_read : option Z;
  files : option (dict FileRecord);
  modules : option (dict (list string))
}.

(** The import and export detectors apply regular expressions with the
    Unicode classes [\w] and [\s] to the content; they are kept as an
    interface.  Arguments: content, suffix. *)
Class Scanner : Type := {
  _detect_imports : string -> string -> list string;
  _detect_exports : string -> string -> list string
}.

(** The project tree as [os.walk] sees it.  A file carries the text
    [read_text(encoding="utf-8", errors="replace")] returns, or [None] when
    reading it raises [OSError], and its modification time in ISO format.
    The order of the entries is the order in which the directory is
    listed. *)
Inductive node : Type :=
| FileNode (content : option string) (mtime : string)
| DirNode (entries : list (string * node)).

(** A file met by the walk: the directories from the root down to it, its
    name, and what the file node holds. *)
Record Found : Type := {
  dirpath : list string;
  fname : string;
  content : option string;
  mtime : string
}.

(** [str(file_path.relative_to(self._root))] *)
Definition rel_path (f : Found) : string :=
  join "/" (dirpath f ++ [fname f]).

(** [s.lower()], on the characters whose lower case is ASCII: the letters
    A to Z and the Kelvin sign U+212A. *)
Definition lower_ascii (c : ascii) : ascii :=
  let n := nat_of_ascii c in
  if (65 <=? n)%nat && (n <=? 90)%nat then ascii_of_nat (n + 32) else c.

Fixpoint lower (s : string) : string :=
  match s with
  | String c0 (String c1 (String c2 s3) as s1) =>
      if (nat_of_ascii c0 =? 226)%nat && (nat_of_ascii c1 =? 132)%nat
         && (nat_of_ascii c2 =? 170)%nat
      then String (ascii_of_nat 107) (lower s3)
      else String (lower_ascii c0) (lower s1)
  | String c0 s1 => String (lower_ascii c0) (lower s1)
  | EmptyString => EmptyString
  end.

Definition indexable (name : string) : bool :=
  name_in (lower (Pathlib.suffix name)) INDEXED_EXTENSIONS.

(** The files of one directory that [_walk_files] appends. *)
Definition files_here (dirpath : list string)
           (entries : list (string * node)) : list Found :=
  flat_map (fun '(name, child) =>
              match child with
              | FileNode content mtime =>
                  if indexable name
                  then [{| dirpath := dirpath; fname := name;
                           content := content; mtime := mtime |}]
                  else []
              | DirNode _ => []
              end) entries.

(** [_walk_files] over [os.walk(self._root)], top down: the files of a
    directory, then each of its sub-directories whose name survives
    [dirnames[:] = [d for d in dirnames if d not in IGNORED_DIRS]]. *)
Fixpoint walk (dirpath : list string) (n : node) : list Found :=
  match n with
  | FileNode _ _ => []
  | DirNode entries =>
      files_here dirpath entries ++
      flat_map (fun '(name, child) =>
                  match child with
                  | DirNode _ =>
                      if name_in name IGNORED_DIRS then []
                      else walk (dirpath ++ [name]) child
                  | FileNode _ _ => []
                  end) entries
  end.

Definition _walk_files (root : node) : list Found := walk [] root.

Definition _detect_module (rel_path : string) : string :=
  let parts := Pathlib.parts rel_path in
  if (length parts <? 2)%nat then "root"
  (* If the path starts with src/, use the next part *)
  else if bool_decide (parts !! 0%nat = Some "src") && (3 <=? length parts)%nat
  then default "" (parts !! 1%nat)
  else default "" (parts !! 0%nat).

Definition _write_index {index_json : JsonCodec CodebaseIndex}
           (tmp_path : string)
           (data : CodebaseIndex) : IO unit :=
  atomic_write tmp_path FILE_INDEX_FILE (json_dumps data).

Section Index.
Context {tokenizer : Tokenizer} {scanner : Scanner}
        {index_json : JsonCodec CodebaseIndex}.

(** One round of the loop of [index]: the state is [files_data],
    [modules], [total_tokens]. *)
Definition index_step
           (st : dict FileRecord * dict (list string) * nat) (f : Found)
  : dict FileRecord * dict (list string) * nat :=
  let '(files_data, modules, total_tokens) := st in
  let rel := rel_path f in
  match content f with
  | None => st
  | Some content =>
      let tokens := count_tokens content in
      let total_tokens := (total_tokens + tokens)%nat in
      let imports := _detect_imports content (Pathlib.suffix (fname f)) in
      let exports := _detect_exports content (Pathlib.suffix (fname f)) in
      let module := _detect_module rel in
      let files_data :=
        dict_set rel
          {| purpose := Some ""; module := Some module;
             imports := Some imports; exports := Some exports;
             token_count := Some (Z.of_nat tokens);
             last_modified := Some (mtime f); summary := Some "" |}
          files_data in
      (* Build module -> files mapping *)
      let modules :=
        if negb (String.eqb module "")
        then dict_set module (default [] (dict_get module modules) ++ [rel])
                      modules
        else modules in
      (files_data, modules, total_tokens)
  end.

Definition index_loop (root : node)
  : dict FileRecord * dict (list string) * nat :=
  fold_left index_step (_walk_files root) ([], [], 0%nat).

(** [index()]: [now] is the clock, [tmp_path] the temporary name. *)
Definition index (root : node) (now tmp_path : string) : IO CodebaseIndex :=
  let '(files_data, modules, total_tokens) := index_loop root in
  let index_data :=
    {| indexed_at := Some now;
       total_files := Some (Z.of_nat (length files_data));
       total_tokens_if_full_read := Some (Z.of_nat total_tokens);
       files := Some files_data;
       modules := Some modules |} in
  _ ← _write_index tmp_path index_data;
  mret index_data.

Definition empty_index : CodebaseIndex :=
  {| indexed_at := Some ""; total_files := Some 0%Z;
     total_tokens_if_full_read := Some 0%Z;
     files := Some []; modules := Some [] |}.

Definition load : IO CodebaseIndex :=
  present ← exists_ FILE_INDEX_FILE;
  if negb present then mret empty_index
  else try_except (raw ← read_text FILE_INDEX_FILE; loads raw)
                  (mret empty_index).

End Index.

End FileIndexer.

(** ** [memory/memory_manager.py] *)

Module MemoryManager.
Import Constants Json Sys.

(** One entry of ["modules"] in [memory.json]. *)
Module ModuleEntry.
Record t : Type := {
  status : option string;
  files : option (list string);
  purpose : option string;
  dependencies : option (list string)
}.
(** [mod["status"] = s] *)
Definition set_status (s : string) (m : t) : t :=
  {| status := Some s; files := files m; purpose := purpose m;
     dependencies := dependencies m |}.
End ModuleEntry.

(** One entry of ["decisions"]. *)
Module DecisionEntry.
Record t : Type := {
  decision : string;
  reason : string;
  date : string;
  affects : option (list string)
}.
End DecisionEntry.

(** One entry of ["change_history"]. *)
Module ChangeEvent.
Record t : Type := {
  date : string;
  description : string;
  files_changed : list string;
  tokens_used : Z;
  tokens_saved : Z
}.
End ChangeEvent.

(** The document [memory.json], which is also the manager's [_data]. *)
Record MemoryRecord : Type := {
  project_name : option string;
  created_at : option string;
  last_updated : option string;
  stack : option (dict (option string));
  ai_target : option string;
  modules : option (dict ModuleEntry.t);
  decisions : option (list DecisionEntry.t);
  change_history : option (list ChangeEvent.t)
}.

(** [self._data = {}] of [__init__]. *)
Definition no_data : MemoryRecord :=
  {| project_name := None; created_at := None; last_updated := None;
     stack := None; ai_target := None; modules := None; decisions := None;
     change_history := None |}.

Definition set_last_updated (now : string) (d : MemoryRecord) : MemoryRecord :=
  {| project_name := project_name d; created_at := created_at d;
     last_updated := Some now; stack := stack d; ai_target := ai_target d;
     modules := modules d; decisions := decisions d;
     change_history := change_history d |}.

Definition set_modules (m : dict ModuleEntry.t) (d : MemoryRecord)
  : MemoryRecord :=
  {| project_name := project_name d; created_at := created_at d;
     last_updated := last_updated d; stack := stack d;
     ai_target := ai_target d; modules := Some m; decisions := decisions d;
     change_history := change_history d |}.

Definition set_decisions (l : list DecisionEntry.t) (d : MemoryRecord)
  : MemoryRecord :=
  {| project_name := project_name d; created_at := created_at d;
     last_updated := last_updated d; stack := stack d;
     ai_target := ai_target d; modules := modules d; decisions := Some l;
     change_history := change_history d |}.

Definition set_change_history (l : list ChangeEvent.t) (d : MemoryRecord)
  : MemoryRecord :=
  {| project_name := project_name d; created_at := created_at d;
     last_updated := last_updated d; stack := stack d;
     ai_target := ai_target d; modules := modules d;
     decisions := decisions d; change_history := Some l |}.

Definition set_stack (s : dict (option string)) (d : MemoryRecord)
  : MemoryRecord :=
  {| project_name := project_name d; created_at := created_at d;
     last_updated := last_updated d; stack := Some s;
     ai_target := ai_target d; modules := modules d;
     decisions := decisions d; change_history := change_history d |}.

(** [self._path.with_suffix(".json.bak")] *)
Definition BACKUP_FILE : string := "memory.json.bak".

(** [_default_memory()]: [root_name] is [self._root.name], [now] the
    clock. *)
Definition _default_memory (root_name now : string) : MemoryRecord :=
  {| project_name := Some root_name;
     created_at := Some now;
     last_updated := Some now;
     stack := Some [("language", Some ""); ("frontend", None);
                    ("backend", None); ("database", None); ("auth", None);
                    ("hosting", None)];
     ai_target := Some "both";
     modules := Some [];
     decisions := Some [];
     change_history := Some [] |}.

(** [_backup_corrupt()]: an [OSError] of the rename is passed over. *)
Definition _backup_corrupt : IO unit :=
  present ← exists_ MEMORY_FILE;
  if present : bool
  then try_pass (rename MEMORY_FILE BACKUP_FILE)
  else mret tt.

Section Store.
Context {memory_json : JsonCodec MemoryRecord}.

(** [load()]: the value returned is also the new [self._data]. *)
Definition load (root_name now : string) : IO MemoryRecord :=
  present ← exists_ MEMORY_FILE;
  if negb present then mret (_default_memory root_name now)
  else
    try_except
      (raw ← read_text MEMORY_FILE; loads raw)
      (_ ← _backup_corrupt; mret (_default_memory root_name now)).

(** [save(data)]: [_data] is the manager's current data, [data] the
    optional argument; the value returned is the new [self._data]. *)
Definition save (_data : MemoryRecord) (data : option MemoryRecord)
           (now tmp_path : string) : IO MemoryRecord :=
  let _data := default _data data in
  let _data := set_last_updated now _data in
  _ ← atomic_write tmp_path MEMORY_FILE (json_dumps _data);
  mret _data.

End Store.

(** [set(a) & set(b)] is not empty. *)
Definition intersects (a b : list string) : bool :=
  existsb (fun x => existsb (String.eqb x) b) a.

Definition get_module (_data : MemoryRecord) (name : string)
  : option ModuleEntry.t :=
  dict_get name (default [] (modules _data)).

Definition get_modules_for_files (_data : MemoryRecord)
           (file_paths : list string) : list string :=
  let modules := default [] (modules _data) in
  map fst
      (List.filter
         (fun '(mod_name, mod_info) =>
            intersects (default [] (ModuleEntry.files mod_info)) file_paths)
         modules).

Definition get_decisions_for_modules (_data : MemoryRecord)
           (module_names : list string) : list DecisionEntry.t :=
  let decisions := default [] (decisions _data) in
  List.filter
    (fun d => intersects module_names (default [] (DecisionEntry.affects d)))
    decisions.

(** [set_module(name, status=..., files=..., purpose=..., dependencies=...)];
    an argument left out is [None]. *)
Definition set_module (_data : MemoryRecord) (name : string)
           (status : option string) (files : option (list string))
           (purpose : option string) (dependencies : option (list string))
  : MemoryRecord :=
  set_modules
    (dict_set name
       {| ModuleEntry.status := Some (default "not_started" status);
          ModuleEntry.files := Some (default [] files);
          ModuleEntry.purpose := Some (default "" purpose);
          ModuleEntry.dependencies := Some (default [] dependencies) |}
       (default [] (modules _data)))
    _data.

Definition add_decision (_data : MemoryRecord) (now : string)
           (decision reason : string) (affects : list string) : MemoryRecord :=
  set_decisions
    (default [] (decisions _data)
     ++ [{| DecisionEntry.decision := decision;
            DecisionEntry.reason := reason;
            DecisionEntry.date := now;
            DecisionEntry.affects := Some affects |}])
    _data.

Definition add_change (_data : MemoryRecord) (now : string)
           (description : string) (files_changed : list string)
           (tokens_used tokens_saved : Z) : MemoryRecord :=
  set_change_history
    (default [] (change_history _data)
     ++ [{| ChangeEvent.date := now;
            ChangeEvent.description := description;
            ChangeEvent.files_changed := files_changed;
            ChangeEvent.tokens_used := tokens_used;
            ChangeEvent.tokens_saved := tokens_saved |}])
    _data.

End MemoryManager.

(** ** [memory/context_finder.py] *)

Module ContextFinder.
Import Constants TokenCounter Json Sys.

Definition quoted (s : string) : string := dq +:+ s +:+ dq.

Definition SYSTEM_PROMPT : string :=
  "You are analyzing a code change request. "
  +:+ "Identify which modules and files are affected. "
  +:+ "Respond ONLY with valid JSON.".

Definition CHANGE_SCHEMA : string :=
  join nl [
    "{";
    "  " +:+ quoted "change_type" +:+ ": "
         +:+ quoted "feature | bugfix | refactor | config | style" +:+ ",";
    "  " +:+ quoted "affected_modules" +:+ ": ["
         +:+ quoted "auth" +:+ ", " +:+ quoted "api" +:+ "],";
    "  " +:+ quoted "affected_files" +:+ ": ["
         +:+ quoted "src/auth/login.py" +:+ ", "
         +:+ quoted "src/api/users.py" +:+ "],";
    "  " +:+ quoted "needs_new_files" +:+ ": true,";
    "  " +:+ quoted "new_files_needed" +:+ ": ["
         +:+ quoted "src/auth/forgot_password.py" +:+ "],";
    "  " +:+ quoted "context_needed" +:+ ": ["
         +:+ quoted "auth module summary" +:+ ", "
         +:+ quoted "user model" +:+ "],";
    "  " +:+ quoted "estimated_complexity" +:+ ": "
         +:+ quoted "trivial | simple | moderate | complex" +:+ ",";
    "  " +:+ quoted "token_estimate" +:+ ": 450";
    "}"
  ].

(** The dataclass [ChangeAnalysis]. *)
Record ChangeAnalysis : Type := {
  change_type : string;
  affected_modules : list string;
  affected_files : list string;
  needs_new_files : bool;
  new_files_needed : list string;
  context_needed : list string;
  estimated_complexity : string;
  token_estimate : Z
}.

(** The JSON object the classifier answers with: each key of the schema
    may be missing. *)
Module Reply.
Record t : Type := {
  change_type : option string;
  affected_modules : option (list string);
  affected_files : option (list string);
  needs_new_files : option bool;
  new_files_needed : option (list string);
  context_needed : option (list string);
  estimated_complexity : option string;
  token_estimate : option Z
}.
End Reply.

Definition from_dict (data : Reply.t) : ChangeAnalysis :=
  {| change_type := default "feature" (Reply.change_type data);
     affected_modules := default [] (Reply.affected_modules data);
     affected_files := default [] (Reply.affected_files data);
     needs_new_files := default false (Reply.needs_new_files data);
     new_files_needed := default [] (Reply.new_files_needed data);
     context_needed := default [] (Reply.context_needed data);
     estimated_complexity := default "simple" (Reply.estimated_complexity data);
     token_estimate := default 0%Z (Reply.token_estimate data) |}.

(** The dataclass [ContextPackage]. *)
Record ContextPackage : Type := {
  files : dict string;
  decisions : list MemoryManager.DecisionEntry.t;
  module_summaries : dict string;
  total_tokens : nat;
  analysis : ChangeAnalysis
}.

(** [ContextPackage.to_injection_text()] *)
Definition to_injection_text (self : ContextPackage) : string :=
  let modules_part :=
    match module_summaries self with
    | [] => []
    | summaries =>
        "## Relevant Modules"
        :: map (fun '(name, summary) => "### " +:+ name +:+ nl +:+ summary)
               summaries
    end in
  let files_part :=
    match files self with
    | [] => []
    | contents =>
        "## Relevant Files"
        :: map (fun '(path, content) =>
                  "### " +:+ path +:+ nl +:+ "```" +:+ nl +:+ content
                  +:+ nl +:+ "```")
               contents
    end in
  let decisions_part :=
    match decisions self with
    | [] => []
    | ds =>
        "## Relevant Decisions"
        :: map (fun d =>
                  "- " +:+ MemoryManager.DecisionEntry.decision d
                  +:+ " (" +:+ MemoryManager.DecisionEntry.reason d +:+ ")")
               ds
    end in
  join (nl +:+ nl) (modules_part ++ files_part ++ decisions_part).

(** The summary of the index sent to the classifier. *)
Module Summary.
Record file : Type := { purpose : string; module : string }.
Record t : Type := {
  modules : dict (list string);
  files : dict file
}.
End Summary.

(** The external classifier behind [call_ai]: its answer to the [n]-th
    call of the run (counting from 0), which is a parsed object, [None]
    when the text it produced is not JSON, or an exception of the SDK.
    The [client] argument, an SDK handle passed through unchanged, is left
    out. *)
Class Classifier : Type := {
  respond : nat -> AiCall -> result (option Reply.t)
}.

Definition call_ai {classifier : Classifier} (stage system_prompt user_message
                                   provider : string)
  : IO (option Reply.t) :=
  fun w =>
    let request := {| Sys.stage := stage; Sys.system_prompt := system_prompt;
                      Sys.user_message := user_message;
                      Sys.provider := provider |} in
    (respond (length (calls w)) request,
     {| disk := disk w; calls := calls w ++ [request] |}).

Definition RETRY_ERROR : string :=
  "Failed to parse change analysis as JSON after retry.".

Section Finder.
Context {tokenizer : Tokenizer} {classifier : Classifier}.
Context {index_json : JsonCodec FileIndexer.CodebaseIndex}
        {memory_json : JsonCodec MemoryManager.MemoryRecord}
        {summary_json : JsonCodec Summary.t}.

Definition index_summary (index : FileIndexer.CodebaseIndex) : string :=
  json_dumps
    {| Summary.modules := default [] (FileIndexer.modules index);
       Summary.files :=
         map (fun '(k, v) =>
                (k, {| Summary.purpose := default "" (FileIndexer.purpose v);
                       Summary.module := default "" (FileIndexer.module v) |}))
             (default [] (FileIndexer.files index)) |}.

Definition first_message (description summary : string) : string :=
  "Change request: " +:+ description +:+ nl +:+ nl
  +:+ "Available project structure:" +:+ nl +:+ summary +:+ nl +:+ nl
  +:+ "Respond ONLY with JSON matching this schema:" +:+ nl +:+ CHANGE_SCHEMA.

Definition retry_message (description summary : string) : string :=
  "Change request: " +:+ description +:+ nl +:+ nl
  +:+ "Available project structure:" +:+ nl +:+ summary +:+ nl +:+ nl
  +:+ "CRITICAL: Valid JSON only, no markdown." +:+ nl +:+ nl
  +:+ "Schema:" +:+ nl +:+ CHANGE_SCHEMA.

Definition analyze_change (description provider : string)
  : IO ChangeAnalysis :=
  index ← FileIndexer.load;
  (* Build a summary of available modules/files *)
  let index_summary := index_summary index in
  let user_message := first_message description index_summary in
  data ← call_ai "change_analysis" SYSTEM_PROMPT user_message provider;
  match data with
  | Some data => mret (from_dict data)
  | None =>
      (* Retry *)
      let user_message_retry := retry_message description index_summary in
      data ← call_ai "change_analysis" SYSTEM_PROMPT user_message_retry
                     provider;
      match data with
      | Some data => mret (from_dict data)
      | None => io_raise (ValueError RETRY_ERROR)
      end
  end.

(** [imp.replace(".", "/") in idx_path or imp in idx_path] *)
Definition import_matches (imp idx_path : string) : bool :=
  str_in (replace_char Pathlib.dot Pathlib.slash imp) idx_path
  || str_in imp idx_path.

(** The inner [for idx_path in files_in_index: if ...: add; break]: the
    path it adds, if any. *)
Definition first_match (files_in_index : dict FileIndexer.FileRecord)
           (imp : string) : option string :=
  List.find (import_matches imp) (dict_keys files_in_index).

(** One round of [for fpath in list(files_to_load)]. *)
Definition expand_file (files_in_index : dict FileIndexer.FileRecord)
           (files_to_load : gset string) (fpath : string) : gset string :=
  match dict_get fpath files_in_index with
  | Some record =>
      let imports := default [] (FileIndexer.imports record) in
      fold_left (fun files_to_load imp =>
                   match first_match files_in_index imp with
                   | Some idx_path => files_to_load ∪ {[idx_path]}
                   | None => files_to_load
                   end)
                imports files_to_load
  | None => files_to_load
  end.

(** The working file set of [build_context] once the imports are added:
    the loop runs over a snapshot of the set taken before it starts. *)
Definition working_set (files_in_index : dict FileIndexer.FileRecord)
           (affected_files : list string) : gset string :=
  let files_to_load : gset string := list_to_set affected_files in
  fold_left (expand_file files_in_index) (elements files_to_load)
            files_to_load.

(** One round of the loop that loads file contents: the state is
    [files_content], [total_tokens]. *)
Definition load_file (src : sources) (st : dict string * nat)
           (fpath : string) : dict string * nat :=
  let '(files_content, total_tokens) := st in
  match src fpath with
  | Some (Some content) =>
      let tokens := count_tokens content in
      (dict_set fpath content files_content, (total_tokens + tokens)%nat)
  | Some None => st
  | None => st
  end.

Definition summary_line (files_in_index : dict FileIndexer.FileRecord)
           (mf : string) : string :=
  let info := default FileIndexer.no_record (dict_get mf files_in_index) in
  "- " +:+ mf +:+ ": "
  +:+ default "no description" (FileIndexer.purpose info)
  +:+ " (" +:+ str_of_int (default 0%Z (FileIndexer.token_count info))
  +:+ " tokens)".

Definition module_summary (index : FileIndexer.CodebaseIndex)
           (mod_name : string) : string :=
  let files_in_index := default [] (FileIndexer.files index) in
  let mod_files :=
    default [] (dict_get mod_name (default [] (FileIndexer.modules index))) in
  let summary_parts := map (summary_line files_in_index) mod_files in
  match summary_parts with
  | [] => "no files"
  | _ => join nl summary_parts
  end.

(** The last step of [build_context]: compress if over the threshold. *)
Definition compress_if_over (files_content : dict string) (total_tokens : nat)
  : dict string * nat :=
  if (CONTEXT_TOKEN_THRESHOLD <? total_tokens)%nat then
    let files_content :=
      map (fun '(k, v) => (k, Compressor.compress_content v true))
          files_content in
    (files_content,
     list_sum (map count_tokens (dict_values files_content)))
  else (files_content, total_tokens).

(** [build_context(analysis)]: [src] are the project files, [root_name]
    and [now] what [self._memory.load()] needs for a default record. *)
Definition build_context (src : sources) (root_name now : string)
           (analysis : ChangeAnalysis) : IO ContextPackage :=
  index ← FileIndexer.load;
  _data ← MemoryManager.load root_name now;
  (* Load affected files + 1-level imports *)
  let files_in_index := default [] (FileIndexer.files index) in
  let files_to_load := working_set files_in_index (affected_files analysis) in
  (* Load file contents *)
  let '(files_content, total_tokens) :=
    fold_left (load_file src) (elements files_to_load) ([], 0%nat) in
  (* Load module summaries *)
  let module_summaries :=
    fold_left (fun summaries mod_name =>
                 dict_set mod_name (module_summary index mod_name) summaries)
              (affected_modules analysis) [] in
  (* Load relevant decisions *)
  let decisions :=
    MemoryManager.get_decisions_for_modules _data (affected_modules analysis) in
  (* Compress if over threshold *)
  let '(files_content, total_tokens) :=
    compress_if_over files_content total_tokens in
  mret {| files := files_content;
          decisions := decisions;
          module_summaries := module_summaries;
          total_tokens := total_tokens;
          analysis := analysis |}.

End Finder.

End ContextFinder.

(** ** [memory/memory_updater.py] *)

Module MemoryUpdater.
Import Constants TokenCounter Json Sys.

Section Updater.
Context {tokenizer : Tokenizer}.
Context {index_json : JsonCodec FileIndexer.CodebaseIndex}
        {memory_json : JsonCodec MemoryManager.MemoryRecord}.

(** [update_stack(stack)]; the manager's data after the call is
    returned. *)
Definition update_stack (root_name now_load now_save tmp_path : string)
           (stack : dict (option string)) : IO MemoryManager.MemoryRecord :=
  _data ← MemoryManager.load root_name now_load;
  let _data := MemoryManager.set_stack stack _data in
  MemoryManager.save _data None now_save tmp_path.

(** One round of the loop of [_reindex_files] over [files_data]. *)
Definition reindex_file (src : sources)
           (files_data : dict FileIndexer.FileRecord) (rel_path : string)
  : dict FileIndexer.FileRecord :=
  match src rel_path with
  | None =>
      (* File was deleted: remove from index *)
      dict_pop rel_path files_data
  | Some None => files_data
  | Some (Some content) =>
      let tokens := count_tokens content in
      let existing :=
        default FileIndexer.no_record (dict_get rel_path files_data) in
      dict_set rel_path
               (FileIndexer.set_token_count (Z.of_nat tokens) existing)
               files_data
  end.

(** [sum(f.get("token_count", 0) for f in files_data.values())] *)
Definition sum_token_counts (files_data : dict FileIndexer.FileRecord) : Z :=
  fold_right Z.add 0%Z
    (map (fun f => default 0%Z (FileIndexer.token_count f))
         (dict_values files_data)).

(** [_reindex_files(file_paths)]; the index it wrote is returned. *)
Definition _reindex_files (src : sources) (file_paths : list string)
           (tmp_path : string) : IO FileIndexer.CodebaseIndex :=
  index ← FileIndexer.load;
  let files_data := default [] (FileIndexer.files index) in
  let files_data := fold_left (reindex_file src) file_paths files_data in
  (* Recalculate total tokens *)
  let index :=
    {| FileIndexer.indexed_at := FileIndexer.indexed_at index;
       FileIndexer.total_files := Some (Z.of_nat (length files_data));
       FileIndexer.total_tokens_if_full_read :=
         Some (sum_token_counts files_data);
       FileIndexer.files := Some files_data;
       FileIndexer.modules := FileIndexer.modules index |} in
  _ ← FileIndexer._write_index tmp_path index;
  mret index.

(** [mod = get_module(mod_name); if mod is not None: mod["status"] = ...] *)
Definition mark_in_progress (_data : MemoryManager.MemoryRecord)
           (mod_name : string) : MemoryManager.MemoryRecord :=
  match MemoryManager.get_module _data mod_name with
  | Some mod_entry =>
      MemoryManager.set_modules
        (dict_set mod_name
                  (MemoryManager.ModuleEntry.set_status "in_progress"
                                                        mod_entry)
                  (default [] (MemoryManager.modules _data)))
        _data
  | None => _data
  end.

(** The clock readings and temporary names one call of
    [update_after_change] consumes. *)
Record Times : Type := {
  at_load : string;
  at_change : string;
  at_save : string;
  tmp_memory : string;
  tmp_index : string
}.

(** [update_after_change(...)]; the manager's data after the call is
    returned. *)
Definition update_after_change (src : sources) (root_name : string)
           (t : Times) (change_description : string)
           (analysis : ContextFinder.ChangeAnalysis)
           (tokens_used full_codebase_tokens : Z)
  : IO MemoryManager.MemoryRecord :=
  _data ← MemoryManager.load root_name (at_load t);
  (* Record the change *)
  let tokens_saved := Z.max 0 (full_codebase_tokens - tokens_used) in
  let _data :=
    MemoryManager.add_change _data (at_change t) change_description
      (ContextFinder.affected_files analysis) tokens_used tokens_saved in
  (* Update module statuses *)
  let _data :=
    fold_left mark_in_progress (ContextFinder.affected_modules analysis)
              _data in
  (* Save *)
  _data ← MemoryManager.save _data None (at_save t) (tmp_memory t);
  (* Re-index changed files *)
  _ ← _reindex_files src (ContextFinder.affected_files analysis) (tmp_index t);
  mret _data.

End Updater.

End MemoryUpdater.

(** ** [builders/claude_builder.py], [builders/gemini_builder.py]:
       injecting the context

    The two [inject_context] methods have the same body, but for the file
    they rewrite; [Builders] holds that body.  Its functions run in a
    world whose [disk] is the folder of the builder ([.claude] or
    [.gemini]).  Positions in a [str] are counted in code points by
    Python and in bytes here; every position the body uses comes from a
    search in the same string, so the slices are the same. *)

Module Builders.
Import Sys.

(** [s[:n]] *)
Fixpoint take (n : nat) (s : string) : string :=
  match n, s with
  | S n', String c s' => String c (take n' s')
  | _, _ => EmptyString
  end.

Definition marker_start : string := "<!-- PREFLIGHT CONTEXT START -->".
Definition marker_end : string := "<!-- PREFLIGHT CONTEXT END -->".

(** Remove any previous context injection: [marker_start in content] holds
    exactly when the search for it succeeds, and [content.index] is then
    the position found. *)
Definition without_previous (content : string) : string :=
  match Compressor.find marker_start content with
  | Some start =>
      let before := take start content in
      let after :=
        match Compressor.find marker_end content with
        | Some after_idx =>
            Compressor.drop (after_idx + String.length marker_end) content
        | None => ""
        end in
      before +:+ after
  | None => content
  end.

Definition injection (context_text : string) : string :=
  nl +:+ nl +:+ marker_start +:+ nl
  +:+ "# Current Change Context (Auto-injected by Preflight)" +:+ nl +:+ nl
  +:+ context_text +:+ nl
  +:+ marker_end +:+ nl.

(** The text written back, from the text read. *)
Definition injected_content (content context_text : string) : string :=
  let content := without_previous content in
  (* Append new context *)
  Compressor.rstrip content +:+ injection context_text.

Definition carriage_return : string :=
  String (ascii_of_nat 13) EmptyString.

(** The newlines of a file read in text mode, with the default
    [newline=None]: a carriage return followed by a line feed, and a
    carriage return alone, both reach the program as one line feed. *)
Fixpoint universal_newlines (s : string) : string :=
  match s with
  | EmptyString => EmptyString
  | String c s' =>
      if Ascii.eqb c (ascii_of_nat 13) then
        String Compressor.line_feed
               match s' with
               | String c' s'' =>
                   if Ascii.eqb c' Compressor.line_feed
                   then universal_newlines s''
                   else universal_newlines s'
               | EmptyString => EmptyString
               end
      else String c (universal_newlines s')
  end.

(** [path.read_text(encoding="utf-8")]: the bytes are decoded, then the
    newlines translated. *)
Definition read_text (path : string) : IO string :=
  raw ← Sys.read_text path;
  mret (universal_newlines raw).

(** [path.write_text(text, encoding="utf-8")] on a path whose directory
    exists.  On POSIX a line feed is written as it is. *)
Definition write_text (path text : string) : IO unit :=
  fun w => match disk w !! path with
           | Some (Dir _) => (Raise OSError, w)
           | _ => (Ok tt, set_disk (<[path := File text]> (disk w)) w)
           end.

Definition inject_context_into (path context_text : string) : IO unit :=
  present ← exists_ path;
  if negb present then mret tt
  else
    content ← read_text path;
    write_text path (injected_content content context_text).

End Builders.

Module ClaudeBuilder.

(** [ClaudeBuilder.inject_context(context_text)] *)
Definition inject_context (context_text : string) : Sys.IO unit :=
  Builders.inject_context_into "CLAUDE.md" context_text.

End ClaudeBuilder.

Module GeminiBuilder.

(** [GeminiBuilder.inject_context(context_text)] *)
Definition inject_context (context_text : string) : Sys.IO unit :=
  Builders.inject_context_into "GEMINI.md" context_text.

End GeminiBuilder.

(** ** Notions used to state the properties *)

Module Notions.
Import Constants Sys.

(** A rate of the table as a float: the float its literal denotes is
    positive, below 16 and within [2 ^ -50] of the decimal number the
    literal spells, which is at most 15. *)
Definition float_rate (q : Q) : Prop :=
  Float.below 4 (Float.literal q)
  /\ Float.sign (Float.literal q) = false
  /\ (Qabs (Float.value (Float.literal q) - q) <= 1 # 1125899906842624)%Q
  /\ (0 <= q <= 15)%Q.

(** The module name as the specification words it: one segment, the
    sentinel; under [src], the next segment; otherwise the first. *)
Definition module_as_specified (parts : list string) : string :=
  match parts with
  | [] => "root"
  | [_] => "root"
  | first :: second :: _ =>
      if String.eqb first "src" then second else first
  end.

(** A name as the file system has them: without a slash. *)
Definition valid_name (name : string) : bool :=
  forallb (fun c => negb (Ascii.eqb c Pathlib.slash))
          (list_ascii_of_string name).

(** A tree as a file system holds it: in every directory the names are
    pairwise distinct and free of slashes. *)
Fixpoint well_formed (n : FileIndexer.node) : bool :=
  match n with
  | FileIndexer.FileNode _ _ => true
  | FileIndexer.DirNode entries =>
      bool_decide (NoDup (map fst entries))
      && forallb (fun '(name, child) => valid_name name && well_formed child)
                 entries
  end.

(** [located root dirs name]: the tree has a file called [name] in the
    directory reached from the root through [dirs]. *)
Inductive located : FileIndexer.node -> list string -> string -> Prop :=
| located_here entries name content mtime :
    In (name, FileIndexer.FileNode content mtime) entries ->
    located (FileIndexer.DirNode entries) [] name
| located_below entries dir child dirs name :
    In (dir, child) entries ->
    located child dirs name ->
    located (FileIndexer.DirNode entries) (dir :: dirs) name.

(** [file_at root dirs name content mtime]: in the directory reached from
    the root through [dirs], the entry [name] is a file with this content
    and this modification time. *)
Inductive file_at
  : FileIndexer.node -> list string -> string -> option string -> string
    -> Prop :=
| file_here entries name content mtime :
    In (name, FileIndexer.FileNode content mtime) entries ->
    file_at (FileIndexer.DirNode entries) [] name content mtime
| file_below entries dir child dirs name content mtime :
    In (dir, child) entries ->
    file_at child dirs name content mtime ->
    file_at (FileIndexer.DirNode entries) (dir :: dirs) name content mtime.

(** The record the loop of [index] stores for a file it could read. *)
Definition index_record {tokenizer : TokenCounter.Tokenizer}
           {scanner : FileIndexer.Scanner}
           (f : FileIndexer.Found) (text : string) : FileIndexer.FileRecord :=
  let rel := FileIndexer.rel_path f in
  let suffix := Pathlib.suffix (FileIndexer.fname f) in
  {| FileIndexer.purpose := Some "";
     FileIndexer.module := Some (FileIndexer._detect_module rel);
     FileIndexer.imports := Some (FileIndexer._detect_imports text suffix);
     FileIndexer.exports := Some (FileIndexer._detect_exports text suffix);
     FileIndexer.token_count :=
       Some (Z.of_nat (TokenCounter.count_tokens text));
     FileIndexer.last_modified := Some (FileIndexer.mtime f);
     FileIndexer.summary := Some "" |}.

(** The records of the files of a list that can be read, in the order of
    the list. *)
Definition indexed_records {tokenizer : TokenCounter.Tokenizer}
           {scanner : FileIndexer.Scanner}
           (l : list FileIndexer.Found) : dict FileIndexer.FileRecord :=
  flat_map (fun f => match FileIndexer.content f with
                     | Some text => [(FileIndexer.rel_path f,
                                      index_record f text)]
                     | None => []
                     end) l.

(** The module mapping and the file mapping of an index agree: a record
    names the module inferred from its key and is listed under it, and
    what a module lists has a record and is inferred to be of that
    module. *)
Definition modules_agree (files_data : dict FileIndexer.FileRecord)
           (modules : dict (list string)) : Prop :=
  (forall k r,
      dict_get k files_data = Some r ->
      FileIndexer.module r = Some (FileIndexer._detect_module k)
      /\ In k (default [] (dict_get (FileIndexer._detect_module k) modules)))
  /\ (forall m l k,
         dict_get m modules = Some l -> In k l ->
         FileIndexer._detect_module k = m /\ is_Some (dict_get k files_data)).

(** The location of a file met by the walk. *)
Definition location (f : FileIndexer.Found) : list string * string :=
  (FileIndexer.dirpath f, FileIndexer.fname f).

(** What the walk takes from one entry of a directory: the file, if its
    suffix is indexed; the walk of the sub-directory, if it is not
    ignored. *)
Definition file_of (dirpath : list string) (e : string * FileIndexer.node)
  : list FileIndexer.Found :=
  let '(name, child) := e in
  match child with
  | FileIndexer.FileNode content mtime =>
      if FileIndexer.indexable name
      then [{| FileIndexer.dirpath := dirpath; FileIndexer.fname := name;
               FileIndexer.content := content; FileIndexer.mtime := mtime |}]
      else []
  | FileIndexer.DirNode _ => []
  end.

Definition subdir_of (dirpath : list string) (e : string * FileIndexer.node)
  : list FileIndexer.Found :=
  let '(name, child) := e in
  match child with
  | FileIndexer.DirNode _ =>
      if name_in name IGNORED_DIRS then []
      else FileIndexer.walk (dirpath ++ [name]) child
  | FileIndexer.FileNode _ _ => []
  end.

(** The index invariant: the file count is the size of the file mapping
    and the token total is the sum of the per-file token counts (a record
    without a count contributing 0). *)
Definition index_consistent (index : FileIndexer.CodebaseIndex) : Prop :=
  FileIndexer.total_files index
  = Some (Z.of_nat (length (default [] (FileIndexer.files index))))
  /\ FileIndexer.total_tokens_if_full_read index
     = Some (MemoryUpdater.sum_token_counts
               (default [] (FileIndexer.files index))).

(** The request [analyze_change] sends with a given user message. *)
Definition request_of (provider message : string) : AiCall :=
  {| stage := "change_analysis";
     system_prompt := ContextFinder.SYSTEM_PROMPT;
     user_message := message; provider := provider |}.

(** The world after further calls to the classifier. *)
Definition with_calls (w : world) (sent : list AiCall) : world :=
  {| disk := disk w; calls := calls w ++ sent |}.

(** A path one hop away from [fpath]: the first match of one of the
    imports the index records for [fpath]. *)
Definition one_hop (files_in_index : dict FileIndexer.FileRecord)
           (fpath p : string) : Prop :=
  exists record imp,
    dict_get fpath files_in_index = Some record
    /\ imp ∈ default [] (FileIndexer.imports record)
    /\ ContextFinder.first_match files_in_index imp = Some p.

(** The files of a list of paths that exist and can be read, with their
    contents. *)
Definition readable_files (src : sources) (paths : list string) : dict string :=
  flat_map (fun k => match src k with
                     | Some (Some v) => [(k, v)]
                     | _ => []
                     end) paths.

(** One compression of every content. *)
Definition compressed (files_content : dict string) : dict string :=
  map (fun '(k, v) => (k, Compressor.compress_content v true)) files_content.

(** The sum of the token counts of the contents. *)
Definition token_sum {tokenizer : TokenCounter.Tokenizer}
           (files_content : dict string) : nat :=
  list_sum (map TokenCounter.count_tokens (dict_values files_content)).

End Notions.

(** ** Stand-ins for the libraries, used to run the model

    The properties of Part II hold for every tokenizer, scanner, JSON codec
    and classifier.  The instances below serve to evaluate the model on
    concrete inputs: a tokenizer that counts bytes, scanners that find
    nothing, a JSON printer in the layout of [json.dump(..., indent=2,
    ensure_ascii=False)] with a decoder that recognises the documents of a
    given corpus, and a classifier that plays a script. *)

Module JsonText.
Import Json.

Inductive value : Type :=
| Null
| Bool (b : bool)
| Int (n : Z)
| Str (s : string)
| Arr (items : list value)
| Obj (members : list (string * value)).

Definition hex_digit (n : nat) : ascii :=
  ascii_of_nat (if (n <? 10)%nat then 48 + n else 87 + n).

(** A character inside a JSON string: the quote, the backslash and the
    control characters are escaped, everything else is written as is. *)
Definition escape_char (c : ascii) : string :=
  let n := nat_of_ascii c in
  if (n =? 34)%nat then "\" +:+ dq
  else if (n =? 92)%nat then "\\"
  else if (n =? 10)%nat then "\n"
  else if (n =? 13)%nat then "\r"
  else if (n =? 9)%nat then "\t"
  else if (n =? 8)%nat then "\b"
  else if (n =? 12)%nat then "\f"
  else if (n <? 32)%nat
  then "\u00" +:+ String (hex_digit (n / 16)) (String (hex_digit (n mod 16)) "")
  else String c "".

Fixpoint escape (s : string) : string :=
  match s with
  | EmptyString => EmptyString
  | String c s' => escape_char c +:+ escape s'
  end.

Definition print_string (s : string) : string := dq +:+ escape s +:+ dq.

Definition pad (level : nat) : string :=
  string_of_list_ascii (repeat (ascii_of_nat 32) (2 * level)).

Fixpoint print (level : nat) (v : value) : string :=
  match v with
  | Null => "null"
  | Bool true => "true"
  | Bool false => "false"
  | Int n => str_of_int n
  | Str s => print_string s
  | Arr [] => "[]"
  | Arr items =>
      "[" +:+ nl
      +:+ join ("," +:+ nl)
               (map (fun item => pad (S level) +:+ print (S level) item) items)
      +:+ nl +:+ pad level +:+ "]"
  | Obj [] => "{}"
  | Obj members =>
      "{" +:+ nl
      +:+ join ("," +:+ nl)
               (map (fun '(k, item) =>
                       pad (S level) +:+ print_string k +:+ ": "
                       +:+ print (S level) item) members)
      +:+ nl +:+ pad level +:+ "}"
  end.

(** A member of an object that is written only when present. *)
Definition member {A} (key : string) (enc : A -> value) (field : option A)
  : list (string * value) :=
  match field with
  | Some a => [(key, enc a)]
  | None => []
  end.

Definition strings (l : list string) : value := Arr (map Str l).
Definition nullable (s : option string) : value :=
  match s with Some s => Str s | None => Null end.
Definition object {A} (enc : A -> value) (d : dict A) : value :=
  Obj (map (fun '(k, a) => (k, enc a)) d).

Definition of_file_record (r : FileIndexer.FileRecord) : value :=
  Obj (member "purpose" Str (FileIndexer.purpose r)
       ++ member "module" Str (FileIndexer.module r)
       ++ member "imports" strings (FileIndexer.imports r)
       ++ member "exports" strings (FileIndexer.exports r)
       ++ member "token_count" Int (FileIndexer.token_count r)
       ++ member "last_modified" Str (FileIndexer.last_modified r)
       ++ member "summary" Str (FileIndexer.summary r)).

Definition of_index (i : FileIndexer.CodebaseIndex) : value :=
  Obj (member "indexed_at" Str (FileIndexer.indexed_at i)
       ++ member "total_files" Int (FileIndexer.total_files i)
       ++ member "total_tokens_if_full_read" Int
                 (FileIndexer.total_tokens_if_full_read i)
       ++ member "files" (object of_file_record) (FileIndexer.files i)
       ++ member "modules" (object strings) (FileIndexer.modules i)).

Definition of_module_entry (m : MemoryManager.ModuleEntry.t) : value :=
  Obj (member "status" Str (MemoryManager.ModuleEntry.status m)
       ++ member "files" strings (MemoryManager.ModuleEntry.files m)
       ++ member "purpose" Str (MemoryManager.ModuleEntry.purpose m)
       ++ member "dependencies" strings
                 (MemoryManager.ModuleEntry.dependencies m)).

Definition of_decision (d : MemoryManager.DecisionEntry.t) : value :=
  Obj ([("decision", Str (MemoryManager.DecisionEntry.decision d));
        ("reason", Str (MemoryManager.DecisionEntry.reason d));
        ("date", Str (MemoryManager.DecisionEntry.date d))]
       ++ member "affects" strings (MemoryManager.DecisionEntry.affects d)).

Definition of_change (e : MemoryManager.ChangeEvent.t) : value :=
  Obj [("date", Str (MemoryManager.ChangeEvent.date e));
       ("description", Str (MemoryManager.ChangeEvent.description e));
       ("files_changed", strings (MemoryManager.ChangeEvent.files_changed e));
       ("tokens_used", Int (MemoryManager.ChangeEvent.tokens_used e));
       ("tokens_saved", Int (MemoryManager.ChangeEvent.tokens_saved e))].

Definition of_memory (r : MemoryManager.MemoryRecord) : value :=
  Obj (member "project_name" Str (MemoryManager.project_name r)
       ++ member "created_at" Str (MemoryManager.created_at r)
       ++ member "last_updated" Str (MemoryManager.last_updated r)
       ++ member "stack" (object nullable) (MemoryManager.stack r)
       ++ member "ai_target" Str (MemoryManager.ai_target r)
       ++ member "modules" (object of_module_entry) (MemoryManager.modules r)
       ++ member "decisions" (fun l => Arr (map of_decision l))
                 (MemoryManager.decisions r)
       ++ member "change_history" (fun l => Arr (map of_change l))
                 (MemoryManager.change_history r)).

Definition of_summary (s : ContextFinder.Summary.t) : value :=
  Obj [("modules", object strings (ContextFinder.Summary.modules s));
       ("files",
        object (fun f =>
                  Obj [("purpose", Str (ContextFinder.Summary.purpose f));
                       ("module", Str (ContextFinder.Summary.module f))])
               (ContextFinder.Summary.files s))].

(** The codec that prints with [print] and reads back the documents of
    [corpus], and nothing else. *)
Definition corpus_codec {A} (enc : A -> value) (corpus : list A)
  : JsonCodec A :=
  {| json_dumps := fun a => print 0 (enc a);
     json_loads := fun text =>
       List.find (fun a => String.eqb (print 0 (enc a)) text) corpus |}.

End JsonText.

Module Doubles.

(** One token per byte. *)
Definition byte_tokenizer : TokenCounter.Tokenizer :=
  {| TokenCounter.count_tokens := String.length |}.

Definition blind_scanner : FileIndexer.Scanner :=
  {| FileIndexer._detect_imports := fun _ _ => [];
     FileIndexer._detect_exports := fun _ _ => [] |}.

(** A classifier that answers the [n]-th call with the [n]-th entry of the
    script, and with text that is not JSON once the script is over. *)
Definition scripted (script : list (result (option ContextFinder.Reply.t)))
  : ContextFinder.Classifier :=
  {| ContextFinder.respond := fun n _ => nth n script (Ok None) |}.

Definition empty_world : Sys.world := {| Sys.disk := ∅; Sys.calls := [] |}.

Definition on_disk (files : list (string * Sys.entry)) : Sys.world :=
  {| Sys.disk := list_to_map files; Sys.calls := [] |}.

End Doubles.

(** ** Sample inputs *)

Module Samples.
Import Constants MemoryManager.

(** A memory record with one module, one decision and one change. *)
Definition memory : MemoryRecord :=
  add_change
    (add_decision
       (set_module (_default_memory "demo" "2024-01-01T00:00:00")
                   "auth" (Some "complete") (Some ["auth.py"]) (Some "Auth")
                   None)
       "2024-01-02T00:00:00" "Use JWT" "Standard" ["auth"])
    "2024-01-03T00:00:00" "Added login" ["auth/login.py"] 300 5000.

Definition memory_saved : MemoryRecord :=
  set_last_updated "2024-01-04T00:00:00" memory.

Definition memory_codec : Json.JsonCodec MemoryRecord :=
  JsonText.corpus_codec JsonText.of_memory [memory_saved].

(** A [.preflight] directory whose [memory.json] holds the single byte
    0xFF, which is not UTF-8. *)
Definition undecodable_memory : Sys.world :=
  Doubles.on_disk [(MEMORY_FILE, Sys.File (bytes [255]))].

(** A [.preflight] directory whose [memory.json] is text but not JSON. *)
Definition garbled_memory : Sys.world :=
  Doubles.on_disk [(MEMORY_FILE, Sys.File "{{not valid json}}")].

(** A stack, and the record of a new project once it is recorded. *)
Definition python_stack : dict (option string) :=
  [("language", Some "python"); ("frontend", None);
   ("backend", Some "fastapi"); ("database", Some "postgres");
   ("auth", Some "jwt"); ("hosting", None)].

Definition stacked : MemoryRecord :=
  set_last_updated "2024-06-01T09:00:01"
    (set_stack python_stack (_default_memory "demo" "2024-06-01T09:00:00")).

Definition stacked_codec : Json.JsonCodec MemoryRecord :=
  JsonText.corpus_codec JsonText.of_memory [stacked].

(** A [.preflight] directory holding the saved sample record. *)
Definition stored_memory : Sys.world :=
  Doubles.on_disk
    [(MEMORY_FILE,
      Sys.File (Json.json_dumps (JsonCodec := memory_codec) memory_saved))].

End Samples.

Module ClassifierSamples.
Import ContextFinder.

Definition index_codec : Json.JsonCodec FileIndexer.CodebaseIndex :=
  JsonText.corpus_codec JsonText.of_index [].

Definition summary_codec : Json.JsonCodec Summary.t :=
  JsonText.corpus_codec JsonText.of_summary [].

(** A classifier that fails to produce JSON twice in a row. *)
Definition stubborn : Classifier := Doubles.scripted [Ok None; Ok None].

(** A classifier whose first call fails with an exception. *)
Definition failing : Classifier :=
  Doubles.scripted [Raise (ValueError "401 unauthorized")].

Definition request (message : string) : Sys.AiCall :=
  {| Sys.stage := "change_analysis"; Sys.system_prompt := SYSTEM_PROMPT;
     Sys.user_message := message; Sys.provider := "claude" |}.

End ClassifierSamples.

Module UpdaterSamples.

(** A change whose context was larger than the whole codebase. *)
Definition analysis : ContextFinder.ChangeAnalysis :=
  {| ContextFinder.change_type := "feature";
     ContextFinder.affected_modules := ["auth"];
     ContextFinder.affected_files := ["src/auth/login.py"];
     ContextFinder.needs_new_files := false;
     ContextFinder.new_files_needed := [];
     ContextFinder.context_needed := [];
     ContextFinder.estimated_complexity := "simple";
     ContextFinder.token_estimate := 0 |}.

Definition times : MemoryUpdater.Times :=
  {| MemoryUpdater.at_load := "2024-02-01T10:00:00";
     MemoryUpdater.at_change := "2024-02-01T10:00:01";
     MemoryUpdater.at_save := "2024-02-01T10:00:02";
     MemoryUpdater.tmp_memory := "memory_a1.tmp";
     MemoryUpdater.tmp_index := "index_b2.tmp" |}.

(** Project files: [src/auth/login.py] exists, nothing else does. *)
Definition project : Sys.sources :=
  fun rel => if String.eqb rel "src/auth/login.py"
             then Some (Some "def login(): pass") else None.

End UpdaterSamples.

Module TreeSamples.
Import FileIndexer.

Definition file (text : string) : node :=
  FileNode (Some text) "2024-01-01T00:00:00+00:00".

(** The project of the indexer's tests: two Python packages under [src],
    a script at the root, and a dependency directory. *)
Definition project : node :=
  DirNode [
    ("src",
     DirNode [
       ("auth",
        DirNode [
          ("login.py",
           file ("from database import get_user" +:+ nl +:+ nl
                 +:+ "def login_user(email, password):" +:+ nl
                 +:+ "    pass" +:+ nl));
          ("register.py",
           file ("from database import create_user" +:+ nl +:+ nl
                 +:+ "def register_user(email, password):" +:+ nl
                 +:+ "    pass" +:+ nl))]);
       ("api",
        DirNode [
          ("users.py",
           file ("from auth.login import login_user" +:+ nl +:+ nl
                 +:+ "def get_users():" +:+ nl +:+ "    pass" +:+ nl))])]);
    ("app.js", file ("const app = Router();" +:+ nl
                     +:+ "export default app;" +:+ nl));
    ("node_modules",
     DirNode [("pkg", DirNode [("index.js", file "module.exports = {};")])])
  ].

(** The index of [project], and a codec that reads it back. *)
Definition indexed : CodebaseIndex :=
  match index (tokenizer := Doubles.byte_tokenizer)
              (scanner := Doubles.blind_scanner)
              (index_json := ClassifierSamples.index_codec)
              project "2024-03-01T00:00:00+00:00" "index_q7.tmp"
              Doubles.empty_world with
  | (Ok index_data, _) => index_data
  | (Raise _, _) => empty_index
  end.

Definition indexed_codec : Json.JsonCodec CodebaseIndex :=
  JsonText.corpus_codec JsonText.of_index [indexed].

End TreeSamples.

Module ContextSamples.

Fixpoint copies (n : nat) (s : string) : string :=
  match n with
  | O => EmptyString
  | S n' => s +:+ copies n' s
  end.

(** A file of 3200 bytes, most of them line comments. *)
Definition big_file : string :=
  copies 100 ("x = 1  # set x to the value one" +:+ nl).

Definition project : Sys.sources :=
  fun rel => if String.eqb rel "big.py" then Some (Some big_file) else None.

Definition analysis : ContextFinder.ChangeAnalysis :=
  {| ContextFinder.change_type := "refactor";
     ContextFinder.affected_modules := [];
     ContextFinder.affected_files := ["big.py"];
     ContextFinder.needs_new_files := false;
     ContextFinder.new_files_needed := [];
     ContextFinder.context_needed := [];
     ContextFinder.estimated_complexity := "simple";
     ContextFinder.token_estimate := 0 |}.

Definition record_importing (imports : list string)
  : FileIndexer.FileRecord :=
  {| FileIndexer.purpose := Some ""; FileIndexer.module := Some "root";
     FileIndexer.imports := Some imports; FileIndexer.exports := Some [];
     FileIndexer.token_count := Some 10%Z;
     FileIndexer.last_modified := None; FileIndexer.summary := None |}.

(** An index in which [a.py] imports [b], and [b.py] imports [c]. *)
Definition chain : dict FileIndexer.FileRecord :=
  [("a.py", record_importing ["b"]);
   ("b.py", record_importing ["c"]);
   ("c.py", record_importing [])].

End ContextSamples.

(** The project of the context finder's tests: three files, an index and
    a memory file on disk. *)
Module Fixture.
Import Constants.

Definition record (purpose module : string) (imports exports : list string)
           (tokens : Z) : FileIndexer.FileRecord :=
  {| FileIndexer.purpose := Some purpose; FileIndexer.module := Some module;
     FileIndexer.imports := Some imports; FileIndexer.exports := Some exports;
     FileIndexer.token_count := Some tokens;
     FileIndexer.last_modified := None; FileIndexer.summary := None |}.

Definition index : FileIndexer.CodebaseIndex :=
  {| FileIndexer.indexed_at := Some "2024-01-01T00:00:00";
     FileIndexer.total_files := Some 3%Z;
     FileIndexer.total_tokens_if_full_read := Some 100%Z;
     FileIndexer.files :=
       Some [("src/auth/login.py",
              record "User login" "auth" [] ["login"] 30);
             ("src/auth/register.py",
              record "User registration" "auth" [] ["register"] 30);
             ("src/api/users.py",
              record "User API" "api" ["auth.login"] ["get_users"] 40)];
     FileIndexer.modules :=
       Some [("auth", ["src/auth/login.py"; "src/auth/register.py"]);
             ("api", ["src/api/users.py"])] |}.

Definition memory : MemoryManager.MemoryRecord :=
  {| MemoryManager.project_name := Some "test";
     MemoryManager.created_at := Some "2024-01-01";
     MemoryManager.last_updated := Some "2024-01-01";
     MemoryManager.stack := Some [];
     MemoryManager.ai_target := Some "both";
     MemoryManager.modules := Some [];
     MemoryManager.decisions :=
       Some [{| MemoryManager.DecisionEntry.decision := "Use JWT";
                MemoryManager.DecisionEntry.reason := "Standard";
                MemoryManager.DecisionEntry.date := "2024-01-01";
                MemoryManager.DecisionEntry.affects := Some ["auth"] |}];
     MemoryManager.change_history := Some [] |}.

Definition index_codec : Json.JsonCodec FileIndexer.CodebaseIndex :=
  JsonText.corpus_codec JsonText.of_index [index].

Definition memory_codec : Json.JsonCodec MemoryManager.MemoryRecord :=
  JsonText.corpus_codec JsonText.of_memory [memory].

Definition world : Sys.world :=
  Doubles.on_disk
    [(FILE_INDEX_FILE,
      Sys.File (Json.json_dumps (JsonCodec := index_codec) index));
     (MEMORY_FILE,
      Sys.File (Json.json_dumps (JsonCodec := memory_codec) memory))].

Definition project : Sys.sources :=
  fun rel =>
    if String.eqb rel "src/auth/login.py" then Some (Some "def login(): pass")
    else if String.eqb rel "src/auth/register.py"
    then Some (Some "def register(): pass")
    else if String.eqb rel "src/api/users.py"
    then Some (Some ("from auth.login import login" +:+ nl
                     +:+ "def get_users(): pass"))
    else None.

Definition change (modules files : list string)
  : ContextFinder.ChangeAnalysis :=
  {| ContextFinder.change_type := "feature";
     ContextFinder.affected_modules := modules;
     ContextFinder.affected_files := files;
     ContextFinder.needs_new_files := false;
     ContextFinder.new_files_needed := [];
     ContextFinder.context_needed := [];
     ContextFinder.estimated_complexity := "simple";
     ContextFinder.token_estimate := 0 |}.

End Fixture.

(* ===================================================================== *)
(** * Part II: properties                                                 *)
(* ===================================================================== *)

Import Constants.

(** Unfolds the monadic operations of a goal and computes through them. *)
Ltac io_unfold :=
  unfold mbind, mret, io_mbind, io_mret, Sys.io_bind, Sys.io_ret,
         Sys.io_raise, Sys.try_except, Sys.try_pass, Sys.exists_,
         Sys.read_text, Json.loads, Sys.rename.
Ltac io_simpl := cbn beta iota zeta delta [negb Sys.caught fst snd].

(** ** Dictionaries *)

Module DictFacts.

Section Dict.
Context {V : Type}.
Implicit Types (d : dict V) (k : string) (v : V).

Lemma dict_get_set_eq k v d : dict_get k (dict_set k v d) = Some v.
Proof.
  induction d as [|[k' v'] d IH]; simpl.
  - rewrite String.eqb_refl. reflexivity.
  - destruct (String.eqb_spec k' k) as [->|Hne]; simpl.
    + rewrite String.eqb_refl. reflexivity.
    + destruct (String.eqb_spec k' k); [congruence | exact IH].
Qed.

Lemma dict_get_set_ne k k' v d :
  k <> k' -> dict_get k' (dict_set k v d) = dict_get k' d.
Proof.
  intros Hne. induction d as [|[k0 v0] d IH]; simpl.
  - destruct (String.eqb_spec k k'); [congruence | reflexivity].
  - destruct (String.eqb_spec k0 k) as [->|Hk]; simpl.
    + destruct (String.eqb_spec k k'); [congruence | reflexivity].
    + destruct (String.eqb_spec k0 k'); [reflexivity | exact IH].
Qed.

Lemma dict_get_pop_eq k d : dict_get k (dict_pop k d) = None.
Proof.
  induction d as [|[k' v'] d IH]; simpl; [reflexivity|].
  destruct (String.eqb_spec k' k) as [->|Hne]; simpl; [exact IH|].
  destruct (String.eqb_spec k' k); [congruence | exact IH].
Qed.

Lemma dict_get_pop_ne k k' d :
  k <> k' -> dict_get k' (dict_pop k d) = dict_get k' d.
Proof.
  intros Hne. induction d as [|[k0 v0] d IH]; simpl; [reflexivity|].
  destruct (String.eqb_spec k0 k) as [->|Hk]; simpl.
  - destruct (String.eqb_spec k k'); [congruence | exact IH].
  - destruct (String.eqb_spec k0 k'); [reflexivity | exact IH].
Qed.

(** A key is bound exactly when it is among the keys. *)
Lemma dict_get_None k d : dict_get k d = None <-> k ∉ dict_keys d.
Proof.
  unfold dict_keys. induction d as [|[k' v'] d IH]; simpl.
  - split; [intros _; apply not_elem_of_nil | reflexivity].
  - rewrite not_elem_of_cons.
    destruct (String.eqb_spec k' k) as [->|Hne].
    + split; [discriminate | intros [Hk _]; congruence].
    + rewrite IH. split; [intros Hk; split; [congruence | exact Hk] | tauto].
Qed.

Lemma dict_get_Some_key k v d : dict_get k d = Some v -> k ∈ dict_keys d.
Proof.
  intros Hget. destruct (decide (k ∈ dict_keys d)) as [Hin|Hout]; [exact Hin|].
  apply dict_get_None in Hout. congruence.
Qed.

(** Storing under a new key appends. *)
Lemma dict_set_fresh k v d :
  dict_get k d = None -> dict_set k v d = d ++ [(k, v)].
Proof.
  induction d as [|[k' v'] d IH]; simpl; [reflexivity|].
  destruct (String.eqb_spec k' k); [discriminate|].
  intros Hget. rewrite (IH Hget). reflexivity.
Qed.

(** Storing keeps the keys in place, a new key last. *)
Lemma dict_keys_set k v d :
  dict_keys (dict_set k v d)
  = if dict_in k d then dict_keys d else dict_keys d ++ [k].
Proof.
  unfold dict_in, dict_keys. induction d as [|[k' v'] d IH]; simpl.
  - reflexivity.
  - destruct (String.eqb_spec k' k) as [->|Hne]; simpl; [reflexivity|].
    rewrite IH. destruct (dict_get k d); reflexivity.
Qed.

Lemma dict_keys_pop k d :
  dict_keys (dict_pop k d) = List.filter (fun k' => negb (String.eqb k' k))
                                         (dict_keys d).
Proof.
  unfold dict_keys. induction d as [|[k' v'] d IH]; simpl; [reflexivity|].
  destruct (String.eqb k' k); simpl; [exact IH | rewrite IH; reflexivity].
Qed.

Lemma dict_wf_set k v d : dict_wf d -> dict_wf (dict_set k v d).
Proof.
  unfold dict_wf. intros Hwf. rewrite dict_keys_set. unfold dict_in.
  destruct (dict_get k d) eqn:Hget; [exact Hwf|].
  apply NoDup_app. split; [exact Hwf|]. split.
  - intros x Hx Hk. apply list_elem_of_singleton in Hk. subst x.
    apply dict_get_None in Hget. contradiction.
  - apply NoDup_singleton.
Qed.

Lemma dict_wf_pop k d : dict_wf d -> dict_wf (dict_pop k d).
Proof.
  unfold dict_wf. intros Hwf. rewrite dict_keys_pop.
  induction Hwf as [|x l Hx Hl IH]; simpl; [constructor|].
  destruct (negb (String.eqb x k)); [|exact IH].
  constructor; [|exact IH].
  rewrite list_elem_of_In, filter_In, <- list_elem_of_In. tauto.
Qed.

End Dict.

End DictFacts.

(** ** Module inference: [_detect_module] *)

Module DetectModuleFacts.
Import FileIndexer Notions.

Example detect_module_login : _detect_module "src/auth/login.py" = "auth".
Proof. reflexivity. Qed.

Example detect_module_users : _detect_module "src/api/users.py" = "api".
Proof. reflexivity. Qed.

Example detect_module_root_file : _detect_module "app.js" = "root".
Proof. reflexivity. Qed.

Example detect_module_lib : _detect_module "lib/util/io.py" = "lib".
Proof. reflexivity. Qed.

(** The code by cases on the parts of the path. *)
Lemma detect_module_cases (rel : string) :
  _detect_module rel =
  match Pathlib.parts rel with
  | [] => "root"
  | [_] => "root"
  | [dir; _] => dir
  | first :: second :: _ :: _ =>
      if String.eqb first "src" then second else first
  end.
Proof.
  unfold _detect_module.
  destruct (Pathlib.parts rel) as [|p0 [|p1 [|p2 rest]]]; simpl; try reflexivity.
  - destruct (String.eqb_spec p0 "src") as [->|Hne].
    + rewrite bool_decide_eq_true_2 by reflexivity. reflexivity.
    + rewrite bool_decide_eq_false_2 by congruence. reflexivity.
  - destruct (String.eqb_spec p0 "src") as [->|Hne].
    + rewrite bool_decide_eq_true_2 by reflexivity. reflexivity.
    + rewrite bool_decide_eq_false_2 by congruence. reflexivity.
Qed.

(** C3, as stated, fails: a file directly inside [src] is assigned to the
    module ["src"], not to the segment after [src] (its own name). *)
Lemma detect_module_src_file_counterexample :
  _detect_module "src/main.py" = "src"
  /\ module_as_specified (Pathlib.parts "src/main.py") = "main.py"
  /\ _detect_module "src/main.py"
     <> module_as_specified (Pathlib.parts "src/main.py").
Proof. split; [reflexivity|]. split; [reflexivity | discriminate]. Qed.

(** C3, amended: a path of fewer than two parts maps to ["root"]; a path
    of exactly two parts maps to its first part, [src] included; a path of
    three parts or more maps to its first part, unless this is [src], in
    which case it maps to the second.  The two files of the scenario map
    to [auth] and [api]. *)
Theorem detect_module_by_parts :
  (forall rel : string,
      _detect_module rel =
      match Pathlib.parts rel with
      | [] => "root"
      | [_] => "root"
      | [dir; _] => dir
      | first :: second :: _ :: _ =>
          if String.eqb first "src" then second else first
      end)
  /\ _detect_module "src/auth/login.py" = "auth"
  /\ _detect_module "src/api/users.py" = "api".
Proof.
  split; [exact detect_module_cases | split; reflexivity].
Qed.

(** Where the code and the wording of the specification agree: everywhere
    but on the two-part paths under [src]. *)
Lemma detect_module_agrees_off_src (rel : string) :
  (forall name, Pathlib.parts rel <> ["src"; name]) ->
  _detect_module rel = module_as_specified (Pathlib.parts rel).
Proof.
  intros Hne. rewrite detect_module_cases. unfold module_as_specified.
  destruct (Pathlib.parts rel) as [|p0 [|p1 [|p2 rest]]]; try reflexivity.
  destruct (String.eqb_spec p0 "src") as [->|_]; [|reflexivity].
  exfalso. apply (Hne p1). reflexivity.
Qed.

End DetectModuleFacts.

(** ** Floats: rounding and the four operations of the cost *)

Module FloatFacts.
Import SpecFloat Float.
Local Open Scope Z_scope.

(** *** Counting binary digits *)

Lemma fexp_eq (e : Z) : fexp prec emax e = Z.max (e - 53) (-1074).
Proof. reflexivity. Qed.








Lemma shr_1_m (mrs : shr_record) :
  0 <= shr_m mrs -> shr_m (shr_1 mrs) = shr_m mrs / 2.
Proof.
  destruct mrs as [m r s]. cbn [shr_m]. intros Hm.
  destruct m as [|[p|p|]|p]; cbn [shr_1 shr_m]; try lia; try reflexivity.
  - rewrite Pos2Z.inj_xI. apply Z.div_unique with (r := 1); lia.
  - rewrite Pos2Z.inj_xO. apply Z.div_unique with (r := 0); lia.
Qed.

Lemma iter_shr_m (p : positive) (mrs : shr_record) :
  0 <= shr_m mrs ->
  shr_m (iter_pos shr_1 p mrs) = shr_m mrs / 2 ^ Zpos p.
Proof.
  revert mrs. induction p as [p IH|p IH|]; intros mrs Hm; cbn [iter_pos].
  - assert (H1 : 0 <= shr_m (shr_1 mrs)).
    { rewrite shr_1_m by assumption. apply Z.div_pos; lia. }
    assert (H2 : 0 <= shr_m (iter_pos shr_1 p (shr_1 mrs))).
    { rewrite IH by assumption. apply Z.div_pos; [lia|].
      apply Z.pow_pos_nonneg; lia. }
    rewrite IH, IH, shr_1_m by assumption.
    rewrite !Z.div_div by (try apply Z.pow_pos_nonneg; lia).
    f_equal. change (Zpos p~1) with (2 * Zpos p + 1).
    replace (2 * Zpos p + 1) with (1 + Zpos p + Zpos p) by lia.
    rewrite !Z.pow_add_r by lia. change (2 ^ 1) with 2. ring.
  - assert (H2 : 0 <= shr_m (iter_pos shr_1 p mrs)).
    { rewrite IH by assumption. apply Z.div_pos; [lia|].
      apply Z.pow_pos_nonneg; lia. }
    rewrite IH, IH by assumption.
    rewrite !Z.div_div by (try apply Z.pow_pos_nonneg; lia).
    f_equal. change (Zpos p~0) with (2 * Zpos p).
    replace (2 * Zpos p) with (Zpos p + Zpos p) by lia.
    rewrite Z.pow_add_r by lia. ring.
  - apply shr_1_m. assumption.
Qed.


Lemma shr_record_of_loc_m (m : Z) (l : location) :
  shr_m (shr_record_of_loc m l) = m.
Proof. destruct l as [|[| |]]; reflexivity. Qed.

Lemma round_nearest_even_bounds (m : Z) (l : location) :
  m <= round_nearest_even m l <= m + 1.
Proof.
  destruct l as [|[| |]]; cbn [round_nearest_even]; try lia.
  destruct (Z.even m); lia.
Qed.

















(** *** Aligning two mantissas *)



(** *** Rounding a mantissa and an exponent *)


(** *** Floats of the format *)



(** *** Multiplication *)



Lemma cond_Zopp_Q (s : bool) (m : Z) :
  (inject_Z (cond_Zopp s m) == signQ s (inject_Z m))%Q.
Proof.
  destruct s; cbn [cond_Zopp signQ]; [rewrite inject_Z_opp|]; reflexivity.
Qed.

Lemma signQ_mult (s : bool) (a b : Q) : (signQ s a * b == signQ s (a * b))%Q.
Proof. destruct s; cbn [signQ]; ring. Qed.


(** *** Addition *)


(** *** Division of an integer by a million *)


Lemma integer_with_sign (n : Z) : integer n = with_sign (n <? 0) (Z.abs n).
Proof. reflexivity. Qed.


(** *** Rounding to six decimals *)

Lemma round_half_even_spec (n d : Z) :
  0 <= n -> 0 < d ->
  n / d <= round_half_even n d <= n / d + 1
  /\ 2 * Z.abs (round_half_even n d * d - n) <= d.
Proof.
  intros Hn Hd. unfold round_half_even.
  pose proof (Z.div_mod n d ltac:(lia)) as Hdm.
  pose proof (Z.mod_pos_bound n d Hd) as Hr.
  set (q := n / d) in *. set (r := n mod d) in *.
  destruct (Z.compare_spec (2 * r) d) as [Heq|Hlt|Hgt].
  - destruct (Z.even q); split; nia.
  - split; nia.
  - split; nia.
Qed.





(** *** Signs, without a bound on the magnitude *)

Lemma shr_m_nonneg (mrs : shr_record) (e n : Z) :
  0 <= shr_m mrs -> 0 <= shr_m (fst (shr mrs e n)).
Proof.
  intros Hm. destruct n as [|p|p]; cbn [shr fst]; try assumption.
  rewrite iter_shr_m by assumption.
  apply Z.div_pos; [assumption | apply Z.pow_pos_nonneg; lia].
Qed.

Lemma binary_round_aux_nonneg (mx ex : Z) (lx : location) :
  0 <= mx -> nonneg (binary_round_aux prec emax false mx ex lx).
Proof.
  intros Hmx. unfold binary_round_aux, shr_fexp.
  pose proof (shr_m_nonneg (shr_record_of_loc mx lx) ex
                (fexp prec emax (Zdigits2 mx + ex) - ex)) as H1.
  rewrite shr_record_of_loc_m in H1. specialize (H1 Hmx).
  destruct (shr (shr_record_of_loc mx lx) ex
                (fexp prec emax (Zdigits2 mx + ex) - ex)) as [mrs' e'].
  cbn [fst] in H1.
  pose proof (round_nearest_even_bounds (shr_m mrs') (loc_of_shr_record mrs'))
    as Hrne.
  set (m1 := round_nearest_even (shr_m mrs') (loc_of_shr_record mrs')) in *.
  pose proof (shr_m_nonneg (shr_record_of_loc m1 loc_Exact) e'
                (fexp prec emax (Zdigits2 m1 + e') - e')) as H2.
  rewrite shr_record_of_loc_m in H2. specialize (H2 ltac:(lia)).
  destruct (shr (shr_record_of_loc m1 loc_Exact) e'
                (fexp prec emax (Zdigits2 m1 + e') - e')) as [mrs'' e''].
  cbn [fst] in H2.
  destruct (shr_m mrs'') as [|p|p]; [reflexivity | | lia].
  destruct (e'' <=? emax - prec); reflexivity.
Qed.

Lemma binary_round_nonneg (mx : positive) (ex : Z) :
  nonneg (binary_round prec emax false mx ex).
Proof.
  unfold binary_round.
  destruct (shl_align mx ex (fexp prec emax (Zpos (digits2_pos mx) + ex)))
    as [mz ez].
  apply binary_round_aux_nonneg. lia.
Qed.

Lemma mul_nonneg (x y : float) :
  is_finite x = true -> is_finite y = true ->
  sign x = false -> sign y = false -> nonneg (mul x y).
Proof.
  destruct x as [sx|sx| |sx mx ex]; try discriminate;
    destruct y as [sy|sy| |sy my ey]; try discriminate;
    cbn [sign]; intros _ _ -> ->; try reflexivity.
  unfold mul. cbn [SFmul xorb]. apply binary_round_aux_nonneg. lia.
Qed.

Lemma add_nonneg (x y : float) : nonneg x -> nonneg y -> nonneg (add x y).
Proof.
  destruct x as [sx|sx| |sx mx ex]; cbn [nonneg sign]; try tauto;
    destruct y as [sy|sy| |sy my ey]; cbn [nonneg sign]; try tauto;
    intros -> ->; try reflexivity.
  unfold add. cbn [SFadd cond_Zopp].
  set (ax := Zpos (fst (shl_align mx ex (Z.min ex ey)))).
  set (ay := Zpos (fst (shl_align my ey (Z.min ex ey)))).
  assert (Hs : 0 < ax + ay) by (unfold ax, ay; lia).
  unfold binary_normalize.
  destruct (ax + ay) as [|m|m]; [lia | | lia].
  apply binary_round_nonneg.
Qed.

Lemma div_million_nonneg (k : Z) :
  0 <= k -> nonneg (SFdiv prec emax (with_sign false k) (integer 1000000)).
Proof.
  intros Hk. change (integer 1000000) with (S754_finite false 1000000 0).
  destruct k as [|p|p]; [reflexivity | | lia].
  cbn [with_sign SFdiv xorb]. unfold SFdiv_core_binary.
  set (e' := Z.min _ _).
  set (m' := match 0 - 0 - e' with
             | 0 => Zpos p
             | Zpos _ => Z.shiftl (Zpos p) (0 - 0 - e')
             | Zneg _ => 0
             end).
  assert (Hm' : 0 <= m').
  { unfold m'. destruct (0 - 0 - e') as [|n|n]; [lia | | lia].
    apply Z.shiftl_nonneg. lia. }
  clearbody m'.
  destruct (Z.div_eucl m' 1000000) as [q r] eqn:Hdiv.
  assert (Hq : q = m' / 1000000) by (unfold Z.div; rewrite Hdiv; reflexivity).
  apply binary_round_aux_nonneg. rewrite Hq. apply Z.div_pos; lia.
Qed.

Lemma nearest_million_nonneg (n : Z) : 0 <= n -> nonneg (nearest n 1000000).
Proof.
  intros Hn. unfold nearest. rewrite (integer_with_sign n).
  replace (n <? 0) with false by (symmetry; apply Z.ltb_ge; exact Hn).
  apply div_million_nonneg. lia.
Qed.

Lemma millionths_nonneg (m : positive) (e : Z) : 0 <= millionths m e.
Proof.
  destruct e as [|p|p]; cbn [millionths].
  - lia.
  - assert (0 < 2 ^ Zpos p) by (apply Z.pow_pos_nonneg; lia). lia.
  - assert (Hp : 0 < 2 ^ Zpos p) by (apply Z.pow_pos_nonneg; lia).
    destruct (round_half_even_spec (Zpos m * 1000000) (2 ^ Zpos p)
                ltac:(lia) Hp) as [[Hlo _] _].
    assert (0 <= Zpos m * 1000000 / 2 ^ Zpos p) by (apply Z.div_pos; lia).
    lia.
Qed.

Lemma round6_nonneg (x r : float) :
  nonneg x -> round6 x = Some r -> nonneg r.
Proof.
  destruct x as [s|s| |s m e]; cbn [nonneg sign round6]; try tauto.
  - intros -> [= <-]. reflexivity.
  - intros -> [= <-]. reflexivity.
  - intros ->.
    pose proof (div_million_nonneg (millionths m e) (millionths_nonneg m e))
      as Hr.
    destruct (is_infinite _); [discriminate|]. intros [= <-]. exact Hr.
Qed.

Lemma nonneg_leb (x : float) : nonneg x -> leb zero x = true.
Proof.
  destruct x as [s|s| |s m e]; cbn [nonneg sign]; try tauto; intros ->;
    reflexivity.
Qed.

Lemma nonneg_finite (x : float) :
  is_finite x = true -> sign x = false -> nonneg x.
Proof. destruct x; cbn; congruence. Qed.

Lemma nonneg_sign (x : float) : nonneg x -> sign x = false.
Proof. destruct x; cbn; tauto. Qed.

Lemma below_finite (B : Z) (x : float) : below B x -> is_finite x = true.
Proof. destruct x; cbn; tauto. Qed.

End FloatFacts.

(** ** The memory store: [load] and [save] *)

Module MemoryFacts.
Import Json Sys MemoryManager.

Section Store.
Context {memory_json : JsonCodec MemoryRecord}.

Lemma memory_load_absent (root now : string) (w : world) :
  disk w !! MEMORY_FILE = None ->
  load root now w = (Ok (_default_memory root now), w).
Proof.
  intros Hno. unfold load. io_unfold.
  rewrite Hno. rewrite bool_decide_eq_false_2 by (intros [? ?]; discriminate).
  reflexivity.
Qed.

Lemma memory_load_parsed (root now raw : string) (r : MemoryRecord) (w : world) :
  disk w !! MEMORY_FILE = Some (File raw) ->
  Utf8.valid raw = true ->
  json_loads raw = Some r ->
  load root now w = (Ok r, w).
Proof.
  intros Hfile Hutf Hjson. unfold load. io_unfold.
  rewrite Hfile. rewrite bool_decide_eq_true_2 by eauto. io_simpl.
  rewrite Hfile, Hutf, Hjson. reflexivity.
Qed.

(** A file that is text but not JSON is moved to the backup name, with its
    bytes, and a default record is returned. *)
Lemma memory_load_not_json (root now raw : string) (w : world) :
  disk w !! MEMORY_FILE = Some (File raw) ->
  Utf8.valid raw = true ->
  json_loads raw = None ->
  (forall e, disk w !! BACKUP_FILE <> Some (Dir e)) ->
  load root now w
  = (Ok (_default_memory root now),
     set_disk (<[BACKUP_FILE := File raw]> (delete MEMORY_FILE (disk w))) w).
Proof.
  intros Hfile Hutf Hjson Hbak. unfold load. io_unfold.
  rewrite Hfile. rewrite bool_decide_eq_true_2 by eauto. io_simpl.
  rewrite Hfile, Hutf, Hjson. io_simpl.
  unfold _backup_corrupt. io_unfold.
  rewrite Hfile. rewrite bool_decide_eq_true_2 by eauto. io_simpl.
  rewrite Hfile.
  destruct (disk w !! BACKUP_FILE) as [[raw'|e]|] eqn:Hb; try reflexivity.
  exfalso. eapply Hbak. reflexivity.
Qed.

(** A file that is not UTF-8 makes [load] raise: [UnicodeDecodeError] is
    neither a [JSONDecodeError] nor an [OSError]. *)
Lemma memory_load_not_utf8 (root now raw : string) (w : world) :
  disk w !! MEMORY_FILE = Some (File raw) ->
  Utf8.valid raw = false ->
  load root now w = (Raise UnicodeDecodeError, w).
Proof.
  intros Hfile Hutf. unfold load. io_unfold.
  rewrite Hfile. rewrite bool_decide_eq_true_2 by eauto. io_simpl.
  rewrite Hfile, Hutf. reflexivity.
Qed.

(** The backup step never raises. *)
Lemma backup_corrupt_returns (w : world) :
  exists w', _backup_corrupt w = (Ok tt, w').
Proof.
  unfold _backup_corrupt. io_unfold.
  destruct (bool_decide (is_Some (disk w !! MEMORY_FILE))); [|eauto].
  destruct (disk w !! MEMORY_FILE) as [[raw|b]|]; [| |eauto].
  - destruct (disk w !! BACKUP_FILE) as [[raw'|b']|]; eauto.
  - destruct (disk w !! BACKUP_FILE) as [[raw'|[|]]|]; eauto.
Qed.

(** [load] returns unless the file is not UTF-8, on the texts the JSON
    reader parses or refuses with [JSONDecodeError]. *)
Lemma memory_load_returns (root now : string) (w : world) :
  (forall raw, disk w !! MEMORY_FILE = Some (File raw) ->
               Utf8.valid raw = true) ->
  exists r w', load root now w = (Ok r, w').
Proof.
  intros Hutf. unfold load. io_unfold.
  destruct (disk w !! MEMORY_FILE) as [[raw|b]|] eqn:Hfile.
  - rewrite bool_decide_eq_true_2 by eauto. io_simpl.
    rewrite Hfile, (Hutf raw eq_refl).
    destruct (json_loads raw) as [r|]; [eauto|]. io_unfold. io_simpl.
    destruct (backup_corrupt_returns w) as [w' ->]. eauto.
  - rewrite bool_decide_eq_true_2 by eauto. io_simpl. rewrite Hfile. io_simpl.
    destruct (backup_corrupt_returns w) as [w' ->]. eauto.
  - rewrite bool_decide_eq_false_2 by (intros [? ?]; discriminate). eauto.
Qed.

(** What [load] may do to the world: nothing, or move [memory.json] to
    the backup name. *)
Lemma memory_load_world (root now : string) (w w' : world)
      (r : result MemoryRecord) :
  load root now w = (r, w') ->
  calls w' = calls w
  /\ (disk w' = disk w
      \/ exists e, disk w !! MEMORY_FILE = Some e
                   /\ disk w' = <[BACKUP_FILE := e]> (delete MEMORY_FILE (disk w))).
Proof.
  unfold load. io_unfold.
  assert (Hbackup : forall w1,
             _backup_corrupt w = (Ok tt, w1) ->
             calls w1 = calls w
             /\ (disk w1 = disk w
                 \/ exists e, disk w !! MEMORY_FILE = Some e
                              /\ disk w1 = <[BACKUP_FILE := e]>
                                             (delete MEMORY_FILE (disk w)))).
  { intros w1. unfold _backup_corrupt. io_unfold.
    destruct (bool_decide (is_Some (disk w !! MEMORY_FILE)));
      [|intros [= <-]; auto].
    destruct (disk w !! MEMORY_FILE) as [[raw|b]|]; [| |intros [= <-]; auto].
    - destruct (disk w !! BACKUP_FILE) as [[raw'|b']|]; intros [= <-]; eauto.
    - destruct (disk w !! BACKUP_FILE) as [[raw'|[|]]|]; intros [= <-]; eauto. }
  destruct (disk w !! MEMORY_FILE) as [[raw|b]|] eqn:Hfile.
  - rewrite bool_decide_eq_true_2 by eauto. io_simpl. rewrite Hfile.
    destruct (Utf8.valid raw); [|intros [= _ <-]; auto].
    destruct (json_loads raw) as [v|]; io_unfold; io_simpl;
      [intros [= _ <-]; auto|].
    destruct (backup_corrupt_returns w) as [w1 Hw1]. rewrite Hw1.
    intros [= _ <-]. exact (Hbackup w1 Hw1).
  - rewrite bool_decide_eq_true_2 by eauto. io_simpl. rewrite Hfile. io_simpl.
    destruct (backup_corrupt_returns w) as [w1 Hw1]. rewrite Hw1.
    intros [= _ <-]. exact (Hbackup w1 Hw1).
  - rewrite bool_decide_eq_false_2 by (intros [? ?]; discriminate).
    intros [= _ <-]. auto.
Qed.

(** [save] succeeds when [memory.json] is not a directory, and leaves the
    serialised record there; the only other name it touches is the
    temporary one, which is gone afterwards. *)
Lemma save_writes (w : world) (_data0 : MemoryRecord)
      (data : option MemoryRecord) (now tmp : string) :
  (forall e, disk w !! MEMORY_FILE <> Some (Dir e)) ->
  exists w1,
    save _data0 data now tmp w
    = (Ok (set_last_updated now (default _data0 data)), w1)
    /\ disk w1
       = <[MEMORY_FILE :=
             File (json_dumps (set_last_updated now (default _data0 data)))]>
           (delete tmp (disk w))
    /\ calls w1 = calls w.
Proof.
  intros Hdir.
  unfold save, atomic_write. io_unfold. cbn [set_disk disk calls].
  rewrite lookup_insert_eq.
  set (text := json_dumps (set_last_updated now (default _data0 data))).
  assert (Hdisk : <[MEMORY_FILE := File text]>
                    (delete tmp (<[tmp := File text]> (disk w)))
                  = <[MEMORY_FILE := File text]> (delete tmp (disk w))).
  { rewrite delete_insert_eq. reflexivity. }
  destruct (decide (tmp = MEMORY_FILE)) as [->|Hne].
  - rewrite lookup_insert_eq. eexists. split; [reflexivity|]. simpl.
    split; [exact Hdisk | reflexivity].
  - rewrite lookup_insert_ne by exact Hne.
    destruct (disk w !! MEMORY_FILE) as [[raw'|e]|] eqn:Hm.
    + eexists. split; [reflexivity|]. simpl.
      split; [exact Hdisk | reflexivity].
    + exfalso. eapply Hdir. reflexivity.
    + eexists. split; [reflexivity|]. simpl.
      split; [exact Hdisk | reflexivity].
Qed.

(** C4: a record saved over a [memory.json] that is not a directory, and
    whose serialisation the JSON library reads back, is returned by a
    [load] of a fresh manager with the time stamp of the save as its only
    change: its module entries, decisions and change history are those
    that were saved. *)
Theorem save_load_roundtrip (w : world) (_data0 data : MemoryRecord)
        (now tmp root now' : string) :
  json_loads (json_dumps (set_last_updated now data))
  = Some (set_last_updated now data) ->
  Utf8.valid (json_dumps (set_last_updated now data)) = true ->
  (forall e, disk w !! MEMORY_FILE <> Some (Dir e)) ->
  exists w1 loaded,
    save _data0 (Some data) now tmp w = (Ok (set_last_updated now data), w1)
    /\ load root now' w1 = (Ok loaded, w1)
    /\ loaded = set_last_updated now data
    /\ modules loaded = modules data
    /\ decisions loaded = decisions data
    /\ change_history loaded = change_history data.
Proof.
  intros Hjson Hutf Hdir.
  destruct (save_writes w _data0 (Some data) now tmp Hdir)
    as (w1 & Hsave & Hdisk & _).
  exists w1, (set_last_updated now data).
  split; [exact Hsave|]. split.
  - eapply memory_load_parsed; [|eassumption|eassumption].
    rewrite Hdisk. apply lookup_insert_eq.
  - repeat split.
Qed.

End Store.

(** The round trip on the sample record, in an empty directory. *)
Lemma save_load_roundtrip_witness :
  exists w1 loaded,
    save (memory_json := Samples.memory_codec) no_data (Some Samples.memory)
         "2024-01-04T00:00:00" "memory_k3x.tmp" Doubles.empty_world
    = (Ok Samples.memory_saved, w1)
    /\ load (memory_json := Samples.memory_codec) "demo" "2024-01-05T00:00:00" w1
       = (Ok loaded, w1)
    /\ loaded = Samples.memory_saved
    /\ modules loaded = modules Samples.memory
    /\ decisions loaded = decisions Samples.memory
    /\ change_history loaded = change_history Samples.memory.
Proof.
  apply (@save_load_roundtrip Samples.memory_codec Doubles.empty_world
           no_data Samples.memory "2024-01-04T00:00:00" "memory_k3x.tmp"
           "demo" "2024-01-05T00:00:00").
  - vm_compute. reflexivity.
  - vm_compute. reflexivity.
  - intros e. vm_compute. discriminate.
Defined.

(** C5, at the failing input: a [memory.json] that is not UTF-8 makes
    [load] raise [UnicodeDecodeError]; nothing is renamed and no default
    record is returned. *)
Theorem load_raises_on_undecodable_file {memory_json : JsonCodec MemoryRecord}
        (root now : string) :
  load root now Samples.undecodable_memory
  = (Raise UnicodeDecodeError, Samples.undecodable_memory).
Proof. apply memory_load_not_utf8 with (raw := bytes [255]); reflexivity. Qed.

(** The recovery the tests exercise: text that is not JSON is moved to
    [memory.json.bak] and a default record is returned. *)
Example load_recovers_from_garbled_file (root now : string) :
  exists w1,
    load (memory_json := Samples.memory_codec) root now Samples.garbled_memory
    = (Ok (_default_memory root now), w1)
    /\ disk w1 !! MEMORY_FILE = None
    /\ disk w1 !! BACKUP_FILE = Some (File "{{not valid json}}").
Proof.
  eexists. split.
  - apply memory_load_not_json with (raw := "{{not valid json}}");
      [reflexivity | reflexivity | reflexivity |].
    intros e. vm_compute. discriminate.
  - split; reflexivity.
Qed.

End MemoryFacts.

(** ** Loading the index *)

Module IndexLoadFacts.
Import Json Sys FileIndexer.

Section Load.
Context {index_json : JsonCodec CodebaseIndex}.

(** What [load] returns, by what [file-index.json] is; the world is left
    as it is. *)
Lemma index_load_cases (w : world) :
  load w =
  (match disk w !! FILE_INDEX_FILE with
   | None => Ok empty_index
   | Some (Dir _) => Ok empty_index
   | Some (File raw) =>
       if Utf8.valid raw
       then Ok (default empty_index (json_loads raw))
       else Raise UnicodeDecodeError
   end, w).
Proof.
  unfold load. io_unfold.
  destruct (disk w !! FILE_INDEX_FILE) as [[raw|e]|] eqn:Hf.
  - rewrite bool_decide_eq_true_2 by eauto. io_simpl. rewrite Hf.
    destruct (Utf8.valid raw); [|reflexivity].
    destruct (json_loads raw); reflexivity.
  - rewrite bool_decide_eq_true_2 by eauto. io_simpl. rewrite Hf. reflexivity.
  - rewrite bool_decide_eq_false_2 by (intros [? ?]; discriminate).
    reflexivity.
Qed.

Lemma index_load_keeps_world (w w' : world) (r : result CodebaseIndex) :
  load w = (r, w') -> w' = w.
Proof. rewrite index_load_cases. intros [= _ <-]. reflexivity. Qed.

Lemma index_load_absent (w : world) :
  disk w !! FILE_INDEX_FILE = None -> load w = (Ok empty_index, w).
Proof. intros Hf. rewrite index_load_cases, Hf. reflexivity. Qed.

(** [load] returns unless the file is not UTF-8. *)
Lemma index_load_returns (w : world) :
  (forall raw, disk w !! FILE_INDEX_FILE = Some (File raw) ->
               Utf8.valid raw = true) ->
  exists index, load w = (Ok index, w).
Proof.
  intros Hutf. rewrite index_load_cases.
  destruct (disk w !! FILE_INDEX_FILE) as [[raw|e]|] eqn:Hf; eauto.
  rewrite (Hutf raw eq_refl). eauto.
Qed.

End Load.

End IndexLoadFacts.

(** ** The classifier boundary: [analyze_change] *)

Module ClassifierFacts.
Import Json Sys ContextFinder Notions.

Lemma prefix_append (x rest : string) : String.prefix x (x +:+ rest) = true.
Proof.
  induction x as [|c x IH]; simpl.
  - destruct rest; reflexivity.
  - destruct (ascii_dec c c) as [_|Hne]; [exact IH | congruence].
Qed.

Lemma str_in_prefix (x s : string) :
  String.prefix x s = true -> str_in x s = true.
Proof. destruct s; simpl; intros ->; reflexivity. Qed.

Lemma str_in_here (x rest : string) : str_in x (x +:+ rest) = true.
Proof. apply str_in_prefix, prefix_append. Qed.

Lemma str_in_refl (x : string) : str_in x x = true.
Proof.
  pose proof (str_in_here x "") as Hx.
  assert (Happ : forall s, s +:+ "" = s).
  { induction s as [|c s' IH]; [reflexivity|].
    change (String c (s' +:+ "") = String c s'). f_equal. exact IH. }
  rewrite Happ in Hx. exact Hx.
Qed.

Lemma str_in_later (x before s : string) :
  str_in x s = true -> str_in x (before +:+ s) = true.
Proof.
  intros Hx. induction before as [|c before IH]; simpl; [exact Hx|].
  rewrite IH. apply orb_true_r.
Qed.

Section Analyze.
Context {tokenizer : TokenCounter.Tokenizer} {classifier : Classifier}.
Context {index_json : JsonCodec FileIndexer.CodebaseIndex}
        {memory_json : JsonCodec MemoryManager.MemoryRecord}
        {summary_json : JsonCodec Summary.t}.

(** C6: once the index is loaded, the classifier is called with the first
    message.  An answer that parses is returned as the analysis, after one
    call.  An answer that does not parse is followed by one call with the
    retry message, which states that only valid JSON is accepted and
    repeats the schema; if this answer parses it is returned, otherwise the
    operation raises a [ValueError], in both cases after exactly two
    calls. *)
Theorem analyze_change_bounded_retry
        (description provider : string) (w : world)
        (index : FileIndexer.CodebaseIndex) :
  FileIndexer.load w = (Ok index, w) ->
  let summary := index_summary index in
  let first := request_of provider (first_message description summary) in
  let retry := request_of provider (retry_message description summary) in
  let n := length (calls w) in
  (forall data,
      respond n first = Ok (Some data) ->
      analyze_change description provider w
      = (Ok (from_dict data), with_calls w [first]))
  /\ (forall data,
         respond n first = Ok None ->
         respond (S n) retry = Ok (Some data) ->
         analyze_change description provider w
         = (Ok (from_dict data), with_calls w [first; retry]))
  /\ (respond n first = Ok None ->
      respond (S n) retry = Ok None ->
      analyze_change description provider w
      = (Raise (ValueError RETRY_ERROR), with_calls w [first; retry]))
  /\ str_in "CRITICAL: Valid JSON only, no markdown." (user_message retry)
     = true
  /\ str_in CHANGE_SCHEMA (user_message retry) = true.
Proof.
  intros Hload summary first retry n. subst summary first retry n.
  unfold request_of, with_calls. cbn [user_message].
  assert (Hn : forall sent : AiCall,
             length (calls w ++ [sent]) = S (length (calls w))).
  { intros sent. rewrite length_app. simpl. lia. }
  repeat split.
  - intros data H1. unfold analyze_change, call_ai. io_unfold.
    rewrite Hload. io_simpl. rewrite H1. reflexivity.
  - intros data H1 H2. unfold analyze_change, call_ai. io_unfold.
    rewrite Hload. io_simpl. rewrite H1. cbn [calls disk].
    rewrite Hn, H2, <- app_assoc. reflexivity.
  - intros H1 H2. unfold analyze_change, call_ai. io_unfold.
    rewrite Hload. io_simpl. rewrite H1. cbn [calls disk].
    rewrite Hn, H2, <- app_assoc. reflexivity.
  - unfold retry_message. do 9 apply str_in_later. apply str_in_here.
  - unfold retry_message. do 14 apply str_in_later. apply str_in_refl.
Qed.

End Analyze.

(** A classifier that fails twice: two calls, then the error. *)
Lemma analyze_change_bounded_retry_witness :
  analyze_change
    (classifier := ClassifierSamples.stubborn)
    (index_json := ClassifierSamples.index_codec)
    (summary_json := ClassifierSamples.summary_codec)
    "add a forgot-password flow" "claude" Doubles.empty_world
  = (Raise (ValueError RETRY_ERROR),
     {| disk := ∅;
        calls :=
          [ClassifierSamples.request
             (first_message "add a forgot-password flow"
                (json_dumps (JsonCodec := ClassifierSamples.summary_codec)
                            {| Summary.modules := []; Summary.files := [] |}));
           ClassifierSamples.request
             (retry_message "add a forgot-password flow"
                (json_dumps (JsonCodec := ClassifierSamples.summary_codec)
                            {| Summary.modules := []; Summary.files := [] |}))]
     |}).
Proof.
  apply (proj1 (proj2 (proj2
           (@analyze_change_bounded_retry
              ClassifierSamples.stubborn ClassifierSamples.index_codec
              ClassifierSamples.summary_codec
              "add a forgot-password flow" "claude" Doubles.empty_world
              FileIndexer.empty_index
              (IndexLoadFacts.index_load_absent Doubles.empty_world eq_refl)))));
    reflexivity.
Defined.

End ClassifierFacts.

(** ** After a change: [update_after_change] and [_reindex_files] *)

Module UpdaterFacts.
Import Json Sys MemoryUpdater Notions.

Section Updater.
Context {tokenizer : TokenCounter.Tokenizer}.
Context {index_json : JsonCodec FileIndexer.CodebaseIndex}
        {memory_json : JsonCodec MemoryManager.MemoryRecord}.

Lemma mark_in_progress_history (d : MemoryManager.MemoryRecord) (m : string) :
  MemoryManager.change_history (mark_in_progress d m)
  = MemoryManager.change_history d.
Proof.
  unfold mark_in_progress. destruct (MemoryManager.get_module d m); reflexivity.
Qed.

Lemma fold_mark_in_progress_history (l : list string)
      (d : MemoryManager.MemoryRecord) :
  MemoryManager.change_history (fold_left mark_in_progress l d)
  = MemoryManager.change_history d.
Proof.
  revert d. induction l as [|m l IH]; intros d; simpl; [reflexivity|].
  rewrite IH. apply mark_in_progress_history.
Qed.

Lemma save_result (d0 : MemoryManager.MemoryRecord)
      (data : option MemoryManager.MemoryRecord) (now tmp : string)
      (w w' : world) (r : MemoryManager.MemoryRecord) :
  MemoryManager.save d0 data now tmp w = (Ok r, w') ->
  r = MemoryManager.set_last_updated now (default d0 data).
Proof.
  unfold MemoryManager.save. io_unfold.
  destruct (atomic_write tmp MEMORY_FILE _ w) as [[[]|e] w1]; intros [= <- _];
    reflexivity.
Qed.

(** What one round of the re-index does to the records. *)
Lemma reindex_file_deleted (src : sources)
      (d : dict FileIndexer.FileRecord) (rel : string) :
  src rel = None -> dict_get rel (reindex_file src d rel) = None.
Proof.
  intros Hsrc. unfold reindex_file. rewrite Hsrc.
  apply DictFacts.dict_get_pop_eq.
Qed.

Lemma reindex_file_present (src : sources)
      (d : dict FileIndexer.FileRecord) (rel content : string) :
  src rel = Some (Some content) ->
  exists record,
    dict_get rel (reindex_file src d rel) = Some record
    /\ FileIndexer.token_count record
       = Some (Z.of_nat (TokenCounter.count_tokens content)).
Proof.
  intros Hsrc. unfold reindex_file. rewrite Hsrc.
  eexists. split; [apply DictFacts.dict_get_set_eq | reflexivity].
Qed.

Lemma reindex_file_other (src : sources)
      (d : dict FileIndexer.FileRecord) (rel other : string) :
  rel <> other -> dict_get other (reindex_file src d rel) = dict_get other d.
Proof.
  intros Hne. unfold reindex_file.
  destruct (src rel) as [[content|]|].
  - apply DictFacts.dict_get_set_ne, Hne.
  - reflexivity.
  - apply DictFacts.dict_get_pop_ne, Hne.
Qed.

(** The index a partial re-index returns is the one it wrote, holds the
    records of the loaded index after the rounds of the loop, and is
    consistent. *)
Lemma reindex_files_spec (src : sources) (paths : list string)
      (tmp : string) (w w' : world) (index : FileIndexer.CodebaseIndex) :
  _reindex_files src paths tmp w = (Ok index, w') ->
  (exists loaded,
      FileIndexer.load w = (Ok loaded, w)
      /\ FileIndexer.files index
         = Some (fold_left (reindex_file src) paths
                           (default [] (FileIndexer.files loaded))))
  /\ disk w' !! FILE_INDEX_FILE = Some (File (json_dumps index))
  /\ index_consistent index.
Proof.
  unfold _reindex_files. io_unfold.
  destruct (FileIndexer.load w) as [[loaded|e] w0] eqn:Hload; [|discriminate].
  pose proof (IndexLoadFacts.index_load_keeps_world _ _ _ Hload) as ->.
  unfold FileIndexer._write_index, atomic_write. io_unfold.
  cbn [disk set_disk calls]. rewrite lookup_insert_eq.
  match goal with
  | |- context [(<[tmp:=?e]> (disk w)) !! FILE_INDEX_FILE] =>
      destruct ((<[tmp:=e]> (disk w)) !! FILE_INDEX_FILE) as [[raw|b]|]
  end; intros [= <- <-]; (split; [eauto|]);
    (split; [apply lookup_insert_eq | split; reflexivity]).
Qed.

(** A partial re-index returns when [file-index.json] is a UTF-8 file or
    is absent. *)
Lemma reindex_files_returns (src : sources) (paths : list string)
      (tmp : string) (w : world) :
  (forall raw, disk w !! FILE_INDEX_FILE = Some (File raw) ->
               Utf8.valid raw = true) ->
  (forall e, disk w !! FILE_INDEX_FILE <> Some (Dir e)) ->
  exists index w', _reindex_files src paths tmp w = (Ok index, w').
Proof.
  intros Hutf Hdir.
  destruct (IndexLoadFacts.index_load_returns w Hutf) as [loaded Hload].
  unfold _reindex_files. io_unfold. rewrite Hload.
  unfold FileIndexer._write_index, atomic_write. io_unfold.
  cbn [disk set_disk calls]. rewrite lookup_insert_eq.
  destruct (decide (tmp = FILE_INDEX_FILE)) as [->|Hne].
  - rewrite lookup_insert_eq. eauto.
  - rewrite lookup_insert_ne by exact Hne.
    destruct (disk w !! FILE_INDEX_FILE) as [[raw|b]|] eqn:Hf; eauto.
    exfalso. eapply Hdir. reflexivity.
Qed.

(** C10: when [update_after_change] returns, the change history of the
    manager is the history it loaded followed by one event, which records
    the tokens used and, as tokens saved, the difference to the full
    codebase clamped at 0; the recorded saving is never negative. *)
Theorem update_records_clamped_savings
        (src : sources) (root : string) (t : Times) (description : string)
        (analysis : ContextFinder.ChangeAnalysis)
        (tokens_used full_codebase_tokens : Z)
        (w w' : world) (_data : MemoryManager.MemoryRecord) :
  update_after_change src root t description analysis tokens_used
                      full_codebase_tokens w = (Ok _data, w') ->
  exists loaded w0,
    MemoryManager.load root (at_load t) w = (Ok loaded, w0)
    /\ MemoryManager.change_history _data
       = Some (default [] (MemoryManager.change_history loaded)
               ++ [{| MemoryManager.ChangeEvent.date := at_change t;
                      MemoryManager.ChangeEvent.description := description;
                      MemoryManager.ChangeEvent.files_changed :=
                        ContextFinder.affected_files analysis;
                      MemoryManager.ChangeEvent.tokens_used := tokens_used;
                      MemoryManager.ChangeEvent.tokens_saved :=
                        Z.max 0 (full_codebase_tokens - tokens_used) |}])
    /\ (0 <= Z.max 0 (full_codebase_tokens - tokens_used))%Z.
Proof.
  unfold update_after_change. io_unfold.
  destruct (MemoryManager.load root (at_load t) w) as [[loaded|e] w0];
    [|discriminate].
  destruct (MemoryManager.save _ None (at_save t) (tmp_memory t) w0)
    as [[saved|e] w1] eqn:Hsave; [|discriminate].
  destruct (_reindex_files src _ (tmp_index t) w1) as [[index|e] w2];
    [|discriminate].
  intros [= <- <-]. exists loaded, w0. split; [reflexivity|].
  apply save_result in Hsave. subst saved. cbn [default].
  split; [|lia].
  cbn [MemoryManager.set_last_updated MemoryManager.change_history].
  rewrite fold_mark_in_progress_history. reflexivity.
Qed.

(** [update_after_change] returns when neither file of the [.preflight]
    directory is a directory or fails to decode, the temporary name of
    the memory file not being that of the index. *)
Lemma update_after_change_returns
      (src : sources) (root : string) (t : Times) (description : string)
      (analysis : ContextFinder.ChangeAnalysis)
      (tokens_used full_codebase_tokens : Z) (w : world) :
  (forall e, disk w !! MEMORY_FILE <> Some (Dir e)) ->
  (forall raw, disk w !! MEMORY_FILE = Some (File raw) ->
               Utf8.valid raw = true) ->
  (forall e, disk w !! FILE_INDEX_FILE <> Some (Dir e)) ->
  (forall raw, disk w !! FILE_INDEX_FILE = Some (File raw) ->
               Utf8.valid raw = true) ->
  tmp_memory t <> FILE_INDEX_FILE ->
  exists _data w',
    update_after_change src root t description analysis tokens_used
                        full_codebase_tokens w = (Ok _data, w').
Proof.
  intros Hmdir Hmutf Hidir Hiutf Htmp.
  destruct (MemoryFacts.memory_load_returns root (at_load t) w Hmutf)
    as (loaded & w0 & Hload).
  destruct (MemoryFacts.memory_load_world _ _ _ _ _ Hload) as [_ Hw0].
  assert (Hindex0 : disk w0 !! FILE_INDEX_FILE = disk w !! FILE_INDEX_FILE).
  { destruct Hw0 as [->|(e & _ & ->)]; [reflexivity|].
    rewrite lookup_insert_ne by discriminate.
    rewrite lookup_delete_ne by discriminate. reflexivity. }
  assert (Hmdir0 : forall e, disk w0 !! MEMORY_FILE <> Some (Dir e)).
  { destruct Hw0 as [->|(e & _ & ->)]; [exact Hmdir|]. intros e'.
    rewrite lookup_insert_ne by discriminate.
    rewrite lookup_delete_eq. discriminate. }
  set (recorded :=
         fold_left mark_in_progress (ContextFinder.affected_modules analysis)
           (MemoryManager.add_change loaded (at_change t) description
              (ContextFinder.affected_files analysis) tokens_used
              (Z.max 0 (full_codebase_tokens - tokens_used)))).
  destruct (MemoryFacts.save_writes w0 recorded None (at_save t)
              (tmp_memory t) Hmdir0) as (w1 & Hsave & Hdisk1 & _).
  assert (Hindex1 : disk w1 !! FILE_INDEX_FILE = disk w !! FILE_INDEX_FILE).
  { rewrite Hdisk1. rewrite lookup_insert_ne by discriminate.
    rewrite lookup_delete_ne by exact Htmp. exact Hindex0. }
  destruct (reindex_files_returns src (ContextFinder.affected_files analysis)
              (tmp_index t) w1) as (index & w2 & Hre).
  { intros raw. rewrite Hindex1. apply Hiutf. }
  { intros e. rewrite Hindex1. apply Hidir. }
  unfold update_after_change. io_unfold. rewrite Hload.
  fold recorded. rewrite Hsave, Hre. eauto.
Qed.

End Updater.

(** 9000 tokens used against a codebase of 4000: the saving recorded is
    0. *)
Lemma update_records_clamped_savings_witness :
  exists _data loaded w0,
    MemoryManager.load (memory_json := Samples.memory_codec) "demo"
                       "2024-02-01T10:00:00" Doubles.empty_world
    = (Ok loaded, w0)
    /\ MemoryManager.change_history _data
       = Some (default [] (MemoryManager.change_history loaded)
               ++ [{| MemoryManager.ChangeEvent.date := "2024-02-01T10:00:01";
                      MemoryManager.ChangeEvent.description := "Added login";
                      MemoryManager.ChangeEvent.files_changed :=
                        ["src/auth/login.py"];
                      MemoryManager.ChangeEvent.tokens_used := 9000;
                      MemoryManager.ChangeEvent.tokens_saved :=
                        Z.max 0 (4000 - 9000) |}])
    /\ (0 <= Z.max 0 (4000 - 9000))%Z.
Proof.
  eexists.
  eapply (@update_records_clamped_savings
            Doubles.byte_tokenizer ClassifierSamples.index_codec
            Samples.memory_codec UpdaterSamples.project "demo"
            UpdaterSamples.times "Added login" UpdaterSamples.analysis
            9000 4000 Doubles.empty_world).
  vm_compute. reflexivity.
Defined.

End UpdaterFacts.

(** ** Paths: splitting what was joined *)

Module PathFacts.
Import Pathlib Notions.

Lemma valid_name_cons (c : ascii) (s : string) :
  valid_name (String c s) = true ->
  Ascii.eqb c slash = false /\ valid_name s = true.
Proof.
  unfold valid_name. simpl. intros Hv. apply andb_true_iff in Hv.
  destruct Hv as [Hc Hs]. split; [|exact Hs].
  destruct (Ascii.eqb c slash); [discriminate | reflexivity].
Qed.

Lemma append_cons (c : ascii) (s t : string) :
  String c s +:+ t = String c (s +:+ t).
Proof. reflexivity. Qed.

Lemma split_valid_name (s : string) :
  valid_name s = true -> split slash s = [s].
Proof.
  induction s as [|c s IH]; intros Hv; [reflexivity|].
  apply valid_name_cons in Hv. destruct Hv as [Hc Hs].
  simpl. rewrite Hc, (IH Hs). reflexivity.
Qed.

Lemma split_before_slash (s rest : string) :
  valid_name s = true ->
  split slash (s +:+ String slash rest) = s :: split slash rest.
Proof.
  induction s as [|c s IH]; intros Hv.
  - change ("" +:+ String slash rest) with (String slash rest).
    reflexivity.
  - apply valid_name_cons in Hv. destruct Hv as [Hc Hs].
    rewrite append_cons. simpl. rewrite Hc, (IH Hs). reflexivity.
Qed.

(** Joining names with slashes loses nothing. *)
Lemma split_join (names : list string) :
  names <> [] ->
  Forall (fun name => valid_name name = true) names ->
  split slash (join "/" names) = names.
Proof.
  induction names as [|x [|y rest] IH]; intros Hne Hv.
  - congruence.
  - apply split_valid_name. inversion Hv; assumption.
  - inversion Hv as [|? ? Hx Hrest]; subst.
    change (join "/" (x :: y :: rest))
      with (x +:+ String slash (join "/" (y :: rest))).
    rewrite (split_before_slash _ _ Hx), IH; [reflexivity | discriminate | exact Hrest].
Qed.

Lemma join_injective (names names' : list string) :
  names <> [] -> names' <> [] ->
  Forall (fun name => valid_name name = true) names ->
  Forall (fun name => valid_name name = true) names' ->
  join "/" names = join "/" names' -> names = names'.
Proof.
  intros Hne Hne' Hv Hv' Heq.
  rewrite <- (split_join names Hne Hv), <- (split_join names' Hne' Hv'), Heq.
  reflexivity.
Qed.

End PathFacts.

(** ** The walk of the project tree *)

Module WalkFacts.
Import FileIndexer Notions PathFacts.

Lemma walk_dir (dp : list string) (entries : list (string * node)) :
  walk dp (DirNode entries)
  = flat_map (file_of dp) entries ++ flat_map (subdir_of dp) entries.
Proof.
  reflexivity.
Qed.

(** Induction on trees, with the hypothesis for every entry of a
    directory. *)
Lemma node_nested_ind (P : node -> Prop) :
  (forall content mtime, P (FileNode content mtime)) ->
  (forall entries,
      (forall name child, In (name, child) entries -> P child) ->
      P (DirNode entries)) ->
  forall n, P n.
Proof.
  intros Hfile Hdir. fix IH 1. intros [content mtime|entries].
  - apply Hfile.
  - apply Hdir. induction entries as [|[name0 child0] es IHes].
    + intros name child [].
    + intros name child [Heq|Hin].
      * injection Heq as _ <-. apply IH.
      * exact (IHes name child Hin).
Qed.

Lemma well_formed_dir (entries : list (string * node)) :
  well_formed (DirNode entries) = true ->
  NoDup (map fst entries)
  /\ forall name child,
      In (name, child) entries ->
      valid_name name = true /\ well_formed child = true.
Proof.
  simpl. intros Hwf. apply andb_true_iff in Hwf. destruct Hwf as [Hnd Hall].
  split; [exact (bool_decide_eq_true_1 _ Hnd)|].
  intros name child Hin. rewrite forallb_forall in Hall.
  specialize (Hall _ Hin). simpl in Hall. apply andb_true_iff in Hall.
  exact Hall.
Qed.

(** Every file the walk meets lies below the directory the walk started
    in, through directories none of which is ignored; in a well-formed
    tree all the names on the way are valid. *)
Lemma walk_below (n : node) :
  forall dp f,
    In f (walk dp n) ->
    exists rest,
      dirpath f = dp ++ rest
      /\ Forall (fun d => name_in d IGNORED_DIRS = false) rest
      /\ (well_formed n = true ->
          Forall (fun name => valid_name name = true) rest
          /\ valid_name (fname f) = true).
Proof.
  induction n as [content mtime|entries IH] using node_nested_ind;
    intros dp f Hin.
  - destruct Hin.
  - rewrite walk_dir in Hin. apply in_app_or in Hin.
    destruct Hin as [Hin|Hin]; apply in_flat_map in Hin;
      destruct Hin as [[name child] [Hentry Hin]].
    + destruct child as [content mtime|sub]; simpl in Hin; [|destruct Hin].
      destruct (indexable name); [|destruct Hin].
      destruct Hin as [<-|[]]. exists []. simpl.
      split; [rewrite app_nil_r; reflexivity|]. split; [constructor|].
      intros Hwf. split; [constructor|].
      apply well_formed_dir in Hwf. destruct Hwf as [_ Hall].
      exact (proj1 (Hall _ _ Hentry)).
    + destruct child as [content mtime|sub]; [destruct Hin|].
      cbn [subdir_of] in Hin.
      destruct (name_in name IGNORED_DIRS) eqn:Hign; [destruct Hin|].
      destruct (IH _ _ Hentry _ _ Hin) as (rest & Hpath & Hrest & Hvalid).
      exists (name :: rest). split; [|split].
      * rewrite Hpath, <- app_assoc. reflexivity.
      * constructor; assumption.
      * intros Hwf. apply well_formed_dir in Hwf. destruct Hwf as [_ Hall].
        destruct (Hall _ _ Hentry) as [Hname Hsub].
        destruct (Hvalid Hsub) as [Hr Hf].
        split; [constructor; assumption | exact Hf].
Qed.

#[local] Arguments name_in : simpl never.
#[local] Arguments indexable : simpl never.
#[local] Arguments walk : simpl never.

Lemma map_flat_map {A B C} (h : B -> C) (g : A -> list B) (l : list A) :
  map h (flat_map g l) = flat_map (fun x => map h (g x)) l.
Proof.
  induction l as [|x l IH]; simpl; [reflexivity|].
  rewrite map_app, IH. reflexivity.
Qed.

(** Lists that come from entries with distinct keys, and that share an
    element only when the keys agree, concatenate without a repeat. *)
Lemma NoDup_flat_map_keyed {A B K} (key : A -> K) (g : A -> list B)
      (l : list A) :
  List.NoDup (map key l) ->
  (forall x, In x l -> List.NoDup (g x)) ->
  (forall x y b, In x l -> In y l -> In b (g x) -> In b (g y) ->
                 key x = key y) ->
  List.NoDup (flat_map g l).
Proof.
  induction l as [|x l IH]; simpl; intros Hkeys Heach Hshare; [constructor|].
  inversion Hkeys as [|? ? Hx Hl]; subst.
  apply List.NoDup_app.
  - apply Heach. left. reflexivity.
  - apply IH; [exact Hl | intros; apply Heach; right; assumption |].
    intros y z b Hy Hz. apply Hshare; right; assumption.
  - intros b Hb Hb'. apply in_flat_map in Hb'. destruct Hb' as [y [Hy Hby]].
    apply Hx. rewrite (Hshare x y b); [apply in_map; exact Hy | | | | ];
      auto using in_eq, in_cons.
Qed.

Lemma walk_locations_nodup (n : node) :
  forall dp, well_formed n = true -> List.NoDup (map location (walk dp n)).
Proof.
  induction n as [content mtime|entries IH] using node_nested_ind;
    intros dp Hwf.
  - constructor.
  - pose proof (well_formed_dir entries Hwf) as [Hnames Hall].
    apply NoDup_ListNoDup in Hnames.
    rewrite walk_dir, map_app, !map_flat_map. apply List.NoDup_app.
    + apply (NoDup_flat_map_keyed fst); [exact Hnames | |].
      * intros [name [content mtime|sub]] _; simpl; [|constructor].
        destruct (indexable name); simpl; [|constructor].
        constructor; [intros [] | constructor].
      * intros [name [c m|sub]] [name' [c' m'|sub']] b _ _ Hb Hb';
          simpl in Hb, Hb'; try contradiction.
        destruct (indexable name); [|contradiction].
        destruct (indexable name'); [|contradiction].
        destruct Hb as [<-|[]]. destruct Hb' as [Heq|[]].
        injection Heq as ->. reflexivity.
    + apply (NoDup_flat_map_keyed fst); [exact Hnames | |].
      * intros [name [content mtime|sub]] Hentry; simpl; [constructor|].
        destruct (name_in name IGNORED_DIRS); [constructor|].
        apply (IH _ _ Hentry). exact (proj2 (Hall _ _ Hentry)).
      * intros [name [c m|sub]] [name' [c' m'|sub']] b Hx Hy Hb Hb';
          simpl in Hb, Hb'; try contradiction.
        destruct (name_in name IGNORED_DIRS); [contradiction|].
        destruct (name_in name' IGNORED_DIRS); [contradiction|].
        apply in_map_iff in Hb. destruct Hb as [f [<- Hf]].
        apply in_map_iff in Hb'. destruct Hb' as [f' [Heq Hf']].
        destruct (walk_below _ _ _ Hf) as (rest & Hpath & _).
        destruct (walk_below _ _ _ Hf') as (rest' & Hpath' & _).
        injection Heq as Hdirs _. rewrite Hpath, Hpath' in Hdirs.
        rewrite <- !app_assoc in Hdirs. apply app_inv_head in Hdirs.
        simpl in Hdirs. injection Hdirs as -> _. reflexivity.
    + intros b Hb Hb'.
      apply in_flat_map in Hb. destruct Hb as [[name [c m|sub]] [_ Hb]];
        simpl in Hb; [|contradiction].
      destruct (indexable name); [|contradiction]. destruct Hb as [<-|[]].
      apply in_flat_map in Hb'.
      destruct Hb' as [[name' [c' m'|sub']] [_ Hb']]; simpl in Hb';
        [contradiction|].
      destruct (name_in name' IGNORED_DIRS); [contradiction|].
      apply in_map_iff in Hb'. destruct Hb' as [f' [Heq Hf']].
      destruct (walk_below _ _ _ Hf') as (rest' & Hpath' & _).
      injection Heq as Hdirs _. simpl in Hdirs. rewrite Hpath' in Hdirs.
      rewrite <- app_assoc in Hdirs.
      apply (f_equal (@length string)) in Hdirs.
      rewrite length_app in Hdirs. simpl in Hdirs. lia.
Qed.

Lemma rel_path_location (f : Found) :
  rel_path f = join "/" (fst (location f) ++ [snd (location f)]).
Proof. reflexivity. Qed.

(** On a list whose images are pairwise distinct, the function is
    injective. *)
Lemma NoDup_map_injective {A B} (h : A -> B) (l : list A) (x y : A) :
  List.NoDup (map h l) -> In x l -> In y l -> h x = h y -> x = y.
Proof.
  induction l as [|z l IH]; simpl; intros Hnd Hx Hy Heq; [destruct Hx|].
  inversion Hnd as [|? ? Hz Hl]; subst.
  destruct Hx as [<-|Hx]; destruct Hy as [<-|Hy].
  - reflexivity.
  - exfalso. apply Hz. rewrite Heq. apply in_map. exact Hy.
  - exfalso. apply Hz. rewrite <- Heq. apply in_map. exact Hx.
  - exact (IH Hl Hx Hy Heq).
Qed.

(** The names on the way to a file of the walk, the file name last. *)
Lemma walk_names_valid (root : node) (f : Found) :
  well_formed root = true ->
  In f (_walk_files root) ->
  dirpath f ++ [fname f] <> []
  /\ Forall (fun name => valid_name name = true) (dirpath f ++ [fname f])
  /\ Forall (fun d => name_in d IGNORED_DIRS = false) (dirpath f).
Proof.
  intros Hwf Hf.
  destruct (walk_below _ _ _ Hf) as (rest & Hpath & Hign & Hvalid).
  destruct (Hvalid Hwf) as [Hr Hn]. simpl in Hpath. subst rest.
  split; [destruct (dirpath f); discriminate|]. split; [|exact Hign].
  apply Forall_app. split; [exact Hr|]. constructor; [exact Hn | constructor].
Qed.

(** In a well-formed tree no two files of the walk have the same relative
    path. *)
Lemma walk_rel_paths_nodup (root : node) :
  well_formed root = true -> List.NoDup (map rel_path (_walk_files root)).
Proof.
  intros Hwf.
  pose proof (walk_locations_nodup root [] Hwf) as Hnd.
  apply NoDup_map_NoDup_ForallPairs.
  - intros f f' Hf Hf' Heq.
    destruct (walk_names_valid root f Hwf Hf) as (Hne & Hv & _).
    destruct (walk_names_valid root f' Hwf Hf') as (Hne' & Hv' & _).
    apply (join_injective _ _ Hne Hne' Hv Hv') in Heq.
    apply app_inj_tail in Heq. destruct Heq as [Hdirs Hname].
    apply (NoDup_map_injective location (walk [] root)); try assumption.
    unfold location. rewrite Hdirs, Hname. reflexivity.
  - exact (NoDup_map_inv location _ Hnd).
Qed.

(** *** The loop of [index] *)

Section Loop.
Context {tokenizer : TokenCounter.Tokenizer} {scanner : Scanner}.

Lemma sum_token_counts_app (d : dict FileRecord) (k : string) (r : FileRecord) :
  MemoryUpdater.sum_token_counts (d ++ [(k, r)])
  = (MemoryUpdater.sum_token_counts d + default 0 (token_count r))%Z.
Proof.
  unfold MemoryUpdater.sum_token_counts, dict_values.
  induction d as [|[k' r'] d IH]; simpl; [lia|]. rewrite IH. lia.
Qed.

Lemma index_step_unreadable (st : dict FileRecord * dict (list string) * nat)
      (f : Found) :
  content f = None -> index_step st f = st.
Proof.
  intros Hc. destruct st as [[fd md] tt]. unfold index_step. rewrite Hc.
  reflexivity.
Qed.

Lemma index_step_readable (fd : dict FileRecord) (md : dict (list string))
      (tt : nat) (f : Found) (text : string) :
  content f = Some text ->
  exists r md',
    index_step (fd, md, tt) f
    = (dict_set (rel_path f) r fd, md',
       (tt + TokenCounter.count_tokens text)%nat)
    /\ token_count r = Some (Z.of_nat (TokenCounter.count_tokens text)).
Proof.
  intros Hc. unfold index_step. rewrite Hc.
  eexists. eexists. split; reflexivity.
Qed.

(** The loop invariant: the running total is the sum of the token counts
    stored so far, and every key stored is the relative path of a file
    already met. *)
Lemma index_loop_invariant (l : list Found) :
  forall files_data modules total_tokens,
    List.NoDup (map rel_path l) ->
    (forall f, In f l -> dict_get (rel_path f) files_data = None) ->
    MemoryUpdater.sum_token_counts files_data = Z.of_nat total_tokens ->
    forall files_data' modules' total_tokens',
      fold_left index_step l (files_data, modules, total_tokens)
      = (files_data', modules', total_tokens') ->
      MemoryUpdater.sum_token_counts files_data' = Z.of_nat total_tokens'
      /\ forall k, In k (dict_keys files_data') ->
                   In k (dict_keys files_data) \/ In k (map rel_path l).
Proof.
  induction l as [|f l IH]; intros fd md tt Hnd Hfresh Hsum fd' md' tt' Hfold.
  - simpl in Hfold. injection Hfold as <- <- <-. auto.
  - cbn [fold_left] in Hfold. inversion Hnd as [|? ? Hf Hl]; subst.
    destruct (content f) as [text|] eqn:Hcontent.
    + destruct (index_step_readable fd md tt f text Hcontent)
        as (r & md1 & Hstep & Hcount).
      rewrite Hstep in Hfold.
      rewrite (DictFacts.dict_set_fresh _ _ fd (Hfresh f (in_eq _ _)))
        in Hfold.
      apply IH in Hfold; [| exact Hl | |].
      * destruct Hfold as [Hsum' Hkeys]. split; [exact Hsum'|].
        intros k Hk. destruct (Hkeys k Hk) as [Hold|Hnew].
        -- unfold dict_keys in Hold. rewrite map_app in Hold.
           apply in_app_or in Hold. destruct Hold as [Hold|[<-|[]]].
           ++ left. exact Hold.
           ++ right. left. reflexivity.
        -- right. right. exact Hnew.
      * intros f' Hf'. apply DictFacts.dict_get_None.
        rewrite list_elem_of_In. unfold dict_keys. rewrite map_app.
        intros Hin. apply in_app_or in Hin. destruct Hin as [Hin|[Heq|[]]].
        -- pose proof (Hfresh f' (in_cons _ _ _ Hf')) as Hnone.
           apply DictFacts.dict_get_None in Hnone.
           apply Hnone. rewrite list_elem_of_In. exact Hin.
        -- apply Hf. simpl in Heq. rewrite Heq. apply in_map. exact Hf'.
      * rewrite sum_token_counts_app, Hcount. simpl. lia.
    + rewrite (index_step_unreadable _ f Hcontent) in Hfold.
      apply IH in Hfold; [| exact Hl | | exact Hsum].
      * destruct Hfold as [Hsum' Hkeys]. split; [exact Hsum'|].
        intros k Hk. destruct (Hkeys k Hk); [left | right; right]; assumption.
      * intros f' Hf'. apply Hfresh. right. exact Hf'.
Qed.

End Loop.

(** *** The index built by [index] *)

Section Index.
Context {tokenizer : TokenCounter.Tokenizer} {scanner : Scanner}
        {index_json : Json.JsonCodec CodebaseIndex}.

(** What [index] returns, from the final state of its loop. *)
Lemma index_result (root : node) (now tmp : string) (w w' : Sys.world)
      (index_data : CodebaseIndex) :
  index root now tmp w = (Ok index_data, w') ->
  exists files_data modules total_tokens,
    index_loop root = (files_data, modules, total_tokens)
    /\ index_data
       = {| indexed_at := Some now;
            total_files := Some (Z.of_nat (length files_data));
            total_tokens_if_full_read := Some (Z.of_nat total_tokens);
            files := Some files_data;
            modules := Some modules |}
    /\ Sys.disk w' !! FILE_INDEX_FILE
       = Some (Sys.File (Json.json_dumps index_data)).
Proof.
  unfold index. destruct (index_loop root) as [[fd md] tt].
  unfold _write_index, Sys.atomic_write. io_unfold.
  cbn [Sys.disk Sys.set_disk Sys.calls]. rewrite lookup_insert_eq.
  match goal with
  | |- context [(<[tmp:=?e]> (Sys.disk w)) !! FILE_INDEX_FILE] =>
      destruct ((<[tmp:=e]> (Sys.disk w)) !! FILE_INDEX_FILE) as [[raw|b]|]
  end; intros [= <- <-]; exists fd, md, tt;
    (split; [reflexivity | split; [reflexivity | apply lookup_insert_eq]]).
Qed.

(** [index] returns unless [file-index.json] is a directory. *)
Lemma index_returns (root : node) (now tmp : string) (w : Sys.world) :
  (forall e, Sys.disk w !! FILE_INDEX_FILE <> Some (Sys.Dir e)) ->
  exists index_data w', index root now tmp w = (Ok index_data, w').
Proof.
  intros Hdir. unfold index. destruct (index_loop root) as [[fd md] tt].
  unfold _write_index, Sys.atomic_write. io_unfold.
  cbn [Sys.disk Sys.set_disk Sys.calls]. rewrite lookup_insert_eq.
  destruct (decide (tmp = FILE_INDEX_FILE)) as [->|Hne].
  - rewrite lookup_insert_eq. eauto.
  - rewrite lookup_insert_ne by exact Hne.
    destruct (Sys.disk w !! FILE_INDEX_FILE) as [[raw|b]|] eqn:Hf; eauto.
    exfalso. eapply Hdir. reflexivity.
Qed.

(** The keys of the index are relative paths of files of the walk, and
    the totals agree with the records. *)
Lemma index_keys_and_totals (root : node) (now tmp : string)
      (w w' : Sys.world) (index_data : CodebaseIndex) :
  well_formed root = true ->
  index root now tmp w = (Ok index_data, w') ->
  index_consistent index_data
  /\ forall k, In k (dict_keys (default [] (files index_data))) ->
               In k (map rel_path (_walk_files root)).
Proof.
  intros Hwf Hindex.
  destruct (index_result _ _ _ _ _ _ Hindex)
    as (fd & md & tt & Hloop & -> & _).
  unfold index_loop in Hloop.
  apply index_loop_invariant in Hloop;
    [| exact (walk_rel_paths_nodup root Hwf) | reflexivity | reflexivity].
  destruct Hloop as [Hsum Hkeys]. split.
  - split; simpl; [reflexivity | rewrite Hsum; reflexivity].
  - intros k Hk. destruct (Hkeys k Hk) as [[]|Hin]. exact Hin.
Qed.

End Index.

Lemma located_names_valid (n : node) (dirs : list string) (name : string) :
  well_formed n = true ->
  located n dirs name ->
  Forall (fun x => valid_name x = true) (dirs ++ [name]).
Proof.
  intros Hwf Hloc. induction Hloc as [entries name content mtime Hin
                                     |entries dir child dirs name Hin Hloc IH].
  - apply well_formed_dir in Hwf. destruct Hwf as [_ Hall].
    constructor; [exact (proj1 (Hall _ _ Hin)) | constructor].
  - apply well_formed_dir in Hwf. destruct Hwf as [_ Hall].
    destruct (Hall _ _ Hin) as [Hdir Hchild].
    simpl. constructor; [exact Hdir | exact (IH Hchild)].
Qed.

(** C7: the index a full build returns for a well-formed tree, and the
    index a partial re-index returns, are the documents written to
    [file-index.json], and in both the file count is the number of
    entries of the file mapping and the token total is the sum of the
    per-file token counts. *)
Theorem index_totals_consistent :
  (forall (tokenizer : TokenCounter.Tokenizer) (scanner : Scanner)
          (index_json : Json.JsonCodec CodebaseIndex)
          (root : node) (now tmp : string) (w w' : Sys.world)
          (index_data : CodebaseIndex),
      well_formed root = true ->
      index root now tmp w = (Ok index_data, w') ->
      index_consistent index_data
      /\ Sys.disk w' !! FILE_INDEX_FILE
         = Some (Sys.File (Json.json_dumps index_data)))
  /\ (forall (tokenizer : TokenCounter.Tokenizer)
             (index_json : Json.JsonCodec CodebaseIndex)
             (src : Sys.sources) (paths : list string) (tmp : string)
             (w w' : Sys.world) (index_data : CodebaseIndex),
         MemoryUpdater._reindex_files src paths tmp w = (Ok index_data, w') ->
         index_consistent index_data
         /\ Sys.disk w' !! FILE_INDEX_FILE
            = Some (Sys.File (Json.json_dumps index_data))).
Proof.
  split.
  - intros tokenizer scanner index_json root now tmp w w' index_data Hwf Hindex.
    split.
    + exact (proj1 (index_keys_and_totals _ _ _ _ _ _ Hwf Hindex)).
    + destruct (index_result _ _ _ _ _ _ Hindex) as (? & ? & ? & _ & _ & Hdisk).
      exact Hdisk.
  - intros tokenizer index_json src paths tmp w w' index_data Hre.
    destruct (UpdaterFacts.reindex_files_spec _ _ _ _ _ _ Hre)
      as (_ & Hdisk & Hok).
    split; assumption.
Qed.

(** The full build of the sample project. *)
Lemma index_totals_consistent_witness :
  exists index_data w',
    index (tokenizer := Doubles.byte_tokenizer)
          (scanner := Doubles.blind_scanner)
          (index_json := ClassifierSamples.index_codec)
          TreeSamples.project "2024-03-01T00:00:00+00:00" "index_q7.tmp"
          Doubles.empty_world
    = (Ok index_data, w')
    /\ total_files index_data = Some 4%Z
    /\ index_consistent index_data.
Proof.
  eexists. eexists. split; [vm_compute; reflexivity|].
  split; [reflexivity|].
  refine (proj1 (proj1 index_totals_consistent
                   Doubles.byte_tokenizer Doubles.blind_scanner
                   ClassifierSamples.index_codec TreeSamples.project
                   "2024-03-01T00:00:00+00:00" "index_q7.tmp"
                   Doubles.empty_world _ _ _ _)).
  - reflexivity.
  - vm_compute. reflexivity.
Defined.

(** The hypothesis on the tree is needed: a directory listing that named
    a file twice would be counted twice and stored once. *)
Example index_counts_a_repeated_name_twice :
  exists index_data w',
    index (tokenizer := Doubles.byte_tokenizer)
          (scanner := Doubles.blind_scanner)
          (index_json := ClassifierSamples.index_codec)
          (DirNode [("a.py", TreeSamples.file "x = 1");
                    ("a.py", TreeSamples.file "x = 1")])
          "2024-03-01T00:00:00+00:00" "index_q7.tmp" Doubles.empty_world
    = (Ok index_data, w')
    /\ total_files index_data = Some 1%Z
    /\ total_tokens_if_full_read index_data = Some 10%Z
    /\ MemoryUpdater.sum_token_counts (default [] (files index_data)) = 5%Z.
Proof.
  eexists. eexists. split; [vm_compute; reflexivity|]. repeat split.
Qed.

(** C9: in the index a full build returns for a well-formed tree, no file
    located below a directory whose name is in the ignore set has an entry
    in the file mapping. *)
Theorem ignored_directories_not_indexed
        {tokenizer : TokenCounter.Tokenizer} {scanner : Scanner}
        {index_json : Json.JsonCodec CodebaseIndex}
        (root : node) (now tmp : string) (w w' : Sys.world)
        (index_data : CodebaseIndex) (dirs : list string) (name : string) :
  well_formed root = true ->
  located root dirs name ->
  Exists (fun d => name_in d IGNORED_DIRS = true) dirs ->
  index root now tmp w = (Ok index_data, w') ->
  dict_get (join "/" (dirs ++ [name])) (default [] (files index_data)) = None.
Proof.
  intros Hwf Hloc Hignored Hindex.
  apply DictFacts.dict_get_None. rewrite list_elem_of_In. intros Hkey.
  apply (proj2 (index_keys_and_totals _ _ _ _ _ _ Hwf Hindex)) in Hkey.
  apply in_map_iff in Hkey. destruct Hkey as [f [Hpath Hf]].
  destruct (walk_names_valid root f Hwf Hf) as (Hne & Hv & Hclean).
  unfold rel_path in Hpath. apply join_injective in Hpath.
  - apply app_inj_tail in Hpath. destruct Hpath as [Hdirs _].
    rewrite Hdirs in Hclean. apply Exists_exists in Hignored.
    destruct Hignored as [d [Hd Hin]].
    rewrite Forall_forall in Hclean. rewrite (Hclean d Hd) in Hin.
    discriminate.
  - exact Hne.
  - destruct dirs; discriminate.
  - exact Hv.
  - exact (located_names_valid _ _ _ Hwf Hloc).
Qed.

(** In the sample project [node_modules/pkg/index.js] is not indexed,
    [src/auth/login.py] is. *)
Lemma ignored_directories_not_indexed_witness :
  exists index_data w',
    index (tokenizer := Doubles.byte_tokenizer)
          (scanner := Doubles.blind_scanner)
          (index_json := ClassifierSamples.index_codec)
          TreeSamples.project "2024-03-01T00:00:00+00:00" "index_q7.tmp"
          Doubles.empty_world
    = (Ok index_data, w')
    /\ dict_get "node_modules/pkg/index.js" (default [] (files index_data))
       = None
    /\ is_Some (dict_get "src/auth/login.py" (default [] (files index_data))).
Proof.
  eexists. eexists. split; [vm_compute; reflexivity|]. split.
  - refine (@ignored_directories_not_indexed
              Doubles.byte_tokenizer Doubles.blind_scanner
              ClassifierSamples.index_codec TreeSamples.project
              "2024-03-01T00:00:00+00:00" "index_q7.tmp"
              Doubles.empty_world _ _ ["node_modules"; "pkg"] "index.js"
              _ _ _ _).
    + reflexivity.
    + eapply located_below; [right; right; left; reflexivity|].
      eapply located_below; [left; reflexivity|].
      eapply located_here. left. reflexivity.
    + apply Exists_cons_hd. reflexivity.
    + vm_compute. reflexivity.
  - eexists. reflexivity.
Defined.

End WalkFacts.

(** ** Context selection: [build_context] *)

Module ContextFacts.
Import Json Sys TokenCounter ContextFinder Notions.

(** *** Substrings and first matches *)

Lemma prefix_rest (x s : string) :
  String.prefix x s = true -> exists rest, s = x +:+ rest.
Proof.
  revert s. induction x as [|c x IH]; intros s Hp.
  - exists s. reflexivity.
  - destruct s as [|c' s]; simpl in Hp; [discriminate|].
    destruct (ascii_dec c c') as [<-|]; [|discriminate].
    destruct (IH s Hp) as [rest ->]. exists rest. reflexivity.
Qed.

(** [str_in] is the substring test. *)
Lemma str_in_substring (needle hay : string) :
  str_in needle hay = true
  <-> exists before after, hay = before +:+ needle +:+ after.
Proof.
  split.
  - induction hay as [|c hay IH]; intros Hin; cbn [str_in] in Hin.
    + rewrite orb_false_r in Hin. destruct (prefix_rest _ _ Hin) as [rest ->].
      exists "", rest. reflexivity.
    + apply orb_true_iff in Hin. destruct Hin as [Hp|Hin].
      * destruct (prefix_rest _ _ Hp) as [rest ->]. exists "", rest.
        reflexivity.
      * destruct (IH Hin) as (before & after & ->).
        exists (String c before), after. reflexivity.
  - intros (before & after & ->).
    apply ClassifierFacts.str_in_later, ClassifierFacts.str_in_here.
Qed.

Lemma find_first {A} (P : A -> bool) (l : list A) (x : A) :
  List.find P l = Some x ->
  exists before after,
    l = before ++ x :: after
    /\ P x = true
    /\ Forall (fun y => P y = false) before.
Proof.
  induction l as [|y l IH]; simpl; [discriminate|].
  destruct (P y) eqn:Hy.
  - intros [= ->]. exists [], l. split; [reflexivity|]. split; [exact Hy|].
    constructor.
  - intros Hfind. destruct (IH Hfind) as (before & after & -> & Hx & Hb).
    exists (y :: before), after. split; [reflexivity|]. split; [exact Hx|].
    constructor; assumption.
Qed.

(** *** The working set *)

Section WorkingSet.
Variable files_in_index : dict FileIndexer.FileRecord.

Lemma fold_imports (imports : list string) (files_to_load : gset string)
      (p : string) :
  p ∈ fold_left (fun files_to_load imp =>
                   match first_match files_in_index imp with
                   | Some idx_path => files_to_load ∪ {[idx_path]}
                   | None => files_to_load
                   end) imports files_to_load
  <-> p ∈ files_to_load
      \/ exists imp, imp ∈ imports /\ first_match files_in_index imp = Some p.
Proof.
  revert files_to_load.
  induction imports as [|imp imports IH]; intros acc; simpl.
  - split; [auto | intros [Hp|(imp & Himp & _)]; [exact Hp|]].
    apply elem_of_nil in Himp. destruct Himp.
  - rewrite IH. split.
    + intros [Hp|(imp' & Himp & Hm)].
      * destruct (first_match files_in_index imp) as [q|] eqn:Hq; [|auto].
        apply elem_of_union in Hp. destruct Hp as [Hp|Hp]; [auto|].
        apply elem_of_singleton in Hp. subst q.
        right. exists imp. split; [apply list_elem_of_here | exact Hq].
      * right. exists imp'. split; [apply list_elem_of_further, Himp | exact Hm].
    + intros [Hp|(imp' & Himp & Hm)].
      * left. destruct (first_match files_in_index imp); [|exact Hp].
        apply elem_of_union. left. exact Hp.
      * apply elem_of_cons in Himp. destruct Himp as [->|Himp].
        -- left. rewrite Hm. apply elem_of_union. right.
           apply elem_of_singleton. reflexivity.
        -- right. exists imp'. split; assumption.
Qed.

Lemma expand_file_spec (files_to_load : gset string) (fpath p : string) :
  p ∈ expand_file files_in_index files_to_load fpath
  <-> p ∈ files_to_load \/ one_hop files_in_index fpath p.
Proof.
  unfold expand_file, one_hop.
  destruct (dict_get fpath files_in_index) as [record|].
  - rewrite fold_imports. split.
    + intros [Hp|(imp & Himp & Hm)]; [auto|]. right. eauto.
    + intros [Hp|(record' & imp & [= <-] & Himp & Hm)]; [auto|]. right. eauto.
  - split; [auto|]. intros [Hp|(record & imp & Hget & _)];
      [exact Hp | discriminate].
Qed.

Lemma fold_expand (snapshot : list string) (files_to_load : gset string)
      (p : string) :
  p ∈ fold_left (expand_file files_in_index) snapshot files_to_load
  <-> p ∈ files_to_load
      \/ exists fpath, fpath ∈ snapshot /\ one_hop files_in_index fpath p.
Proof.
  revert files_to_load.
  induction snapshot as [|f snapshot IH]; intros acc; simpl.
  - split; [auto | intros [Hp|(f & Hf & _)]; [exact Hp|]].
    apply elem_of_nil in Hf. destruct Hf.
  - rewrite IH, expand_file_spec. split.
    + intros [[Hp|Hhop]|(f' & Hf' & Hhop)]; [auto | |].
      * right. exists f. split; [apply list_elem_of_here | exact Hhop].
      * right. exists f'. split; [apply list_elem_of_further, Hf' | exact Hhop].
    + intros [Hp|(f' & Hf' & Hhop)]; [auto|].
      apply elem_of_cons in Hf'. destruct Hf' as [->|Hf']; [auto|].
      right. eauto.
Qed.

End WorkingSet.

(** C1: the working set of [build_context] holds the affected files of the
    intent and, for each of them that the index knows, the first index
    path matching each of its recorded imports, and nothing else; a match
    is the first key of the index, in index order, that contains the
    import as a substring, either with dots replaced by slashes or as
    written.  The imports of a file that the expansion added play no
    part. *)
Theorem working_set_single_hop
        (files_in_index : dict FileIndexer.FileRecord)
        (affected_files : list string) :
  (forall p,
      p ∈ working_set files_in_index affected_files
      <-> p ∈ affected_files
          \/ exists fpath record imp,
              fpath ∈ affected_files
              /\ dict_get fpath files_in_index = Some record
              /\ imp ∈ default [] (FileIndexer.imports record)
              /\ first_match files_in_index imp = Some p)
  /\ (forall imp p,
         first_match files_in_index imp = Some p ->
         exists before after,
           dict_keys files_in_index = before ++ p :: after
           /\ (exists pre post,
                  p = pre +:+ replace_char Pathlib.dot Pathlib.slash imp
                          +:+ post
                  \/ p = pre +:+ imp +:+ post)
           /\ Forall (fun q => import_matches imp q = false) before).
Proof.
  split.
  - intros p. unfold working_set. rewrite fold_expand.
    rewrite elem_of_list_to_set. unfold one_hop. split.
    + intros [Hp|(f & Hf & record & imp & Hget & Himp & Hm)]; [auto|].
      right. exists f, record, imp.
      rewrite elem_of_elements, elem_of_list_to_set in Hf. auto.
    + intros [Hp|(f & record & imp & Hf & Hget & Himp & Hm)]; [auto|].
      right. exists f. rewrite elem_of_elements, elem_of_list_to_set.
      split; [exact Hf|]. exists record, imp. auto.
  - intros imp p Hm. unfold first_match in Hm.
    destruct (find_first _ _ _ Hm) as (before & after & Hkeys & Hp & Hb).
    exists before, after. split; [exact Hkeys|]. split; [|exact Hb].
    unfold import_matches in Hp. apply orb_true_iff in Hp.
    destruct Hp as [Hp|Hp]; apply str_in_substring in Hp;
      destruct Hp as (pre & post & Hp); exists pre, post; auto.
Qed.

(** The expansion is not transitive: with [a.py] importing [b] and [b.py]
    importing [c], a change to [a.py] selects [a.py] and [b.py] only. *)
Example working_set_stops_after_one_hop :
  working_set ContextSamples.chain ["a.py"] = {["a.py"; "b.py"]}.
Proof. vm_compute. reflexivity. Qed.

(** *** Loading and compressing *)

Lemma readable_files_keys (src : sources) (paths : list string) (k : string) :
  In k (dict_keys (readable_files src paths)) -> In k paths.
Proof.
  unfold dict_keys, readable_files. intros Hk.
  apply in_map_iff in Hk. destruct Hk as [[k' v] [<- Hin]].
  apply in_flat_map in Hin. destruct Hin as [k0 [Hk0 Hin]].
  destruct (src k0) as [[v0|]|]; simpl in Hin; try contradiction.
  destruct Hin as [[= <- <-]|[]]. exact Hk0.
Qed.

Lemma readable_files_get (src : sources) (paths : list string)
      (k v : string) :
  dict_get k (readable_files src paths) = Some v
  <-> In k paths /\ src k = Some (Some v).
Proof.
  unfold readable_files. induction paths as [|k0 paths IH]; simpl.
  - split; [discriminate | intros [[] _]].
  - destruct (src k0) as [[v0|]|] eqn:Hk0; simpl.
    + destruct (String.eqb_spec k0 k) as [->|Hne].
      * split.
        -- intros [= <-]. auto.
        -- intros [_ Hv]. congruence.
      * rewrite IH. split; [tauto|]. intros [[Heq|Hin] Hv]; [congruence | auto].
    + rewrite IH. split; [tauto|].
      intros [[Heq|Hin] Hv]; [congruence | auto].
    + rewrite IH. split; [tauto|].
      intros [[Heq|Hin] Hv]; [congruence | auto].
Qed.

Section Loading.
Context {tokenizer : Tokenizer}.

Lemma token_sum_app (a b : dict string) :
  token_sum (a ++ b) = (token_sum a + token_sum b)%nat.
Proof.
  unfold token_sum, dict_values. rewrite !map_app, list_sum_app. reflexivity.
Qed.

(** The loop that loads the contents, run over paths that are pairwise
    distinct and not loaded yet: it appends the readable files and adds
    their token counts to the running total. *)
Lemma load_loop (src : sources) (paths : list string) :
  forall (files_content : dict string) (total_tokens : nat),
    List.NoDup paths ->
    (forall k, In k paths -> dict_get k files_content = None) ->
    fold_left (load_file src) paths (files_content, total_tokens)
    = (files_content ++ readable_files src paths,
       (total_tokens + token_sum (readable_files src paths))%nat).
Proof.
  induction paths as [|k paths IH]; intros fc tt Hnd Hfresh.
  - simpl. rewrite app_nil_r, Nat.add_0_r. reflexivity.
  - inversion Hnd as [|? ? Hk Hl]; subst. cbn [fold_left].
    unfold load_file at 2, readable_files. cbn [flat_map].
    fold (readable_files src paths).
    destruct (src k) as [[v|]|] eqn:Hsrc.
    + rewrite (DictFacts.dict_set_fresh _ _ fc (Hfresh k (in_eq _ _))).
      rewrite IH; [| exact Hl |].
      * rewrite <- app_assoc. f_equal.
        change ([(k, v)] ++ readable_files src paths)
          with ((k, v) :: readable_files src paths).
        unfold token_sum at 2. simpl. fold (token_sum (readable_files src paths)).
        lia.
      * intros k' Hk'. apply DictFacts.dict_get_None.
        rewrite list_elem_of_In. unfold dict_keys. rewrite map_app.
        intros Hin. apply in_app_or in Hin. destruct Hin as [Hin|[Heq|[]]].
        -- pose proof (Hfresh k' (in_cons _ _ _ Hk')) as Hnone.
           apply DictFacts.dict_get_None in Hnone. apply Hnone.
           rewrite list_elem_of_In. exact Hin.
        -- simpl in Heq. subst k'. contradiction.
    + simpl. apply IH; [exact Hl|]. intros k' Hk'. apply Hfresh. right.
      exact Hk'.
    + simpl. apply IH; [exact Hl|]. intros k' Hk'. apply Hfresh. right.
      exact Hk'.
Qed.

Lemma compress_if_over_cases (files_content : dict string) (total : nat) :
  compress_if_over files_content total
  = if (CONTEXT_TOKEN_THRESHOLD <? total)%nat
    then (compressed files_content, token_sum (compressed files_content))
    else (files_content, total).
Proof. reflexivity. Qed.

Context {index_json : JsonCodec FileIndexer.CodebaseIndex}
        {memory_json : JsonCodec MemoryManager.MemoryRecord}.

(** C2: when [build_context] returns, the files it loaded are the files of
    the working set that exist and can be read, and the running total is
    the sum of their token counts.  If this total exceeds the threshold,
    the package holds, for every loaded file, its content compressed
    once, and its total is the sum of the token counts of these compressed
    contents; otherwise the package holds the contents and the total as
    loaded. *)
Theorem build_context_compresses_once
        (src : sources) (root now : string) (analysis : ChangeAnalysis)
        (w w' : world) (package : ContextPackage) :
  build_context src root now analysis w = (Ok package, w') ->
  exists index loaded total,
    FileIndexer.load w = (Ok index, w)
    /\ loaded
       = readable_files src
           (elements (working_set (default [] (FileIndexer.files index))
                                  (affected_files analysis)))
    /\ total = token_sum loaded
    /\ if (CONTEXT_TOKEN_THRESHOLD <? total)%nat
       then files package = compressed loaded
            /\ total_tokens package = token_sum (files package)
       else files package = loaded
            /\ total_tokens package = total.
Proof.
  unfold build_context. io_unfold.
  destruct (FileIndexer.load w) as [[index|e] w0] eqn:Hload; [|discriminate].
  pose proof (IndexLoadFacts.index_load_keeps_world _ _ _ Hload) as ->.
  destruct (MemoryManager.load root now w) as [[_data|e] w1]; [|discriminate].
  rewrite load_loop;
    [| apply NoDup_ListNoDup, NoDup_elements | reflexivity].
  cbn [app Nat.add]. rewrite compress_if_over_cases.
  set (loaded := readable_files src _).
  destruct (CONTEXT_TOKEN_THRESHOLD <? token_sum loaded)%nat eqn:Hover;
    intros [= <- <-]; exists index, loaded, (token_sum loaded);
    rewrite Hover; repeat split; reflexivity.
Qed.

(** [build_context] returns unless one of the two files of the
    [.preflight] directory is not UTF-8. *)
Lemma build_context_returns
      (src : sources) (root now : string) (analysis : ChangeAnalysis)
      (w : world) :
  (forall raw, disk w !! FILE_INDEX_FILE = Some (File raw) ->
               Utf8.valid raw = true) ->
  (forall raw, disk w !! MEMORY_FILE = Some (File raw) ->
               Utf8.valid raw = true) ->
  exists package w', build_context src root now analysis w = (Ok package, w').
Proof.
  intros Hindex Hmemory.
  destruct (IndexLoadFacts.index_load_returns w Hindex) as [index Hload].
  destruct (MemoryFacts.memory_load_returns root now w Hmemory)
    as (_data & w1 & Hmem).
  unfold build_context. io_unfold. rewrite Hload, Hmem.
  destruct (fold_left _ _ _) as [loaded total].
  destruct (compress_if_over loaded total) as [files_content total_tokens].
  eauto.
Qed.

End Loading.

(** The context of a change to the sample file [big.py]. *)
Lemma build_context_compresses_once_witness :
  exists package index loaded total,
    FileIndexer.load (index_json := ClassifierSamples.index_codec)
                     Doubles.empty_world
    = (Ok index, Doubles.empty_world)
    /\ loaded
       = readable_files ContextSamples.project
           (elements (working_set (default [] (FileIndexer.files index))
                                  ["big.py"]))
    /\ total = token_sum (tokenizer := Doubles.byte_tokenizer) loaded
    /\ if (CONTEXT_TOKEN_THRESHOLD <? total)%nat
       then files package = compressed loaded
            /\ total_tokens package
               = token_sum (tokenizer := Doubles.byte_tokenizer)
                           (files package)
       else files package = loaded
            /\ total_tokens package = total.
Proof.
  eexists.
  eapply (@build_context_compresses_once
            Doubles.byte_tokenizer ClassifierSamples.index_codec
            Samples.memory_codec ContextSamples.project "demo"
            "2024-04-01T00:00:00" ContextSamples.analysis
            Doubles.empty_world).
  vm_compute. reflexivity.
Defined.

(** In the sample the 3200 tokens loaded exceed the threshold, and the
    package counts the 798 tokens that remain after compression. *)
Example build_context_over_threshold :
  exists package w',
    build_context (tokenizer := Doubles.byte_tokenizer)
                  (index_json := ClassifierSamples.index_codec)
                  (memory_json := Samples.memory_codec)
                  ContextSamples.project "demo" "2024-04-01T00:00:00"
                  ContextSamples.analysis Doubles.empty_world
    = (Ok package, w')
    /\ String.length ContextSamples.big_file = 3200%nat
    /\ total_tokens package = 798%nat
    /\ dict_get "big.py" (files package)
       = Some (Compressor.compress_content ContextSamples.big_file true).
Proof.
  eexists. eexists. split; [vm_compute; reflexivity|].
  repeat split; vm_compute; reflexivity.
Qed.

(** One compression is not two: compressing the result again can change
    it, so a second pass would be observable. *)
Example compress_content_not_idempotent :
  Compressor.compress_content "//* */* x */" true = "/* x */" +:+ nl
  /\ Compressor.compress_content ("/* x */" +:+ nl) true = nl.
Proof. split; vm_compute; reflexivity. Qed.

End ContextFacts.

(** ** The memory store: what [load] and [save] do to the directory *)

Module StoreFacts.
Import Json Sys MemoryManager.

Section Store.
Context {memory_json : JsonCodec MemoryRecord}.

(** With no [memory.json] in the directory, [load] returns the default
    record and writes nothing: the directory and the call log are as they
    were. *)
Theorem load_without_file_gives_default (root now : string) (w : world) :
  disk w !! MEMORY_FILE = None ->
  load root now w = (Ok (_default_memory root now), w).
Proof. apply MemoryFacts.memory_load_absent. Qed.

(** A [memory.json] that decodes as UTF-8 but is not JSON is renamed to
    [memory.json.bak] with its bytes, unless that name is a directory;
    [load] returns the default record, and no other name of the directory
    changes. *)
Theorem load_moves_unparsable_file_aside (root now raw : string) (w : world) :
  disk w !! MEMORY_FILE = Some (File raw) ->
  Utf8.valid raw = true ->
  json_loads raw = None ->
  (forall e, disk w !! BACKUP_FILE <> Some (Dir e)) ->
  exists w1,
    load root now w = (Ok (_default_memory root now), w1)
    /\ disk w1 !! MEMORY_FILE = None
    /\ disk w1 !! BACKUP_FILE = Some (File raw)
    /\ (forall other, other <> MEMORY_FILE -> other <> BACKUP_FILE ->
                      disk w1 !! other = disk w !! other)
    /\ calls w1 = calls w.
Proof.
  intros Hfile Hutf Hjson Hbak. eexists. split.
  - apply MemoryFacts.memory_load_not_json; eassumption.
  - cbn [disk set_disk calls]. split; [|split; [|split]].
    + rewrite lookup_insert_ne by discriminate. apply lookup_delete_eq.
    + apply lookup_insert_eq.
    + intros other Hm Hb. rewrite lookup_insert_ne by congruence.
      apply lookup_delete_ne. congruence.
    + reflexivity.
Qed.

(** Where [memory.json] is a directory, reading it raises [OSError],
    which [load] catches: the directory is renamed to [memory.json.bak],
    unless that name is a file or a directory that is not empty, in which
    case the rename fails, the failure is passed over and nothing changes;
    [load] returns the default record either way. *)
Theorem load_moves_directory_aside (root now : string) (e : bool) (w : world) :
  disk w !! MEMORY_FILE = Some (Dir e) ->
  exists w1,
    load root now w = (Ok (_default_memory root now), w1)
    /\ calls w1 = calls w
    /\ (forall other, other <> MEMORY_FILE -> other <> BACKUP_FILE ->
                      disk w1 !! other = disk w !! other)
    /\ match disk w !! BACKUP_FILE with
       | Some (File _) | Some (Dir false) => disk w1 = disk w
       | _ => disk w1 !! MEMORY_FILE = None
              /\ disk w1 !! BACKUP_FILE = Some (Dir e)
       end.
Proof.
  intros Hdir. unfold load. io_unfold.
  rewrite Hdir. rewrite bool_decide_eq_true_2 by eauto. io_simpl.
  rewrite Hdir. io_simpl.
  unfold _backup_corrupt. io_unfold.
  rewrite Hdir. rewrite bool_decide_eq_true_2 by eauto. io_simpl.
  rewrite Hdir.
  assert (Hmoved :
            forall other, other <> MEMORY_FILE -> other <> BACKUP_FILE ->
                          <[BACKUP_FILE := Dir e]> (delete MEMORY_FILE (disk w))
                            !! other
                          = disk w !! other).
  { intros other Hm Hb. rewrite lookup_insert_ne by congruence.
    apply lookup_delete_ne. congruence. }
  assert (Hgone : <[BACKUP_FILE := Dir e]> (delete MEMORY_FILE (disk w))
                    !! MEMORY_FILE = None).
  { rewrite lookup_insert_ne by discriminate. apply lookup_delete_eq. }
  destruct (disk w !! BACKUP_FILE) as [[raw|[|]]|] eqn:Hb;
    eexists; (split; [reflexivity|]); cbn [disk set_disk calls];
    (split; [reflexivity|]);
    (split; [first [exact Hmoved | reflexivity]|]);
    first [reflexivity | split; [exact Hgone | apply lookup_insert_eq]].
Qed.

(** [save] is all or nothing.  The temporary name being new, as [mkstemp]
    makes it: where [memory.json] is a directory the call raises [OSError]
    and leaves the directory as it found it, the temporary file removed;
    otherwise it returns, and the one change is that [memory.json] holds
    the serialised record, stamped with the time of the save. *)
Theorem save_all_or_nothing (w : world) (_data0 : MemoryRecord)
        (data : option MemoryRecord) (now tmp : string) :
  disk w !! tmp = None ->
  tmp <> MEMORY_FILE ->
  let saved := set_last_updated now (default _data0 data) in
  match disk w !! MEMORY_FILE with
  | Some (Dir _) => save _data0 data now tmp w = (Raise OSError, w)
  | _ =>
      save _data0 data now tmp w
      = (Ok saved,
         set_disk (<[MEMORY_FILE := File (json_dumps saved)]> (disk w)) w)
  end.
Proof.
  intros Hfresh Hne saved.
  assert (Hgone : delete tmp (<[tmp := File (json_dumps saved)]> (disk w))
                  = disk w).
  { rewrite delete_insert_eq. apply delete_id. exact Hfresh. }
  unfold save, atomic_write. io_unfold. cbn [set_disk disk calls].
  fold saved. rewrite lookup_insert_eq, lookup_insert_ne by exact Hne.
  destruct (disk w !! MEMORY_FILE) as [[raw|b]|] eqn:Hm;
    unfold set_disk; cbn [disk calls]; rewrite Hgone;
    [reflexivity | destruct w; reflexivity | reflexivity].
Qed.

End Store.

(** In an empty directory. *)
Lemma load_without_file_gives_default_witness :
  load (memory_json := Samples.memory_codec) "demo" "2024-01-05T00:00:00"
       Doubles.empty_world
  = (Ok (_default_memory "demo" "2024-01-05T00:00:00"), Doubles.empty_world).
Proof.
  apply (@load_without_file_gives_default Samples.memory_codec).
  reflexivity.
Defined.

(** On the garbled file of the tests. *)
Lemma load_moves_unparsable_file_aside_witness :
  exists w1,
    load (memory_json := Samples.memory_codec) "demo" "2024-01-05T00:00:00"
         Samples.garbled_memory
    = (Ok (_default_memory "demo" "2024-01-05T00:00:00"), w1)
    /\ disk w1 !! MEMORY_FILE = None
    /\ disk w1 !! BACKUP_FILE = Some (File "{{not valid json}}")
    /\ (forall other, other <> MEMORY_FILE -> other <> BACKUP_FILE ->
                      disk w1 !! other = disk Samples.garbled_memory !! other)
    /\ calls w1 = calls Samples.garbled_memory.
Proof.
  apply (@load_moves_unparsable_file_aside Samples.memory_codec).
  - reflexivity.
  - reflexivity.
  - reflexivity.
  - intros e. vm_compute. discriminate.
Defined.

(** On a directory that holds nothing but an empty directory of that
    name. *)
Lemma load_moves_directory_aside_witness :
  let w := Doubles.on_disk [(MEMORY_FILE, Dir true)] in
  exists w1,
    load (memory_json := Samples.memory_codec) "demo" "2024-01-05T00:00:00" w
    = (Ok (_default_memory "demo" "2024-01-05T00:00:00"), w1)
    /\ calls w1 = calls w
    /\ (forall other, other <> MEMORY_FILE -> other <> BACKUP_FILE ->
                      disk w1 !! other = disk w !! other)
    /\ disk w1 !! MEMORY_FILE = None
    /\ disk w1 !! BACKUP_FILE = Some (Dir true).
Proof.
  apply (@load_moves_directory_aside Samples.memory_codec
           "demo" "2024-01-05T00:00:00" true
           (Doubles.on_disk [(MEMORY_FILE, Dir true)])).
  reflexivity.
Defined.

(** Saving into an empty directory, and into one where [memory.json] is a
    directory. *)
Lemma save_all_or_nothing_witness :
  save (memory_json := Samples.memory_codec) no_data (Some Samples.memory)
       "2024-01-04T00:00:00" "memory_k3x.tmp" Doubles.empty_world
  = (Ok Samples.memory_saved,
     Doubles.on_disk
       [(MEMORY_FILE,
         File (json_dumps (JsonCodec := Samples.memory_codec)
                          Samples.memory_saved))])
  /\ save (memory_json := Samples.memory_codec) no_data (Some Samples.memory)
          "2024-01-04T00:00:00" "memory_k3x.tmp"
          (Doubles.on_disk [(MEMORY_FILE, Dir true)])
     = (Raise OSError, Doubles.on_disk [(MEMORY_FILE, Dir true)]).
Proof.
  split.
  - apply (@save_all_or_nothing Samples.memory_codec Doubles.empty_world
             no_data (Some Samples.memory) "2024-01-04T00:00:00"
             "memory_k3x.tmp"); [reflexivity | discriminate].
  - apply (@save_all_or_nothing Samples.memory_codec
             (Doubles.on_disk [(MEMORY_FILE, Dir true)])
             no_data (Some Samples.memory) "2024-01-04T00:00:00"
             "memory_k3x.tmp"); [reflexivity | discriminate].
Defined.

End StoreFacts.

(** ** The memory record: modules, decisions and statuses *)

Module AccessorFacts.
Import Json Sys MemoryManager.

Lemma intersects_spec (a b : list string) :
  intersects a b = true <-> exists x, In x a /\ In x b.
Proof.
  unfold intersects. rewrite existsb_exists. split.
  - intros (x & Ha & Hb). apply existsb_exists in Hb.
    destruct Hb as (y & Hy & Heq). apply String.eqb_eq in Heq. subst y.
    eauto.
  - intros (x & Ha & Hb). exists x. split; [exact Ha|].
    apply existsb_exists. exists x. split; [exact Hb | apply String.eqb_refl].
Qed.

Lemma filter_sublist {A} (f : A -> bool) (l : list A) :
  sublist (List.filter f l) l.
Proof.
  induction l as [|x l IH]; simpl; [constructor|].
  destruct (f x); [apply sublist_skip | apply sublist_cons]; exact IH.
Qed.

(** [set_module] followed by [get_module] under the same name returns the
    entry just stored, the arguments left out replaced by their defaults;
    the entries under other names, the decisions and the change history
    are untouched.  This holds as well for a record without a ["modules"]
    key. *)
Theorem set_module_then_get_module
        (d : MemoryRecord) (name : string) (status : option string)
        (files : option (list string)) (purpose : option string)
        (dependencies : option (list string)) :
  let d' := set_module d name status files purpose dependencies in
  get_module d' name
  = Some {| ModuleEntry.status := Some (default "not_started" status);
            ModuleEntry.files := Some (default [] files);
            ModuleEntry.purpose := Some (default "" purpose);
            ModuleEntry.dependencies := Some (default [] dependencies) |}
  /\ (forall other, other <> name -> get_module d' other = get_module d other)
  /\ decisions d' = decisions d
  /\ change_history d' = change_history d.
Proof.
  unfold get_module, set_module. cbn [modules set_modules default].
  split; [apply DictFacts.dict_get_set_eq|]. split; [|split; reflexivity].
  intros other Hne. apply DictFacts.dict_get_set_ne. congruence.
Qed.

(** [get_modules_for_files] returns the names of the modules that list at
    least one of the given files, and no other name, in the order of the
    record; a module entry without a ["files"] key is never returned, and
    for no file at all the answer is empty. *)
Theorem get_modules_for_files_exact (d : MemoryRecord) (file_paths : list string) :
  (forall name,
      In name (get_modules_for_files d file_paths)
      <-> exists info f,
          In (name, info) (default [] (modules d))
          /\ In f (default [] (ModuleEntry.files info))
          /\ In f file_paths)
  /\ sublist (get_modules_for_files d file_paths)
             (dict_keys (default [] (modules d)))
  /\ get_modules_for_files d [] = [].
Proof.
  unfold get_modules_for_files. split; [|split].
  - intros name. rewrite in_map_iff. split.
    + intros ([name' info] & <- & Hin). apply filter_In in Hin.
      destruct Hin as [Hin Hhit]. apply intersects_spec in Hhit.
      destruct Hhit as (f & Hf & Hp). exists info, f. auto.
    + intros (info & f & Hin & Hf & Hp). exists (name, info).
      split; [reflexivity|]. apply filter_In. split; [exact Hin|].
      apply intersects_spec. eauto.
  - unfold dict_keys. apply (fmap_sublist fst), filter_sublist.
  - induction (default [] (modules d)) as [|[name info] l IH]; simpl;
      [reflexivity|].
    replace (intersects (default [] (ModuleEntry.files info)) []) with false.
    + exact IH.
    + symmetry. apply not_true_is_false. rewrite intersects_spec.
      intros (x & _ & []).
Qed.

(** [get_decisions_for_modules] returns the decisions that affect at least
    one of the given modules, and no other, in the order in which they
    were recorded; a decision without an ["affects"] key is never
    returned. *)
Theorem get_decisions_for_modules_exact (d : MemoryRecord)
        (module_names : list string) :
  (forall x,
      In x (get_decisions_for_modules d module_names)
      <-> In x (default [] (decisions d))
          /\ exists name,
              In name module_names
              /\ In name (default [] (DecisionEntry.affects x)))
  /\ sublist (get_decisions_for_modules d module_names)
             (default [] (decisions d)).
Proof.
  unfold get_decisions_for_modules. split.
  - intros x. rewrite filter_In, intersects_spec. reflexivity.
  - apply filter_sublist.
Qed.

(** A decision recorded with [add_decision] is the last one returned for
    any list of modules that names one of those it affects, after the
    decisions returned before. *)
Theorem add_decision_is_found (d : MemoryRecord) (now decision reason : string)
        (affects module_names : list string) :
  (exists name, In name module_names /\ In name affects) ->
  get_decisions_for_modules (add_decision d now decision reason affects)
                            module_names
  = get_decisions_for_modules d module_names
    ++ [{| DecisionEntry.decision := decision;
           DecisionEntry.reason := reason;
           DecisionEntry.date := now;
           DecisionEntry.affects := Some affects |}].
Proof.
  intros Hhit. unfold get_decisions_for_modules, add_decision.
  cbn [decisions set_decisions]. change (default [] (Some ?x)) with x.
  rewrite List.filter_app. f_equal.
  cbn [List.filter DecisionEntry.affects].
  change (default [] (Some affects)) with affects.
  apply intersects_spec in Hhit. rewrite Hhit. reflexivity.
Qed.

(** A decision about two modules, asked for through one of them. *)
Lemma add_decision_is_found_witness :
  get_decisions_for_modules
    (add_decision Samples.memory "2024-01-06" "Hash with argon2" "Safer"
                  ["auth"; "api"])
    ["api"]
  = get_decisions_for_modules Samples.memory ["api"]
    ++ [{| DecisionEntry.decision := "Hash with argon2";
           DecisionEntry.reason := "Safer";
           DecisionEntry.date := "2024-01-06";
           DecisionEntry.affects := Some ["auth"; "api"] |}].
Proof.
  apply add_decision_is_found. exists "api". split.
  - left. reflexivity.
  - right. left. reflexivity.
Defined.

(** *** Statuses after a change *)

Lemma set_status_twice (s : string) (m : ModuleEntry.t) :
  ModuleEntry.set_status s (ModuleEntry.set_status s m)
  = ModuleEntry.set_status s m.
Proof. reflexivity. Qed.

Lemma get_module_mark_in_progress (d : MemoryRecord) (marked name : string) :
  get_module (MemoryUpdater.mark_in_progress d marked) name
  = if String.eqb marked name
    then ModuleEntry.set_status "in_progress" <$> get_module d name
    else get_module d name.
Proof.
  unfold MemoryUpdater.mark_in_progress.
  destruct (String.eqb_spec marked name) as [->|Hne].
  - destruct (get_module d name) as [entry|] eqn:Hget.
    + unfold get_module. cbn [modules set_modules default].
      apply DictFacts.dict_get_set_eq.
    + rewrite Hget. reflexivity.
  - destruct (get_module d marked) as [entry|]; [|reflexivity].
    unfold get_module. cbn [modules set_modules default].
    apply DictFacts.dict_get_set_ne. exact Hne.
Qed.

Lemma get_module_fold_mark (l : list string) (d : MemoryRecord)
      (name : string) :
  get_module (fold_left MemoryUpdater.mark_in_progress l d) name
  = if existsb (String.eqb name) l
    then ModuleEntry.set_status "in_progress" <$> get_module d name
    else get_module d name.
Proof.
  revert d. induction l as [|m l IH]; intros d; simpl; [reflexivity|].
  rewrite IH, get_module_mark_in_progress, (String.eqb_sym name m).
  destruct (String.eqb m name); simpl.
  - destruct (existsb (String.eqb name) l); [|reflexivity].
    destruct (get_module d name); reflexivity.
  - reflexivity.
Qed.

Section Updater.
Context {tokenizer : TokenCounter.Tokenizer}.
Context {index_json : JsonCodec FileIndexer.CodebaseIndex}
        {memory_json : JsonCodec MemoryRecord}.

(** When [update_after_change] returns, every affected module that the
    loaded memory knows has the status ["in_progress"], its other fields
    kept; every other module is as loaded; and a name the memory does not
    know is not created. *)
Theorem update_marks_affected_modules
        (src : sources) (root : string) (t : MemoryUpdater.Times)
        (description : string) (analysis : ContextFinder.ChangeAnalysis)
        (tokens_used full_codebase_tokens : Z)
        (w w' : world) (_data : MemoryRecord) :
  MemoryUpdater.update_after_change src root t description analysis
    tokens_used full_codebase_tokens w = (Ok _data, w') ->
  exists loaded w0,
    load root (MemoryUpdater.at_load t) w = (Ok loaded, w0)
    /\ forall name,
        (In name (ContextFinder.affected_modules analysis) ->
         get_module _data name
         = ModuleEntry.set_status "in_progress" <$> get_module loaded name)
        /\ (~ In name (ContextFinder.affected_modules analysis) ->
            get_module _data name = get_module loaded name).
Proof.
  unfold MemoryUpdater.update_after_change. io_unfold.
  destruct (load root (MemoryUpdater.at_load t) w) as [[loaded|e] w0];
    [|discriminate].
  destruct (save _ None (MemoryUpdater.at_save t) (MemoryUpdater.tmp_memory t)
                 w0) as [[saved|e] w1] eqn:Hsave; [|discriminate].
  destruct (MemoryUpdater._reindex_files src _ (MemoryUpdater.tmp_index t) w1)
    as [[index|e] w2]; [|discriminate].
  intros [= <- <-]. exists loaded, w0. split; [reflexivity|].
  apply UpdaterFacts.save_result in Hsave. subst saved. cbn [default].
  intros name.
  assert (Hget : forall x, get_module (set_last_updated (MemoryUpdater.at_save t) x) name
                           = get_module x name) by reflexivity.
  rewrite Hget, get_module_fold_mark.
  change (get_module (add_change loaded _ _ _ _ _) name)
    with (get_module loaded name).
  split.
  - intros Hin.
    replace (existsb (String.eqb name) _) with true; [reflexivity|].
    symmetry. apply existsb_exists. exists name.
    split; [exact Hin | apply String.eqb_refl].
  - intros Hout.
    replace (existsb (String.eqb name) _) with false; [reflexivity|].
    symmetry. apply not_true_is_false. rewrite existsb_exists.
    intros (x & Hx & Heq). apply String.eqb_eq in Heq. subst x. contradiction.
Qed.

End Updater.

(** The module [auth] of the sample record, marked by a change that
    affects it. *)
Lemma update_marks_affected_modules_witness :
  exists _data loaded w0,
    load (memory_json := Samples.memory_codec) "demo" "2024-02-01T10:00:00"
         Samples.stored_memory
    = (Ok loaded, w0)
    /\ forall name,
        (In name ["auth"] ->
         get_module _data name
         = ModuleEntry.set_status "in_progress" <$> get_module loaded name)
        /\ (~ In name ["auth"] ->
            get_module _data name = get_module loaded name).
Proof.
  eexists.
  eapply (@update_marks_affected_modules
            Doubles.byte_tokenizer ClassifierSamples.index_codec
            Samples.memory_codec UpdaterSamples.project "demo"
            UpdaterSamples.times "Added login" UpdaterSamples.analysis
            9000 4000 Samples.stored_memory).
  vm_compute. reflexivity.
Defined.

End AccessorFacts.

(** ** The index file: round trip, fallback and partial re-index *)

Module IndexFileFacts.
Import Json Sys FileIndexer.

Section Index.
Context {tokenizer : TokenCounter.Tokenizer} {scanner : Scanner}
        {index_json : JsonCodec CodebaseIndex}.

(** The index that [index] returns is the one a later [load] returns, when
    the JSON library reads back what it wrote for it. *)
Theorem index_then_load (root : node) (now tmp : string) (w w' : world)
        (index_data : CodebaseIndex) :
  json_loads (json_dumps index_data) = Some index_data ->
  Utf8.valid (json_dumps index_data) = true ->
  index root now tmp w = (Ok index_data, w') ->
  load w' = (Ok index_data, w').
Proof.
  intros Hjson Hutf Hindex.
  destruct (WalkFacts.index_result _ _ _ _ _ _ Hindex)
    as (fd & md & tt & _ & _ & Hdisk).
  rewrite IndexLoadFacts.index_load_cases, Hdisk, Hutf, Hjson. reflexivity.
Qed.

(** [load] answers with the empty index when [file-index.json] is missing,
    when it cannot be read as a file, and when it holds text that is not
    JSON; in each case the directory is left as it is: a corrupt index is
    neither moved nor rewritten. *)
Theorem index_load_falls_back_to_empty (w : world) :
  disk w !! FILE_INDEX_FILE = None
  \/ (exists e, disk w !! FILE_INDEX_FILE = Some (Dir e))
  \/ (exists raw, disk w !! FILE_INDEX_FILE = Some (File raw)
                  /\ Utf8.valid raw = true /\ json_loads raw = None) ->
  load w = (Ok empty_index, w).
Proof.
  rewrite IndexLoadFacts.index_load_cases.
  intros [->|[[e ->]|(raw & -> & -> & ->)]]; reflexivity.
Qed.

End Index.

Section Reindex.
Context {tokenizer : TokenCounter.Tokenizer}
        {index_json : JsonCodec CodebaseIndex}.

Lemma reindex_file_same (src : sources) (d : dict FileRecord) (k : string) :
  dict_get k (MemoryUpdater.reindex_file src d k)
  = match src k with
    | None => None
    | Some None => dict_get k d
    | Some (Some text) =>
        Some (set_token_count (Z.of_nat (TokenCounter.count_tokens text))
                              (default no_record (dict_get k d)))
    end.
Proof.
  unfold MemoryUpdater.reindex_file. destruct (src k) as [[text|]|].
  - apply DictFacts.dict_get_set_eq.
  - reflexivity.
  - apply DictFacts.dict_get_pop_eq.
Qed.

(** The records after the loop of [_reindex_files], key by key. *)
Lemma reindex_fold (src : sources) (paths : list string) (k : string) :
  forall d : dict FileRecord,
    dict_get k (fold_left (MemoryUpdater.reindex_file src) paths d)
    = if existsb (String.eqb k) paths
      then match src k with
           | None => None
           | Some None => dict_get k d
           | Some (Some text) =>
               Some (set_token_count
                       (Z.of_nat (TokenCounter.count_tokens text))
                       (default no_record (dict_get k d)))
           end
      else dict_get k d.
Proof.
  induction paths as [|p paths IH]; intros d; simpl; [reflexivity|].
  rewrite IH. destruct (String.eqb_spec k p) as [<-|Hne]; simpl.
  - rewrite reindex_file_same.
    destruct (existsb (String.eqb k) paths); [|reflexivity].
    destruct (src k) as [[text|]|]; reflexivity.
  - rewrite (UpdaterFacts.reindex_file_other src d p k) by congruence.
    reflexivity.
Qed.

(** What a partial re-index does, path by path.  A listed path that no
    longer exists loses its record; a listed file that can be read gets
    the token count of its present content, the other fields of its record
    kept, and a record with nothing but the count if it had none; a listed
    file that cannot be read, and every path that is not listed, keep what
    they had.  The module mapping and the time stamp of the index are
    those of the index that was loaded. *)
Theorem reindex_files_effect (src : sources) (paths : list string)
        (tmp : string) (w w' : world) (index : CodebaseIndex) :
  MemoryUpdater._reindex_files src paths tmp w = (Ok index, w') ->
  exists loaded,
    load w = (Ok loaded, w)
    /\ modules index = modules loaded
    /\ indexed_at index = indexed_at loaded
    /\ forall k,
        let before := dict_get k (default [] (files loaded)) in
        let after := dict_get k (default [] (files index)) in
        (~ In k paths -> after = before)
        /\ (In k paths ->
            after = match src k with
                    | None => None
                    | Some None => before
                    | Some (Some text) =>
                        Some (set_token_count
                                (Z.of_nat (TokenCounter.count_tokens text))
                                (default no_record before))
                    end).
Proof.
  unfold MemoryUpdater._reindex_files. io_unfold.
  destruct (load w) as [[loaded|e] w0] eqn:Hload; [|discriminate].
  pose proof (IndexLoadFacts.index_load_keeps_world _ _ _ Hload) as ->.
  destruct (_write_index tmp _ w) as [[[]|e] w1]; [|discriminate].
  intros [= <- _]. exists loaded. split; [reflexivity|].
  split; [reflexivity|]. split; [reflexivity|].
  intros k. cbv zeta. cbn [files]. change (default [] (Some ?x)) with x.
  rewrite reindex_fold. split.
  - intros Hout.
    replace (existsb (String.eqb k) paths) with false; [reflexivity|].
    symmetry. apply not_true_is_false. rewrite existsb_exists.
    intros (x & Hx & Heq). apply String.eqb_eq in Heq. subst x. contradiction.
  - intros Hin.
    replace (existsb (String.eqb k) paths) with true; [reflexivity|].
    symmetry. apply existsb_exists. exists k.
    split; [exact Hin | apply String.eqb_refl].
Qed.

End Reindex.

(** The index of the sample project, built and read back. *)
Lemma index_then_load_witness :
  exists w',
    index (tokenizer := Doubles.byte_tokenizer)
          (scanner := Doubles.blind_scanner)
          (index_json := TreeSamples.indexed_codec)
          TreeSamples.project "2024-03-01T00:00:00+00:00" "index_q7.tmp"
          Doubles.empty_world
    = (Ok TreeSamples.indexed, w')
    /\ load (index_json := TreeSamples.indexed_codec) w'
       = (Ok TreeSamples.indexed, w').
Proof.
  eexists. split; [vm_compute; reflexivity|].
  apply (@index_then_load Doubles.byte_tokenizer Doubles.blind_scanner
           TreeSamples.indexed_codec TreeSamples.project
           "2024-03-01T00:00:00+00:00" "index_q7.tmp" Doubles.empty_world).
  - vm_compute. reflexivity.
  - vm_compute. reflexivity.
  - vm_compute. reflexivity.
Defined.

(** A directory where [file-index.json] holds text that is not JSON. *)
Lemma index_load_falls_back_to_empty_witness :
  load (index_json := ClassifierSamples.index_codec)
       (Doubles.on_disk [(FILE_INDEX_FILE, File "{{not valid json}}")])
  = (Ok empty_index,
     Doubles.on_disk [(FILE_INDEX_FILE, File "{{not valid json}}")]).
Proof.
  apply (@index_load_falls_back_to_empty ClassifierSamples.index_codec).
  right. right. exists "{{not valid json}}". repeat split.
Defined.

(** The index of the test project after [login.py] was edited and
    [register.py] deleted. *)
Lemma reindex_files_effect_witness :
  exists index loaded,
    load (index_json := Fixture.index_codec) Fixture.world
    = (Ok loaded, Fixture.world)
    /\ modules index = modules loaded
    /\ indexed_at index = indexed_at loaded
    /\ forall k,
        let before := dict_get k (default [] (files loaded)) in
        let after := dict_get k (default [] (files index)) in
        (~ In k ["src/auth/login.py"; "src/auth/register.py"] ->
         after = before)
        /\ (In k ["src/auth/login.py"; "src/auth/register.py"] ->
            after = match UpdaterSamples.project k with
                    | None => None
                    | Some None => before
                    | Some (Some text) =>
                        Some (set_token_count
                                (Z.of_nat (String.length text))
                                (default no_record before))
                    end).
Proof.
  eexists.
  eapply (@reindex_files_effect Doubles.byte_tokenizer Fixture.index_codec
            UpdaterSamples.project
            ["src/auth/login.py"; "src/auth/register.py"] "index_b2.tmp"
            Fixture.world).
  vm_compute. reflexivity.
Defined.

End IndexFileFacts.

(** ** The context package, and what the two operations touch *)

Module PackageFacts.
Import Json Sys TokenCounter ContextFinder Notions.

Lemma summaries_fold (summary_of : string -> string) (names : list string)
      (name : string) :
  forall acc : dict string,
    dict_get name
      (fold_left (fun summaries mod_name =>
                    dict_set mod_name (summary_of mod_name) summaries)
                 names acc)
    = if existsb (String.eqb name) names then Some (summary_of name)
      else dict_get name acc.
Proof.
  induction names as [|m names IH]; intros acc; simpl; [reflexivity|].
  rewrite IH. destruct (String.eqb_spec name m) as [<-|Hne]; simpl.
  - destruct (existsb (String.eqb name) names); [reflexivity|].
    apply DictFacts.dict_get_set_eq.
  - rewrite DictFacts.dict_get_set_ne by congruence. reflexivity.
Qed.

Section Package.
Context {tokenizer : Tokenizer}.
Context {index_json : JsonCodec FileIndexer.CodebaseIndex}
        {memory_json : JsonCodec MemoryManager.MemoryRecord}.

(** The total of a package is always the sum of the token counts of the
    contents it holds, whether they were compressed or not; its decisions
    are those of the loaded memory that affect a module of the change, and
    the analysis is handed back unchanged. *)
Theorem build_context_total_is_sum
        (src : sources) (root now : string) (analysis : ChangeAnalysis)
        (w w' : world) (package : ContextPackage) :
  build_context src root now analysis w = (Ok package, w') ->
  total_tokens package = token_sum (files package)
  /\ ContextFinder.analysis package = analysis
  /\ exists _data w1,
      MemoryManager.load root now w = (Ok _data, w1)
      /\ decisions package
         = MemoryManager.get_decisions_for_modules
             _data (affected_modules analysis).
Proof.
  unfold build_context. io_unfold.
  destruct (FileIndexer.load w) as [[index|e] w0] eqn:Hload; [|discriminate].
  pose proof (IndexLoadFacts.index_load_keeps_world _ _ _ Hload) as ->.
  destruct (MemoryManager.load root now w) as [[_data|e] w1]; [|discriminate].
  rewrite ContextFacts.load_loop;
    [| apply NoDup_ListNoDup, NoDup_elements | reflexivity].
  cbn [app Nat.add]. rewrite ContextFacts.compress_if_over_cases.
  set (loaded := readable_files src _).
  destruct (CONTEXT_TOKEN_THRESHOLD <? token_sum loaded)%nat;
    intros [= <- <-]; cbn [total_tokens files ContextFinder.analysis decisions];
    (split; [reflexivity|]); (split; [reflexivity|]); eauto.
Qed.

(** A package holds one summary for each affected module, and for no
    other name; the summary of a module for which the index lists no file
    (or which the index does not know) is ["no files"]. *)
Theorem build_context_summarises_affected_modules
        (src : sources) (root now : string) (analysis : ChangeAnalysis)
        (w w' : world) (package : ContextPackage) :
  build_context src root now analysis w = (Ok package, w') ->
  exists index,
    FileIndexer.load w = (Ok index, w)
    /\ forall name,
        (In name (affected_modules analysis) ->
         dict_get name (module_summaries package)
         = Some (module_summary index name))
        /\ (~ In name (affected_modules analysis) ->
            dict_get name (module_summaries package) = None)
        /\ (default [] (dict_get name (default [] (FileIndexer.modules index)))
            = [] ->
            module_summary index name = "no files").
Proof.
  unfold build_context. io_unfold.
  destruct (FileIndexer.load w) as [[index|e] w0] eqn:Hload; [|discriminate].
  pose proof (IndexLoadFacts.index_load_keeps_world _ _ _ Hload) as ->.
  destruct (MemoryManager.load root now w) as [[_data|e] w1]; [|discriminate].
  destruct (fold_left (load_file src) _ _) as [loaded total].
  destruct (compress_if_over loaded total) as [files_content total_tokens].
  intros [= <- <-]. exists index. split; [reflexivity|].
  intros name. cbn [module_summaries]. rewrite summaries_fold.
  split; [|split].
  - intros Hin.
    replace (existsb (String.eqb name) _) with true; [reflexivity|].
    symmetry. apply existsb_exists. exists name.
    split; [exact Hin | apply String.eqb_refl].
  - intros Hout.
    replace (existsb (String.eqb name) _) with false; [reflexivity|].
    symmetry. apply not_true_is_false. rewrite existsb_exists.
    intros (x & Hx & Heq). apply String.eqb_eq in Heq. subst x. contradiction.
  - intros Hnone. unfold module_summary. rewrite Hnone. reflexivity.
Qed.

(** Whatever it returns or raises, [build_context] calls no classifier,
    and the one thing it may do to the directory is what loading the
    memory does: move a [memory.json] it could not parse to the backup
    name. *)
Theorem build_context_calls_no_classifier
        (src : sources) (root now : string) (analysis : ChangeAnalysis)
        (w w' : world) (r : result ContextPackage) :
  build_context src root now analysis w = (r, w') ->
  calls w' = calls w
  /\ (disk w' = disk w
      \/ exists e,
          disk w !! MEMORY_FILE = Some e
          /\ disk w'
             = <[MemoryManager.BACKUP_FILE := e]>
                 (delete MEMORY_FILE (disk w))).
Proof.
  unfold build_context. io_unfold.
  destruct (FileIndexer.load w) as [[index|e] w0] eqn:Hload;
    pose proof (IndexLoadFacts.index_load_keeps_world _ _ _ Hload) as ->;
    [|intros [= _ <-]; auto].
  destruct (MemoryManager.load root now w) as [[_data|e] w1] eqn:Hmem;
    pose proof (MemoryFacts.memory_load_world _ _ _ _ _ Hmem) as Hw1.
  - destruct (fold_left (load_file src) _ _) as [loaded total].
    destruct (compress_if_over loaded total) as [files_content total_tokens].
    intros [= _ <-]. exact Hw1.
  - intros [= _ <-]. exact Hw1.
Qed.

End Package.

Section Analyze.
Context {classifier : Classifier}.
Context {index_json : JsonCodec FileIndexer.CodebaseIndex}
        {summary_json : JsonCodec Summary.t}.

(** Whatever the classifier answers, and whether the operation returns or
    raises, [analyze_change] leaves the directory as it is and sends at
    most two requests, each for the stage ["change_analysis"], with the
    fixed system prompt and the provider it was given. *)
Theorem analyze_change_sends_at_most_two
        (description provider : string) (w w' : world)
        (r : result ChangeAnalysis) :
  analyze_change description provider w = (r, w') ->
  disk w' = disk w
  /\ exists sent,
      calls w' = calls w ++ sent
      /\ (length sent <= 2)%nat
      /\ Forall (fun c => stage c = "change_analysis"
                          /\ system_prompt c = SYSTEM_PROMPT
                          /\ Sys.provider c = provider) sent.
Proof.
  unfold analyze_change, call_ai. io_unfold.
  destruct (FileIndexer.load w) as [[index|e] w0] eqn:Hload;
    pose proof (IndexLoadFacts.index_load_keeps_world _ _ _ Hload) as ->.
  - destruct (respond (length (calls w)) _) as [[data|]|e].
    + intros [= _ <-]. split; [reflexivity|]. eexists [_].
      split; [reflexivity|]. split; [simpl; lia|]. repeat constructor.
    + cbn [calls disk].
      destruct (respond (length (calls w ++ [_])) _) as [[data|]|e];
        intros [= _ <-]; (split; [reflexivity|]); eexists [_; _];
        (split; [cbn [calls]; rewrite <- app_assoc; reflexivity|]);
        (split; [simpl; lia|]); repeat constructor.
    + intros [= _ <-]. split; [reflexivity|]. eexists [_].
      split; [reflexivity|]. split; [simpl; lia|]. repeat constructor.
  - intros [= _ <-]. split; [reflexivity|]. exists [].
    split; [rewrite app_nil_r; reflexivity|]. split; [simpl; lia|].
    constructor.
Qed.

(** An exception of the classifier is not retried: it leaves
    [analyze_change] as it is, after the request that met it. *)
Theorem analyze_change_does_not_retry_errors
        (description provider : string) (w : world)
        (index : FileIndexer.CodebaseIndex) (e : exn) :
  FileIndexer.load w = (Ok index, w) ->
  respond (length (calls w))
          (request_of provider
             (first_message description (index_summary index)))
  = Raise e ->
  analyze_change description provider w
  = (Raise e,
     with_calls w [request_of provider
                     (first_message description (index_summary index))]).
Proof.
  intros Hload Hraise. unfold analyze_change, call_ai. io_unfold.
  rewrite Hload. io_simpl. unfold request_of in Hraise. rewrite Hraise.
  reflexivity.
Qed.

End Analyze.

(** The package of the test project for a change to [login.py]. *)
Lemma build_context_total_is_sum_witness :
  exists package,
    total_tokens package
    = token_sum (tokenizer := Doubles.byte_tokenizer) (files package)
    /\ ContextFinder.analysis package
       = Fixture.change ["auth"] ["src/auth/login.py"]
    /\ exists _data w1,
        MemoryManager.load (memory_json := Fixture.memory_codec)
                           "test" "2024-05-01T00:00:00" Fixture.world
        = (Ok _data, w1)
        /\ decisions package
           = MemoryManager.get_decisions_for_modules _data ["auth"].
Proof.
  eexists.
  eapply (@build_context_total_is_sum
            Doubles.byte_tokenizer Fixture.index_codec Fixture.memory_codec
            Fixture.project "test" "2024-05-01T00:00:00"
            (Fixture.change ["auth"] ["src/auth/login.py"]) Fixture.world).
  vm_compute. reflexivity.
Defined.

(** The same project, for a change that names the module [auth] and a
    module the index does not know. *)
Lemma build_context_summarises_affected_modules_witness :
  exists package index,
    FileIndexer.load (index_json := Fixture.index_codec) Fixture.world
    = (Ok index, Fixture.world)
    /\ forall name,
        (In name ["auth"; "billing"] ->
         dict_get name (module_summaries package)
         = Some (module_summary index name))
        /\ (~ In name ["auth"; "billing"] ->
            dict_get name (module_summaries package) = None)
        /\ (default [] (dict_get name (default [] (FileIndexer.modules index)))
            = [] ->
            module_summary index name = "no files").
Proof.
  eexists.
  eapply (@build_context_summarises_affected_modules
            Doubles.byte_tokenizer Fixture.index_codec Fixture.memory_codec
            Fixture.project "test" "2024-05-01T00:00:00"
            (Fixture.change ["auth"; "billing"] ["src/auth/login.py"])
            Fixture.world).
  vm_compute. reflexivity.
Defined.

(** The test project again. *)
Lemma build_context_calls_no_classifier_witness :
  exists w',
    calls w' = calls Fixture.world
    /\ (disk w' = disk Fixture.world
        \/ exists e,
            disk Fixture.world !! MEMORY_FILE = Some e
            /\ disk w'
               = <[MemoryManager.BACKUP_FILE := e]>
                   (delete MEMORY_FILE (disk Fixture.world))).
Proof.
  eexists.
  eapply (@build_context_calls_no_classifier
            Doubles.byte_tokenizer Fixture.index_codec Fixture.memory_codec
            Fixture.project "test" "2024-05-01T00:00:00"
            (Fixture.change ["auth"] ["src/auth/login.py"]) Fixture.world).
  vm_compute. reflexivity.
Defined.

(** A classifier that never produces JSON is asked twice. *)
Lemma analyze_change_sends_at_most_two_witness :
  exists w',
    disk w' = disk Doubles.empty_world
    /\ exists sent,
        calls w' = calls Doubles.empty_world ++ sent
        /\ (length sent <= 2)%nat
        /\ Forall (fun c => stage c = "change_analysis"
                            /\ system_prompt c = SYSTEM_PROMPT
                            /\ Sys.provider c = "claude") sent.
Proof.
  eexists.
  eapply (@analyze_change_sends_at_most_two
            ClassifierSamples.stubborn ClassifierSamples.index_codec
            ClassifierSamples.summary_codec
            "add a forgot-password flow" "claude" Doubles.empty_world).
  vm_compute. reflexivity.
Defined.

(** A classifier whose first call fails is asked once. *)
Lemma analyze_change_does_not_retry_errors_witness :
  analyze_change
    (classifier := ClassifierSamples.failing)
    (index_json := ClassifierSamples.index_codec)
    (summary_json := ClassifierSamples.summary_codec)
    "add a forgot-password flow" "claude" Doubles.empty_world
  = (Raise (ValueError "401 unauthorized"),
     with_calls Doubles.empty_world
       [request_of "claude"
          (first_message "add a forgot-password flow"
             (index_summary (summary_json := ClassifierSamples.summary_codec)
                            FileIndexer.empty_index))]).
Proof.
  apply (@analyze_change_does_not_retry_errors
           ClassifierSamples.failing ClassifierSamples.index_codec
           ClassifierSamples.summary_codec
           "add a forgot-password flow" "claude" Doubles.empty_world
           FileIndexer.empty_index (ValueError "401 unauthorized")).
  - reflexivity.
  - reflexivity.
Defined.

End PackageFacts.

(** ** The full build: which files are indexed, and how *)

Module BuildFacts.
Import Json FileIndexer Notions PathFacts.

#[local] Arguments name_in : simpl never.
#[local] Arguments indexable : simpl never.
#[local] Arguments walk : simpl never.

(** *** The module of a path *)

Lemma parts_not_empty (p part : string) :
  In part (Pathlib.parts p) -> part <> "".
Proof.
  unfold Pathlib.parts. destruct (Pathlib.splitroot p) as [root rel].
  assert (Hparsed : forall x,
             In x (List.filter
                     (fun x => negb (String.eqb x "") && negb (String.eqb x "."))
                     (split Pathlib.slash rel)) -> x <> "").
  { intros x Hx. apply filter_In in Hx. destruct Hx as [_ Hx].
    apply andb_true_iff in Hx. destruct Hx as [Hx _].
    intros ->. discriminate. }
  destruct (String.eqb_spec root "") as [->|Hroot].
  - apply Hparsed.
  - intros [<-|Hin]; [exact Hroot | exact (Hparsed _ Hin)].
Qed.

Lemma detect_module_not_empty (rel : string) : _detect_module rel <> "".
Proof.
  rewrite DetectModuleFacts.detect_module_cases.
  pose proof (parts_not_empty rel) as Hparts.
  destruct (Pathlib.parts rel) as [|p0 [|p1 [|p2 rest]]]; try discriminate.
  - apply Hparts. left. reflexivity.
  - destruct (String.eqb p0 "src"); apply Hparts; simpl; auto.
Qed.

(** The inferred module of any path whatsoever (empty, absolute, with
    repeated slashes or dots) is ["root"] or one of the first two parts of
    the path, and is never the empty string: in [index], the test
    [if module:] never fails, so every indexed file is listed under a
    module. *)
Theorem detect_module_is_root_or_a_part (rel : string) :
  _detect_module rel <> ""
  /\ (_detect_module rel = "root"
      \/ Pathlib.parts rel !! 0%nat = Some (_detect_module rel)
      \/ Pathlib.parts rel !! 1%nat = Some (_detect_module rel)).
Proof.
  split; [apply detect_module_not_empty|].
  rewrite DetectModuleFacts.detect_module_cases.
  destruct (Pathlib.parts rel) as [|p0 [|p1 [|p2 rest]]]; simpl; auto.
  destruct (String.eqb p0 "src"); auto.
Qed.

(** *** The walk *)

Lemma walk_sound (n : node) :
  forall dp f,
    In f (walk dp n) ->
    exists rest,
      dirpath f = dp ++ rest
      /\ file_at n rest (fname f) (content f) (mtime f)
      /\ Forall (fun d => name_in d IGNORED_DIRS = false) rest
      /\ indexable (fname f) = true.
Proof.
  induction n as [text stamp|entries IH] using WalkFacts.node_nested_ind;
    intros dp f Hin.
  - destruct Hin.
  - rewrite WalkFacts.walk_dir in Hin. apply in_app_or in Hin.
    destruct Hin as [Hin|Hin]; apply in_flat_map in Hin;
      destruct Hin as [[name child] [Hentry Hin]].
    + destruct child as [text stamp|sub]; simpl in Hin; [|destruct Hin].
      destruct (indexable name) eqn:Hext; [|destruct Hin].
      destruct Hin as [<-|[]]. exists []. simpl.
      split; [rewrite app_nil_r; reflexivity|].
      split; [econstructor; exact Hentry|]. split; [constructor | exact Hext].
    + destruct child as [text stamp|sub]; [destruct Hin|].
      cbn [subdir_of] in Hin.
      destruct (name_in name IGNORED_DIRS) eqn:Hign; [destruct Hin|].
      destruct (IH _ _ Hentry _ _ Hin) as (rest & Hpath & Hat & Hrest & Hext).
      exists (name :: rest). split; [|split; [|split]].
      * rewrite Hpath, <- app_assoc. reflexivity.
      * econstructor; eassumption.
      * constructor; assumption.
      * exact Hext.
Qed.

Lemma walk_complete (n : node) (rest : list string) (name : string)
      (text : option string) (stamp : string) :
  file_at n rest name text stamp ->
  forall dp,
    Forall (fun d => name_in d IGNORED_DIRS = false) rest ->
    indexable name = true ->
    In {| dirpath := dp ++ rest; fname := name; content := text;
          mtime := stamp |} (walk dp n).
Proof.
  induction 1 as [entries name text stamp Hentry
                 |entries dir child dirs name text stamp Hentry Hat IH];
    intros dp Hclean Hext; rewrite WalkFacts.walk_dir; apply in_or_app.
  - left. apply in_flat_map. eexists. split; [exact Hentry|].
    simpl. rewrite Hext, app_nil_r. left. reflexivity.
  - right. apply in_flat_map. eexists. split; [exact Hentry|].
    inversion Hclean as [|? ? Hdir Hdirs]; subst.
    destruct child as [text' stamp'|sub]; [inversion Hat|].
    cbn [subdir_of]. rewrite Hdir.
    specialize (IH (dp ++ [dir]) Hdirs Hext).
    rewrite <- app_assoc in IH. exact IH.
Qed.

Lemma walk_files_in (root : node) (dirs : list string) (name : string)
      (text : option string) (stamp : string) :
  file_at root dirs name text stamp ->
  Forall (fun d => name_in d IGNORED_DIRS = false) dirs ->
  indexable name = true ->
  In {| dirpath := dirs; fname := name; content := text; mtime := stamp |}
     (_walk_files root).
Proof. intros Hat. exact (walk_complete _ _ _ _ _ Hat []). Qed.

(** [_walk_files] returns exactly the files of the tree that are reached
    from the root through directories none of which is ignored, and whose
    lower-cased suffix is an indexed extension: nothing else, and none of
    them is missed.  An ignored name only counts for directories below the
    root, and only the suffix of the file name is looked at. *)
Theorem walk_files_exact (root : node) (f : Found) :
  In f (_walk_files root)
  <-> file_at root (dirpath f) (fname f) (content f) (mtime f)
      /\ Forall (fun d => name_in d IGNORED_DIRS = false) (dirpath f)
      /\ name_in (lower (Pathlib.suffix (fname f))) INDEXED_EXTENSIONS = true.
Proof.
  unfold _walk_files. split.
  - intros Hin. destruct (walk_sound _ _ _ Hin) as (rest & Hpath & Hrest).
    simpl in Hpath. subst rest. exact Hrest.
  - intros (Hat & Hclean & Hext).
    pose proof (walk_complete _ _ _ _ _ Hat [] Hclean Hext) as Hin.
    destruct f. exact Hin.
Qed.

(** *** The records *)

Section Records.
Context {tokenizer : TokenCounter.Tokenizer} {scanner : Scanner}.

Lemma indexed_records_keys (l : list Found) (k : string) :
  In k (dict_keys (indexed_records l)) -> In k (map rel_path l).
Proof.
  unfold dict_keys, indexed_records. intros Hk.
  apply in_map_iff in Hk. destruct Hk as [[k' r] [<- Hin]].
  apply in_flat_map in Hin. destruct Hin as [f [Hf Hin]].
  destruct (content f) as [text|]; simpl in Hin; [|contradiction].
  destruct Hin as [[= <- <-]|[]]. apply (in_map rel_path). exact Hf.
Qed.

(** Among files with pairwise distinct relative paths, the record found
    under the path of one of them is its own. *)
Lemma indexed_records_get (l : list Found) (f : Found) :
  List.NoDup (map rel_path l) ->
  In f l ->
  dict_get (rel_path f) (indexed_records l)
  = (index_record f <$> content f).
Proof.
  induction l as [|g l IH]; intros Hnd Hin; [destruct Hin|].
  inversion Hnd as [|? ? Hg Hl]; subst.
  unfold indexed_records. cbn [flat_map]. fold (indexed_records l).
  destruct Hin as [->|Hin].
  - destruct (content f) as [text|] eqn:Hc; simpl.
    + rewrite String.eqb_refl. reflexivity.
    + apply DictFacts.dict_get_None. rewrite list_elem_of_In.
      intros Hk. apply Hg. apply indexed_records_keys. exact Hk.
  - assert (Hne : rel_path g <> rel_path f).
    { intros Heq. apply Hg. rewrite Heq. apply in_map. exact Hin. }
    destruct (content g) as [text|]; simpl.
    + destruct (String.eqb_spec (rel_path g) (rel_path f)); [contradiction|].
      exact (IH Hl Hin).
    + exact (IH Hl Hin).
Qed.

(** The loop of [index], run over files with pairwise distinct relative
    paths, none of them stored yet: it appends their records. *)
Lemma index_loop_appends (l : list Found) :
  forall files_data modules total_tokens,
    List.NoDup (map rel_path l) ->
    (forall f, In f l -> dict_get (rel_path f) files_data = None) ->
    fst (fst (fold_left index_step l (files_data, modules, total_tokens)))
    = files_data ++ indexed_records l.
Proof.
  induction l as [|f l IH]; intros fd md tt Hnd Hfresh.
  - simpl. rewrite app_nil_r. reflexivity.
  - inversion Hnd as [|? ? Hf Hl]; subst. cbn [fold_left].
    unfold indexed_records. cbn [flat_map]. fold (indexed_records l).
    unfold index_step at 2.
    destruct (content f) as [text|] eqn:Hc.
    + rewrite (DictFacts.dict_set_fresh _ _ fd (Hfresh f (in_eq _ _))).
      rewrite IH; [rewrite <- app_assoc; reflexivity | exact Hl |].
      intros f' Hf'. apply DictFacts.dict_get_None.
      rewrite list_elem_of_In. unfold dict_keys. rewrite map_app.
      intros Hin. apply in_app_or in Hin. destruct Hin as [Hin|[Heq|[]]].
      * pose proof (Hfresh f' (in_cons _ _ _ Hf')) as Hnone.
        apply DictFacts.dict_get_None in Hnone. apply Hnone.
        rewrite list_elem_of_In. exact Hin.
      * apply Hf. simpl in Heq. rewrite Heq. apply in_map. exact Hf'.
    + simpl. apply IH; [exact Hl|]. intros f' Hf'. apply Hfresh. right.
      exact Hf'.
Qed.

Lemma index_step_keeps_agreement (files_data : dict FileRecord)
      (modules : dict (list string)) (total_tokens : nat) (f : Found) :
  modules_agree files_data modules ->
  modules_agree (fst (fst (index_step (files_data, modules, total_tokens) f)))
                (snd (fst (index_step (files_data, modules, total_tokens) f))).
Proof.
  intros [Hfiles Hmods]. unfold index_step.
  destruct (content f) as [text|]; [|split; assumption].
  set (rel := rel_path f). set (m := _detect_module rel).
  destruct (String.eqb_spec m "") as [Hempty|_];
    [exfalso; exact (detect_module_not_empty rel Hempty)|].
  cbn [negb fst snd]. split.
  - intros k r. destruct (String.eqb_spec rel k) as [<-|Hne].
    + rewrite DictFacts.dict_get_set_eq. intros [= <-].
      split; [reflexivity|]. fold m. rewrite DictFacts.dict_get_set_eq.
      simpl. apply in_or_app. right. left. reflexivity.
    + rewrite DictFacts.dict_get_set_ne by exact Hne. intros Hget.
      destruct (Hfiles k r Hget) as [Hmod Hin]. split; [exact Hmod|].
      destruct (String.eqb_spec m (_detect_module k)) as [Heq|Hm].
      * rewrite <- Heq in Hin. rewrite <- Heq.
        rewrite DictFacts.dict_get_set_eq. simpl. apply in_or_app. left.
        exact Hin.
      * rewrite DictFacts.dict_get_set_ne by exact Hm. exact Hin.
  - intros m' l k. destruct (String.eqb_spec m m') as [<-|Hm].
    + rewrite DictFacts.dict_get_set_eq. intros [= <-] Hin.
      apply in_app_or in Hin. destruct Hin as [Hin|[<-|[]]].
      * destruct (dict_get m modules) as [old|] eqn:Hold; [|destruct Hin].
        destruct (Hmods m old k Hold Hin) as [Hk [r Hr]].
        split; [exact Hk|].
        destruct (String.eqb_spec rel k) as [<-|Hne].
        -- rewrite DictFacts.dict_get_set_eq. eauto.
        -- rewrite DictFacts.dict_get_set_ne by exact Hne. eauto.
      * split; [reflexivity|]. rewrite DictFacts.dict_get_set_eq. eauto.
    + rewrite DictFacts.dict_get_set_ne by exact Hm. intros Hget Hin.
      destruct (Hmods m' l k Hget Hin) as [Hk [r Hr]]. split; [exact Hk|].
      destruct (String.eqb_spec rel k) as [<-|Hne].
      * rewrite DictFacts.dict_get_set_eq. eauto.
      * rewrite DictFacts.dict_get_set_ne by exact Hne. eauto.
Qed.

Lemma index_loop_keeps_agreement (l : list Found) :
  forall st,
    modules_agree (fst (fst st)) (snd (fst st)) ->
    modules_agree (fst (fst (fold_left index_step l st)))
                  (snd (fst (fold_left index_step l st))).
Proof.
  induction l as [|f l IH]; intros [[fd md] tt] Hst; [exact Hst|].
  cbn [fold_left]. apply IH.
  exact (index_step_keeps_agreement fd md tt f Hst).
Qed.

Context {index_json : JsonCodec CodebaseIndex}.

(** In the index a full build returns, the module mapping and the file
    mapping agree: the record of every file names the module inferred from
    its path, and the file is listed under that module; conversely every
    path listed under a module has a record, and that module is the one
    inferred from the path.  This needs no assumption on the tree. *)
Theorem index_modules_agree_with_files
        (root : node) (now tmp : string) (w w' : Sys.world)
        (index_data : CodebaseIndex) :
  index root now tmp w = (Ok index_data, w') ->
  modules_agree (default [] (files index_data))
                (default [] (modules index_data)).
Proof.
  intros Hindex.
  destruct (WalkFacts.index_result _ _ _ _ _ _ Hindex)
    as (fd & md & tt & Hloop & -> & _).
  cbn [files modules default].
  pose proof (index_loop_keeps_agreement (_walk_files root) ([], [], 0%nat))
    as Hinv.
  unfold index_loop in Hloop. rewrite Hloop in Hinv. apply Hinv.
  split; [intros k r; discriminate | intros m l k; discriminate].
Qed.

(** In the index a full build returns for a well-formed tree, a file that
    is reached through directories none of which is ignored, and whose
    suffix is indexed, has a record under its relative path exactly when
    it can be read; the record holds the token count of its content, the
    module inferred from the path, the imports and exports detected in
    the content, its modification time, and an empty purpose and
    summary.  A file whose reading fails is left out without an error. *)
Theorem index_records_every_reachable_file
        (root : node) (now tmp : string) (w w' : Sys.world)
        (index_data : CodebaseIndex)
        (dirs : list string) (name : string) (text : option string)
        (stamp : string) :
  well_formed root = true ->
  file_at root dirs name text stamp ->
  Forall (fun d => name_in d IGNORED_DIRS = false) dirs ->
  name_in (lower (Pathlib.suffix name)) INDEXED_EXTENSIONS = true ->
  index root now tmp w = (Ok index_data, w') ->
  let rel := join "/" (dirs ++ [name]) in
  dict_get rel (default [] (files index_data))
  = match text with
    | Some text =>
        Some {| purpose := Some "";
                module := Some (_detect_module rel);
                imports := Some (_detect_imports text (Pathlib.suffix name));
                exports := Some (_detect_exports text (Pathlib.suffix name));
                token_count := Some (Z.of_nat (TokenCounter.count_tokens text));
                last_modified := Some stamp;
                summary := Some "" |}
    | None => None
    end.
Proof.
  intros Hwf Hat Hclean Hext Hindex rel. subst rel.
  destruct (WalkFacts.index_result _ _ _ _ _ _ Hindex)
    as (fd & md & tt & Hloop & -> & _).
  cbn [files]. change (default [] (Some fd)) with fd.
  pose proof (index_loop_appends (_walk_files root) [] [] 0%nat
                (WalkFacts.walk_rel_paths_nodup root Hwf)
                (fun _ _ => eq_refl)) as Hfiles.
  assert (Hfd : fd = indexed_records (_walk_files root)).
  { change fd with (fst (fst (fd, md, tt))). rewrite <- Hloop. exact Hfiles. }
  subst fd.
  set (f := {| dirpath := dirs; fname := name; content := text;
               mtime := stamp |}).
  assert (Hin : In f (_walk_files root)).
  { apply walk_files_in; assumption. }
  change (join "/" (dirs ++ [name])) with (rel_path f).
  rewrite (indexed_records_get _ f (WalkFacts.walk_rel_paths_nodup root Hwf) Hin).
  destruct text; reflexivity.
Qed.

End Records.

(** The file [src/auth/login.py] of the sample project. *)
Lemma index_records_every_reachable_file_witness :
  exists index_data w',
    index (tokenizer := Doubles.byte_tokenizer)
          (scanner := Doubles.blind_scanner)
          (index_json := ClassifierSamples.index_codec)
          TreeSamples.project "2024-03-01T00:00:00+00:00" "index_q7.tmp"
          Doubles.empty_world
    = (Ok index_data, w')
    /\ dict_get "src/auth/login.py" (default [] (files index_data))
       = Some {| purpose := Some "";
                 module := Some "auth";
                 imports := Some [];
                 exports := Some [];
                 token_count := Some 73%Z;
                 last_modified := Some "2024-01-01T00:00:00+00:00";
                 summary := Some "" |}.
Proof.
  eexists. eexists. split; [vm_compute; reflexivity|].
  refine (@index_records_every_reachable_file
            Doubles.byte_tokenizer Doubles.blind_scanner
            ClassifierSamples.index_codec TreeSamples.project
            "2024-03-01T00:00:00+00:00" "index_q7.tmp"
            Doubles.empty_world _ _ ["src"; "auth"] "login.py"
            (Some ("from database import get_user" +:+ nl +:+ nl
                   +:+ "def login_user(email, password):" +:+ nl
                   +:+ "    pass" +:+ nl))
            "2024-01-01T00:00:00+00:00" _ _ _ _ _).
  - reflexivity.
  - eapply file_below; [left; reflexivity|].
    eapply file_below; [left; reflexivity|].
    eapply file_here. left. reflexivity.
  - repeat constructor.
  - reflexivity.
  - vm_compute. reflexivity.
Defined.

(** The index of the sample project. *)
Lemma index_modules_agree_with_files_witness :
  modules_agree (default [] (files TreeSamples.indexed))
                (default [] (modules TreeSamples.indexed)).
Proof.
  eapply (@index_modules_agree_with_files
            Doubles.byte_tokenizer Doubles.blind_scanner
            ClassifierSamples.index_codec TreeSamples.project
            "2024-03-01T00:00:00+00:00" "index_q7.tmp" Doubles.empty_world).
  vm_compute. reflexivity.
Defined.

End BuildFacts.

(** ** Pricing: the table, the stages and the estimate *)

Module PricingFacts.
Import TokenCounter Stages.

(** *** Dict displays *)

Section Display.
Context {V : Type}.

Lemma display_value (items : list (string * V)) :
  forall (d : dict V) (k : string) (v : V),
    dict_get k (fold_left (fun d kv => dict_set (fst kv) (snd kv) d) items d)
    = Some v ->
    In v (map snd items) \/ dict_get k d = Some v.
Proof.
  induction items as [|[k0 v0] items IH]; intros d k v Hget; simpl in *;
    [auto|].
  destruct (IH _ _ _ Hget) as [Hin|Hd]; [auto|].
  destruct (String.eqb_spec k0 k) as [->|Hne].
  - rewrite DictFacts.dict_get_set_eq in Hd. injection Hd as ->. auto.
  - rewrite DictFacts.dict_get_set_ne in Hd by exact Hne. auto.
Qed.

Lemma display_key (items : list (string * V)) :
  forall (d : dict V) (k : string),
    In k (map fst items) \/ is_Some (dict_get k d) ->
    is_Some (dict_get k (fold_left (fun d kv => dict_set (fst kv) (snd kv) d)
                                   items d)).
Proof.
  induction items as [|[k0 v0] items IH]; intros d k Hk; simpl in *.
  - destruct Hk as [[]|Hk]. exact Hk.
  - apply IH. destruct (String.eqb_spec k0 k) as [->|Hne].
    + right. rewrite DictFacts.dict_get_set_eq. eauto.
    + destruct Hk as [[Heq|Hin]|Hd]; [contradiction | auto |].
      right. rewrite DictFacts.dict_get_set_ne by exact Hne. exact Hd.
Qed.

End Display.

Local Open Scope Q_scope.

(** Every rate of the table is positive, whatever the environment. *)
Lemma costs_rates_positive {environ : Environ} (m : string) (r : Rates) :
  dict_get m COSTS_PER_MILLION = Some r ->
  0 < input r /\ 0 < output r /\ 0 < cache_read r /\ 0 < cache_write r.
Proof.
  intros Hget. unfold COSTS_PER_MILLION, dict_display in Hget.
  apply display_value in Hget. destruct Hget as [Hin|Hnone]; [|discriminate].
  simpl in Hin.
  repeat (destruct Hin as [<-|Hin]; [repeat split; reflexivity|]).
  destruct Hin.
Qed.

(** *** Stages *)

(** Every stage of either provider names a model that the pricing table
    knows, with positive input and output rates, whatever the environment
    sets the two Gemini names to: no stage is ever costed at 0 for want of
    a price.  A provider name other than ["gemini"] gets the Claude
    stages. *)
Theorem every_stage_model_is_priced {environ : Environ}
        (provider stage : string) (cfg : Stage) :
  dict_get stage (get_stage_config provider) = Some cfg ->
  exists r,
    dict_get (model cfg) COSTS_PER_MILLION = Some r
    /\ 0 < input r /\ 0 < output r.
Proof.
  intros Hcfg.
  assert (Hmodel : In (model cfg) [HAIKU; SONNET; GEMINI_FLASH; GEMINI_PRO]).
  { unfold get_stage_config in Hcfg.
    destruct (String.eqb provider PROVIDER_GEMINI);
      unfold GEMINI_STAGE_CONFIG, CLAUDE_STAGE_CONFIG, dict_display in Hcfg;
      apply display_value in Hcfg;
      (destruct Hcfg as [Hin|Hnone]; [|discriminate]); simpl in Hin;
      repeat (destruct Hin as [<-|Hin]; [simpl; auto|]); destruct Hin. }
  assert (Hpriced : is_Some (dict_get (model cfg) COSTS_PER_MILLION)).
  { unfold COSTS_PER_MILLION, dict_display. apply display_key. left.
    simpl in Hmodel |- *.
    destruct Hmodel as [<-|[<-|[<-|[<-|[]]]]]; auto 10. }
  destruct Hpriced as [r Hr]. exists r. split; [exact Hr|].
  destruct (costs_rates_positive _ _ Hr) as (Hi & Ho & _). auto.
Qed.

(** The generation stage of Gemini, in the default environment. *)
Lemma every_stage_model_is_priced_witness :
  exists r,
    dict_get "gemini-1.5-pro" (COSTS_PER_MILLION (environ := default_environ))
    = Some r
    /\ 0 < input r /\ 0 < output r.
Proof.
  apply (@every_stage_model_is_priced default_environ "gemini" "generate"
           {| model := "gemini-1.5-pro"; max_tokens := 8192;
              temperature := 0 |}).
  reflexivity.
Defined.

(** The two entries of the table keyed by the environment's names are
    stored last, so they take precedence over every earlier entry with the
    same key: whatever the environment, the flash model is priced at 0.15
    and 0.60 dollars per million tokens, and the pro model, unless it has
    the name of the flash model, at 1.25 and 10.  In the default
    environment this overrides the literal entries for ["gemini-1.5-pro"]
    and ["gemini-1.5-flash"]. *)
Theorem environment_entries_take_precedence {environ : Environ} :
  dict_get GEMINI_FLASH COSTS_PER_MILLION
  = Some {| input := 15 # 100; output := 6 # 10;
            cache_read := 375 # 10000; cache_write := 15 # 100 |}
  /\ (GEMINI_PRO <> GEMINI_FLASH ->
      dict_get GEMINI_PRO COSTS_PER_MILLION
      = Some {| input := 125 # 100; output := 10;
                cache_read := 315 # 1000; cache_write := 125 # 100 |}).
Proof.
  unfold COSTS_PER_MILLION, dict_display. cbn [fold_left fst snd]. split.
  - apply DictFacts.dict_get_set_eq.
  - intros Hne. rewrite DictFacts.dict_get_set_ne by congruence.
    apply DictFacts.dict_get_set_eq.
Qed.

End PricingFacts.

(** ** The cost of a call, float by float *)

Module CostFacts.
Import SpecFloat Float FloatFacts Constants TokenCounter.
Local Open Scope Z_scope.

(** *** The floats of the cost, one operation after the other *)



(** *** The rates of the table *)

Lemma costs_rates_floats {environ : Environ} (m : string) (r : Rates) :
  dict_get m COSTS_PER_MILLION = Some r ->
  Notions.float_rate (input r) /\ Notions.float_rate (output r)
  /\ Notions.float_rate (cache_read r).
Proof.
  intros Hget. unfold COSTS_PER_MILLION, dict_display in Hget.
  apply PricingFacts.display_value in Hget.
  destruct Hget as [Hin|Hnone]; [|discriminate].
  simpl in Hin.
  repeat (destruct Hin as [<-|Hin];
          [unfold Notions.float_rate; cbn [input output cache_read];
           repeat split; vm_compute; (reflexivity || discriminate)|]).
  destruct Hin.
Qed.

(** *** How far the float cost is from the exact one *)






(** *** The size of a token count *)



(** *** Signs *)

Lemma true_div_nonneg (n : Z) (a : float) :
  0 <= n -> true_div n 1000000 = Some a ->
  is_finite a = true /\ sign a = false.
Proof.
  intros Hn. unfold true_div.
  pose proof (nearest_million_nonneg n Hn) as Hnn.
  destruct (nearest n 1000000) as [s|s| |s m e]; cbn [is_infinite];
    try discriminate; cbn [nonneg sign] in Hnn; intros [= <-]; auto.
Qed.

Lemma cost_nonneg (r : Rates) (i o c : Z) (s : float) :
  Notions.float_rate (input r) -> Notions.float_rate (output r) ->
  Notions.float_rate (cache_read r) ->
  0 <= i -> 0 <= o -> 0 <= c ->
  cost r i o c = Some s -> nonneg s.
Proof.
  intros (Hbi & Hsi & _) (Hbo & Hso & _) (Hbc & Hsc & _) Hi Ho Hc.
  unfold cost.
  destruct (true_div i 1000000) as [a|] eqn:Ha; [|discriminate].
  destruct (true_div o 1000000) as [b|] eqn:Hb; [|discriminate].
  destruct (true_div c 1000000) as [d|] eqn:Hd; [|discriminate].
  cbn. intros [= <-].
  destruct (true_div_nonneg i a Hi Ha) as [Hfa Hsa].
  destruct (true_div_nonneg o b Ho Hb) as [Hfb Hsb].
  destruct (true_div_nonneg c d Hc Hd) as [Hfd Hsd].
  apply add_nonneg; [apply add_nonneg|];
    apply mul_nonneg; eauto using below_finite.
Qed.

(** Whatever [estimate_cost] returns for token counts that are not
    negative is at least [0.0]: not a negative amount and not the NaN.
    (Beyond the range of [float] the call raises [OverflowError] or
    returns [inf].) *)
Theorem estimate_cost_never_negative {environ : Environ} (i o c : Z)
        (m : string) (x : float) :
  0 <= i -> 0 <= o -> 0 <= c ->
  estimate_cost i o m c = Some x ->
  leb zero x = true.
Proof.
  intros Hi Ho Hc. unfold estimate_cost.
  destruct (dict_get m COSTS_PER_MILLION) as [r|] eqn:Hm.
  - destruct (costs_rates_floats m r Hm) as (Hri & Hro & Hrc).
    destruct (cost r i o c) as [s|] eqn:Hs; [|discriminate].
    cbn. intros Hx. apply nonneg_leb.
    apply (round6_nonneg s x); [|exact Hx].
    exact (cost_nonneg r i o c s Hri Hro Hrc Hi Ho Hc Hs).
  - intros [= <-]. reflexivity.
Qed.

(** A million input tokens and half a million output tokens of the
    larger Claude model: eighteen dollars and a half. *)
Lemma estimate_cost_never_negative_witness :
  estimate_cost (environ := default_environ) 1000000 500000 SONNET 0
  = Some (nearest 21 2)
  /\ leb zero (nearest 21 2) = true.
Proof.
  split; [vm_compute; reflexivity|].
  apply (@estimate_cost_never_negative default_environ 1000000 500000 0
           SONNET (nearest 21 2)); [lia | lia | lia |].
  vm_compute. reflexivity.
Defined.

End CostFacts.

(** ** Pricing: [estimate_cost] *)

Module EstimateCostFacts.
Import SpecFloat Float Constants TokenCounter.
Local Open Scope Z_scope.



(** In the default environment the entry for ["gemini-1.5-flash"] is the
    one keyed by [GEMINI_FLASH], stored last. *)
Example costs_default_flash :
  dict_get "gemini-1.5-flash" (COSTS_PER_MILLION (environ := default_environ))
  = Some {| input := 15 # 100; output := 6 # 10;
            cache_read := 375 # 10000; cache_write := 15 # 100 |}.
Proof. reflexivity. Qed.

(** A million input tokens of the smaller Claude model cost [1.0]. *)
Example estimate_cost_haiku_million :
  estimate_cost (environ := default_environ) 1000000 0 HAIKU 0
  = Some (nearest 1 1).
Proof. vm_compute. reflexivity. Qed.

Example estimate_cost_unknown :
  estimate_cost (environ := default_environ) 1000 1000 "unknown-model" 0
  = Some zero.
Proof. reflexivity. Qed.

(** The rounding to six decimals is the rounding of the float, not of the
    decimal product: ten input tokens at 1.25 dollars per million are
    12.5 millionths on paper, and the float of that product is above the
    tie, so the estimate is [1.3e-05]; fifteen cached tokens at 0.30 are
    4.5 millionths, and the estimate is [5e-06]. *)
Example estimate_cost_rounds_the_float :
  estimate_cost (environ := default_environ) 10 0 "gemini-1.5-pro" 0
  = Some (nearest 13 1000000)
  /\ estimate_cost (environ := default_environ) 0 0 SONNET 15
     = Some (nearest 5 1000000).
Proof. split; vm_compute; reflexivity. Qed.




End EstimateCostFacts.


(** ** Strings: searching, slicing and stripping *)

Module TextFacts.
Import Compressor Builders.

Lemma append_nil_r (s : string) : s +:+ "" = s.
Proof.
  induction s as [|c s IH]; [reflexivity|].
  rewrite PathFacts.append_cons, IH. reflexivity.
Qed.

Lemma append_assoc (a b c : string) : (a +:+ b) +:+ c = a +:+ (b +:+ c).
Proof.
  induction a as [|x a IH]; [reflexivity|].
  rewrite !PathFacts.append_cons, IH. reflexivity.
Qed.

Lemma length_append (a b : string) :
  String.length (a +:+ b) = (String.length a + String.length b)%nat.
Proof.
  induction a as [|x a IH]; [reflexivity|].
  rewrite PathFacts.append_cons. simpl. rewrite IH. reflexivity.
Qed.

Lemma prefix_nil (s : string) : String.prefix "" s = true.
Proof. destruct s; reflexivity. Qed.

Lemma prefix_cons (a c : ascii) (s t : string) :
  String.prefix (String a s) (String c t) = Ascii.eqb a c && String.prefix s t.
Proof.
  simpl. destruct (ascii_dec a c) as [->|Hne].
  - rewrite Ascii.eqb_refl. reflexivity.
  - destruct (Ascii.eqb_spec a c); [contradiction | reflexivity].
Qed.

Lemma str_in_cons (needle : string) (c : ascii) (s : string) :
  str_in needle (String c s)
  = String.prefix needle (String c s) || str_in needle s.
Proof. reflexivity. Qed.

(** A character that does not occur in a string. *)
Lemma absent_cons (c x : ascii) (s : string) :
  str_in (String c "") (String x s) = false ->
  Ascii.eqb c x = false /\ str_in (String c "") s = false.
Proof.
  rewrite str_in_cons, prefix_cons, prefix_nil, andb_true_r.
  apply orb_false_iff.
Qed.

Lemma str_in_app_l (x a b : string) :
  str_in x a = true -> str_in x (a +:+ b) = true.
Proof.
  intros Hx. apply ContextFacts.str_in_substring in Hx.
  destruct Hx as (before & after & ->).
  apply ContextFacts.str_in_substring. exists before, (after +:+ b).
  rewrite !append_assoc. reflexivity.
Qed.

(** *** Searching *)

(** A needle that starts before a separator it does not contain ends
    before it. *)
Lemma prefix_app_sep (needle : string) (c : ascii) (rest : string) :
  str_in (String c "") needle = false ->
  forall a,
    String.prefix needle (a +:+ String c rest) = true ->
    String.prefix needle a = true.
Proof.
  induction needle as [|n0 needle IH]; intros Hc a Hp; [apply prefix_nil|].
  apply absent_cons in Hc. destruct Hc as [Hn0 Hc].
  destruct a as [|a0 a].
  - change ("" +:+ String c rest) with (String c rest) in Hp.
    rewrite prefix_cons in Hp. apply andb_true_iff in Hp.
    destruct Hp as [Heq _]. apply Ascii.eqb_eq in Heq. subst n0.
    rewrite Ascii.eqb_refl in Hn0. discriminate.
  - rewrite PathFacts.append_cons, prefix_cons in Hp.
    apply andb_true_iff in Hp. destruct Hp as [Heq Hp].
    rewrite prefix_cons, Heq. exact (IH Hc a Hp).
Qed.

Lemma find_cons_miss (needle : string) (c : ascii) (rest : string) :
  String.prefix needle (String c rest) = false ->
  find needle (String c rest) = S <$> find needle rest.
Proof. intros Hp. cbn [find]. rewrite Hp. reflexivity. Qed.

Lemma find_hit (needle s : string) :
  String.prefix needle s = true -> find needle s = Some 0%nat.
Proof. intros Hp. destruct s; cbn [find]; rewrite Hp; reflexivity. Qed.

Lemma find_none (needle s : string) :
  str_in needle s = false -> find needle s = None.
Proof.
  induction s as [|c s IH]; intros Hin.
  - cbn [str_in] in Hin. rewrite orb_false_r in Hin. cbn [find].
    rewrite Hin. reflexivity.
  - rewrite str_in_cons in Hin. apply orb_false_iff in Hin.
    destruct Hin as [Hp Hin]. rewrite (find_cons_miss _ _ _ Hp), (IH Hin).
    reflexivity.
Qed.

(** The search for a needle goes past a text that does not contain it and
    past the separator that follows, if the needle has no separator. *)
Lemma find_past_separator (needle a : string) (c : ascii) (rest : string) :
  needle <> "" ->
  str_in (String c "") needle = false ->
  str_in needle a = false ->
  find needle (a +:+ String c rest)
  = (fun n => (String.length a + 1 + n)%nat) <$> find needle rest.
Proof.
  intros Hne Hc. induction a as [|a0 a IH]; intros Hin.
  - change ("" +:+ String c rest) with (String c rest).
    rewrite find_cons_miss; [destruct (find needle rest); reflexivity|].
    destruct needle as [|n0 needle]; [congruence|].
    apply absent_cons in Hc. destruct Hc as [Hn0 _].
    rewrite prefix_cons, Ascii.eqb_sym, Hn0. reflexivity.
  - rewrite str_in_cons in Hin. apply orb_false_iff in Hin.
    destruct Hin as [Hp Hin].
    rewrite PathFacts.append_cons, find_cons_miss, (IH Hin).
    + destruct (find needle rest); reflexivity.
    + apply not_true_is_false. intros Hp'.
      rewrite <- PathFacts.append_cons in Hp'.
      rewrite (prefix_app_sep _ _ _ Hc _ Hp') in Hp. discriminate.
Qed.

(** *** Slicing *)

Lemma take_app (a b : string) (n : nat) :
  take (String.length a + n) (a +:+ b) = a +:+ take n b.
Proof.
  induction a as [|x a IH]; [reflexivity|].
  rewrite !PathFacts.append_cons. simpl. rewrite IH. reflexivity.
Qed.

Lemma drop_app (a b : string) (n : nat) :
  drop (String.length a + n) (a +:+ b) = drop n b.
Proof.
  induction a as [|x a IH]; [reflexivity|].
  rewrite PathFacts.append_cons. simpl. exact IH.
Qed.

(** *** Reversal *)

Lemma list_of_append (a b : string) :
  list_ascii_of_string (a +:+ b)
  = list_ascii_of_string a ++ list_ascii_of_string b.
Proof.
  induction a as [|x a IH]; [reflexivity|].
  rewrite PathFacts.append_cons. simpl. rewrite IH. reflexivity.
Qed.

Lemma string_of_app (l1 l2 : list ascii) :
  string_of_list_ascii (l1 ++ l2)
  = string_of_list_ascii l1 +:+ string_of_list_ascii l2.
Proof.
  induction l1 as [|x l1 IH]; [reflexivity|].
  simpl. rewrite IH. reflexivity.
Qed.

Lemma string_rev_append (a b : string) :
  string_rev (a +:+ b) = string_rev b +:+ string_rev a.
Proof.
  unfold string_rev. rewrite list_of_append, rev_app_distr, string_of_app.
  reflexivity.
Qed.

Lemma string_rev_involutive (s : string) : string_rev (string_rev s) = s.
Proof.
  unfold string_rev.
  rewrite list_ascii_of_string_of_list_ascii, rev_involutive.
  apply string_of_list_ascii_of_string.
Qed.

(** *** Stripping *)

Section Strip.
Variable spaces : list string.

Lemma lstrip_with_cons (c : ascii) (s : string) :
  lstrip_with spaces 0 (String c s)
  = match space_at spaces (String c s) with
    | Some (S k) => lstrip_with spaces k s
    | _ => String c s
    end.
Proof. reflexivity. Qed.

(** What is left is the end of the text. *)
Lemma lstrip_with_suffix (s : string) :
  forall skip, exists before, s = before +:+ lstrip_with spaces skip s.
Proof.
  induction s as [|c s IH]; intros skip.
  - exists "". destruct skip; reflexivity.
  - destruct skip as [|k].
    + rewrite lstrip_with_cons.
      destruct (space_at spaces (String c s)) as [[|k]|];
        try (exists ""; reflexivity).
      destruct (IH k) as [before Hs]. exists (String c before).
      rewrite PathFacts.append_cons, <- Hs. reflexivity.
    + destruct (IH k) as [before Hs]. exists (String c before).
      rewrite PathFacts.append_cons. simpl. rewrite <- Hs. reflexivity.
Qed.

(** What is left does not start with a space: stripping it again changes
    nothing. *)
Lemma lstrip_with_fixed (s : string) :
  forall skip,
    lstrip_with spaces 0 (lstrip_with spaces skip s)
    = lstrip_with spaces skip s.
Proof.
  induction s as [|c s IH]; intros skip.
  - destruct skip; reflexivity.
  - destruct skip as [|k].
    + rewrite lstrip_with_cons.
      destruct (space_at spaces (String c s)) as [[|k]|] eqn:Hsp.
      * rewrite lstrip_with_cons, Hsp. reflexivity.
      * apply IH.
      * rewrite lstrip_with_cons, Hsp. reflexivity.
    + simpl. apply IH.
Qed.

End Strip.

Lemma rstrip_prefix (s : string) : exists tail, s = rstrip s +:+ tail.
Proof.
  unfold rstrip.
  destruct (lstrip_with_suffix (map string_rev WHITESPACE) (string_rev s) 0)
    as [before Hs].
  exists (string_rev before).
  rewrite <- string_rev_append, <- Hs. symmetry.
  apply string_rev_involutive.
Qed.

Lemma rstrip_idempotent (s : string) : rstrip (rstrip s) = rstrip s.
Proof.
  unfold rstrip. rewrite string_rev_involutive, lstrip_with_fixed.
  reflexivity.
Qed.

Lemma rstrip_line_feed (s : string) : rstrip (s +:+ nl) = rstrip s.
Proof.
  unfold rstrip. rewrite string_rev_append.
  change (string_rev nl) with nl.
  change (nl +:+ string_rev s) with (String line_feed (string_rev s)).
  rewrite lstrip_with_cons.
  replace (space_at (map string_rev WHITESPACE)
                    (String line_feed (string_rev s)))
    with (Some 1%nat); [reflexivity|].
  destruct (string_rev s); reflexivity.
Qed.

Lemma not_in_rstrip (needle s : string) :
  str_in needle s = false -> str_in needle (rstrip s) = false.
Proof.
  intros Hs. apply not_true_is_false. intros Hr.
  destruct (rstrip_prefix s) as [tail Heq].
  rewrite Heq, (str_in_app_l _ _ _ Hr) in Hs. discriminate.
Qed.

End TextFacts.

(** ** Injecting the context into [CLAUDE.md] and [GEMINI.md] *)

Module InjectFacts.
Import Sys Compressor Builders TextFacts.

Lemma without_previous_clean (content : string) :
  str_in marker_start content = false -> without_previous content = content.
Proof.
  intros Hs. unfold without_previous. rewrite (find_none _ _ Hs). reflexivity.
Qed.

(** After an injection into a text without markers, the search for the
    two markers finds those of the injection, and removing the previous
    injection leaves the text and three line feeds. *)
Lemma without_previous_injected (r context_text : string) :
  str_in marker_start r = false ->
  str_in marker_end r = false ->
  str_in marker_end context_text = false ->
  without_previous (r +:+ injection context_text) = r +:+ nl +:+ nl +:+ nl.
Proof.
  intros Hstart Hend Hctx. unfold without_previous.
  set (header := "# Current Change Context (Auto-injected by Preflight)").
  set (tail := String line_feed (marker_end +:+ nl)).
  change (injection context_text)
    with (String line_feed
            (String line_feed
               (marker_start +:+
                String line_feed
                  (header +:+
                   String line_feed
                     (String line_feed (context_text +:+ tail)))))).
  rewrite (find_past_separator marker_start r line_feed);
    [| discriminate | reflexivity | exact Hstart].
  rewrite (find_cons_miss marker_start line_feed) by reflexivity.
  rewrite (find_hit marker_start) by apply ClassifierFacts.prefix_append.
  cbn [fmap option_fmap option_map].
  rewrite (find_past_separator marker_end r line_feed);
    [| discriminate | reflexivity | exact Hend].
  rewrite (find_cons_miss marker_end line_feed) by reflexivity.
  rewrite (find_past_separator marker_end marker_start line_feed);
    [| discriminate | reflexivity | reflexivity].
  rewrite (find_past_separator marker_end header line_feed);
    [| discriminate | reflexivity | reflexivity].
  rewrite (find_cons_miss marker_end line_feed) by reflexivity.
  unfold tail.
  rewrite (find_past_separator marker_end context_text line_feed);
    [| discriminate | reflexivity | exact Hctx].
  rewrite (find_hit marker_end) by apply ClassifierFacts.prefix_append.
  cbn [fmap option_fmap option_map].
  replace (String.length r + 1 + 1)%nat with (String.length r + 2)%nat by lia.
  rewrite take_app. cbn [take].
  match goal with
  | |- context [drop ?n _] =>
      replace n
        with (String.length r
              + S (S (String.length marker_start
                      + S (String.length header
                           + S (S (String.length context_text
                                   + S (String.length marker_end + 0)))))))%nat
        by lia
  end.
  rewrite drop_app. cbn [drop]. rewrite drop_app. cbn [drop].
  rewrite drop_app. cbn [drop]. rewrite drop_app. cbn [drop].
  rewrite drop_app, append_assoc. reflexivity.
Qed.

(** Injecting a context into a text that already carries one replaces it:
    the result is the one of injecting into the original text. *)
Lemma injected_content_replaces (c0 context_text later_text : string) :
  str_in marker_start c0 = false ->
  str_in marker_end c0 = false ->
  str_in marker_end context_text = false ->
  injected_content (injected_content c0 context_text) later_text
  = injected_content c0 later_text.
Proof.
  intros Hstart Hend Hctx. unfold injected_content.
  rewrite (without_previous_clean c0 Hstart).
  rewrite without_previous_injected;
    [| apply not_in_rstrip; exact Hstart | apply not_in_rstrip; exact Hend
     | exact Hctx].
  rewrite <- !append_assoc, !rstrip_line_feed, rstrip_idempotent.
  reflexivity.
Qed.

(** What one call does, by what the file is. *)
Lemma inject_context_cases (path context_text : string) (w : world) :
  inject_context_into path context_text w
  = match disk w !! path with
    | None => (Ok tt, w)
    | Some (Dir _) => (Raise OSError, w)
    | Some (File raw) =>
        if Utf8.valid raw
        then (Ok tt,
              set_disk (<[path := File (injected_content
                                          (universal_newlines raw)
                                          context_text)]>
                          (disk w)) w)
        else (Raise UnicodeDecodeError, w)
    end.
Proof.
  unfold inject_context_into, write_text, read_text. io_unfold.
  destruct (disk w !! path) as [[raw|e]|] eqn:Hfile.
  - rewrite bool_decide_eq_true_2 by eauto. io_simpl. rewrite Hfile.
    destruct (Utf8.valid raw); [|reflexivity]. rewrite Hfile. reflexivity.
  - rewrite bool_decide_eq_true_2 by eauto. io_simpl. rewrite Hfile.
    reflexivity.
  - rewrite bool_decide_eq_false_2 by (intros [? ?]; discriminate).
    reflexivity.
Qed.

(** [inject_context] creates nothing and touches one file.  Where the
    file is missing the call returns and the folder is as it was; where
    the name is a directory it raises [OSError], and where the file is
    not UTF-8 it raises [UnicodeDecodeError], the folder unchanged in both
    cases; otherwise it returns, and the one change in the folder is the
    new content of the file, which ends with the context between the two
    markers. *)
Theorem inject_context_touches_one_file (path context_text : string)
        (w w' : world) (r : result unit) :
  inject_context_into path context_text w = (r, w') ->
  calls w' = calls w
  /\ (forall other, other <> path -> disk w' !! other = disk w !! other)
  /\ match disk w !! path with
     | None => r = Ok tt /\ disk w' !! path = None
     | Some (Dir e) => r = Raise OSError /\ disk w' !! path = Some (Dir e)
     | Some (File raw) =>
         if Utf8.valid raw
         then r = Ok tt
              /\ exists kept,
                  disk w' !! path
                  = Some (File (kept +:+ nl +:+ nl +:+ marker_start +:+ nl
                                +:+ "# Current Change Context (Auto-injected by Preflight)"
                                +:+ nl +:+ nl +:+ context_text +:+ nl
                                +:+ marker_end +:+ nl))
         else r = Raise UnicodeDecodeError
              /\ disk w' !! path = Some (File raw)
     end.
Proof.
  rewrite inject_context_cases.
  destruct (disk w !! path) as [[raw|e]|] eqn:Hfile.
  - destruct (Utf8.valid raw); intros [= <- <-].
    + cbn [disk set_disk calls]. split; [reflexivity|]. split.
      * intros other Hne. apply lookup_insert_ne. congruence.
      * split; [reflexivity|]. eexists. rewrite lookup_insert_eq.
        reflexivity.
    + auto.
  - intros [= <- <-]. auto.
  - intros [= <- <-]. auto.
Qed.

(** *** Newlines *)

(** A text without carriage returns is read as it is. *)
Lemma universal_newlines_without_cr (s : string) :
  str_in carriage_return s = false -> universal_newlines s = s.
Proof.
  induction s as [|c s IH]; [reflexivity|]. intros Habsent.
  apply absent_cons in Habsent as [Hc Hs]. cbn [universal_newlines].
  rewrite Ascii.eqb_sym, Hc, (IH Hs). reflexivity.
Qed.

(** A text read has no carriage return left. *)
Lemma universal_newlines_has_no_cr (s : string) :
  str_in carriage_return (universal_newlines s) = false.
Proof.
  assert (Hboth : forall n s, (String.length s <= n)%nat ->
                              str_in carriage_return (universal_newlines s)
                              = false).
  { clear s. induction n as [|n IH]; intros s Hlen.
    - destruct s; [reflexivity | simpl in Hlen; lia].
    - destruct s as [|c s]; [reflexivity|]. cbn [String.length] in Hlen.
      cbn [universal_newlines].
      destruct (Ascii.eqb_spec c (ascii_of_nat 13)) as [->|Hne].
      + unfold carriage_return.
        rewrite str_in_cons, prefix_cons, prefix_nil, andb_true_r.
        change (Ascii.eqb (ascii_of_nat 13) line_feed) with false.
        cbn [orb]. fold carriage_return.
        destruct s as [|c' s']; [reflexivity|]. cbn [String.length] in Hlen.
        destruct (Ascii.eqb c' line_feed); apply IH;
          cbn [String.length]; lia.
      + unfold carriage_return.
        rewrite str_in_cons, prefix_cons, prefix_nil, andb_true_r.
        replace (Ascii.eqb (ascii_of_nat 13) c) with false
          by (symmetry; apply Ascii.eqb_neq; congruence).
        cbn [orb]. fold carriage_return. apply IH. lia. }
  apply (Hboth (String.length s)). lia.
Qed.

(** A character that occurs in neither of two texts does not occur in
    the two put together. *)
Lemma absent_append (c : ascii) (a b : string) :
  str_in (String c "") a = false -> str_in (String c "") b = false ->
  str_in (String c "") (a +:+ b) = false.
Proof.
  intros Ha Hb. induction a as [|x a IH]; [exact Hb|].
  apply absent_cons in Ha as [Hx Ha].
  rewrite PathFacts.append_cons, str_in_cons, prefix_cons, prefix_nil,
    andb_true_r, Hx.
  exact (IH Ha).
Qed.

(** What an injection writes has no carriage return, where neither the
    text read nor the context has one. *)
Lemma injected_content_has_no_cr (text context_text : string) :
  str_in carriage_return text = false ->
  str_in marker_start text = false ->
  str_in carriage_return context_text = false ->
  str_in carriage_return (injected_content text context_text) = false.
Proof.
  intros Htext Hstart Hctx. unfold injected_content, injection.
  rewrite (without_previous_clean text Hstart).
  unfold carriage_return in *.
  repeat (apply absent_append;
          [first [apply not_in_rstrip; exact Htext | exact Hctx | reflexivity]
          |]).
  reflexivity.
Qed.

(** Two injections in a row leave the file as the second alone would:
    the first context is gone.  The file, as it is read, is taken to
    start without markers, and the first context to contain neither the
    end marker nor a carriage return. *)
Theorem inject_context_twice_keeps_the_last
        (path c0 context_text later_text : string) (w : world) :
  disk w !! path = Some (File c0) ->
  Utf8.valid c0 = true ->
  Utf8.valid (injected_content (universal_newlines c0) context_text) = true ->
  str_in marker_start (universal_newlines c0) = false ->
  str_in marker_end (universal_newlines c0) = false ->
  str_in marker_end context_text = false ->
  str_in carriage_return context_text = false ->
  (_ ← inject_context_into path context_text;
   inject_context_into path later_text) w
  = inject_context_into path later_text w
  /\ exists w',
      inject_context_into path later_text w = (Ok tt, w')
      /\ disk w' !! path
         = Some (File (injected_content (universal_newlines c0) later_text)).
Proof.
  intros Hfile Hutf Hutf1 Hstart Hend Hctx Hcr. io_unfold.
  rewrite !inject_context_cases, Hfile, Hutf.
  rewrite inject_context_cases. cbn [disk set_disk calls].
  rewrite lookup_insert_eq, Hutf1, insert_insert_eq.
  rewrite (universal_newlines_without_cr
             (injected_content (universal_newlines c0) context_text))
    by (apply injected_content_has_no_cr;
        [apply universal_newlines_has_no_cr | exact Hstart | exact Hcr]).
  rewrite (injected_content_replaces _ _ _ Hstart Hend Hctx).
  split; [reflexivity|]. eexists. split; [reflexivity|].
  apply lookup_insert_eq.
Qed.

(** A file with two lines that end in a carriage return and a line feed,
    injected twice. *)
Lemma inject_context_twice_keeps_the_last_witness :
  let c0 := "# Title" +:+ carriage_return +:+ nl
            +:+ "line one" +:+ carriage_return +:+ nl in
  let w := Doubles.on_disk [("CLAUDE.md", File c0)] in
  (_ ← ClaudeBuilder.inject_context "## Relevant Files";
   ClaudeBuilder.inject_context "## Relevant Decisions") w
  = ClaudeBuilder.inject_context "## Relevant Decisions" w
  /\ exists w',
      ClaudeBuilder.inject_context "## Relevant Decisions" w = (Ok tt, w')
      /\ disk w' !! "CLAUDE.md"
         = Some (File (injected_content
                         ("# Title" +:+ nl +:+ "line one" +:+ nl)
                         "## Relevant Decisions")).
Proof.
  apply (inject_context_twice_keeps_the_last
           "CLAUDE.md"
           ("# Title" +:+ carriage_return +:+ nl
            +:+ "line one" +:+ carriage_return +:+ nl)
           "## Relevant Files" "## Relevant Decisions"); reflexivity.
Defined.

(** A [GEMINI.md] with one heading. *)
Lemma inject_context_touches_one_file_witness :
  let w := Doubles.on_disk [("GEMINI.md", File "# Guide")] in
  exists w',
    GeminiBuilder.inject_context "## Relevant Files" w = (Ok tt, w')
    /\ calls w' = calls w
    /\ (forall other, other <> "GEMINI.md" ->
                      disk w' !! other = disk w !! other)
    /\ Ok tt = Ok tt
    /\ exists kept,
        disk w' !! "GEMINI.md"
        = Some (File (kept +:+ nl +:+ nl +:+ marker_start +:+ nl
                      +:+ "# Current Change Context (Auto-injected by Preflight)"
                      +:+ nl +:+ nl +:+ "## Relevant Files" +:+ nl
                      +:+ marker_end +:+ nl)).
Proof.
  eexists. split; [reflexivity|].
  apply (inject_context_touches_one_file
           "GEMINI.md" "## Relevant Files"
           (Doubles.on_disk [("GEMINI.md", File "# Guide")]) _ (Ok tt)).
  reflexivity.
Defined.

(** The hypothesis on the first context is needed: a context that quotes
    the end marker is cut at the quotation, and what follows it stays in
    the file for good. *)
Example injected_content_keeps_what_follows_a_quoted_marker :
  injected_content
    (injected_content "# Project" ("see " +:+ marker_end +:+ " in the file"))
    "next"
  = "# Project" +:+ nl +:+ nl +:+ " in the file" +:+ nl +:+ marker_end
    +:+ injection "next".
Proof. vm_compute. reflexivity. Qed.

End InjectFacts.

(** ** Compression: what is left of a text *)

Module CompressorFacts.
Import Compressor TextFacts.

(** *** Characters *)

Lemma occurs_app (c : ascii) (a b : string) :
  str_in (String c "") (a +:+ b)
  = str_in (String c "") a || str_in (String c "") b.
Proof.
  induction a as [|x a IH].
  - change ("" +:+ b) with b. destruct b; reflexivity.
  - rewrite PathFacts.append_cons, !str_in_cons, !prefix_cons, !prefix_nil, IH.
    rewrite orb_assoc. reflexivity.
Qed.

Lemma occurs_cons (c x : ascii) (s : string) :
  str_in (String c "") (String x s)
  = Ascii.eqb c x || str_in (String c "") s.
Proof. rewrite str_in_cons, prefix_cons, prefix_nil, andb_true_r. reflexivity. Qed.

Lemma lstrip_with_keeps_absent (spaces : list string) (needle s : string)
      (skip : nat) :
  str_in needle s = false -> str_in needle (lstrip_with spaces skip s) = false.
Proof.
  intros Hs. apply not_true_is_false. intros Hl.
  destruct (lstrip_with_suffix spaces s skip) as [before Heq].
  rewrite Heq, (ClassifierFacts.str_in_later _ before _ Hl) in Hs.
  discriminate.
Qed.

Lemma strip_keeps_absent (needle s : string) :
  str_in needle s = false -> str_in needle (strip s) = false.
Proof.
  intros Hs. unfold strip, lstrip.
  apply not_in_rstrip, lstrip_with_keeps_absent, Hs.
Qed.

(** Removing line comments removes characters and adds none. *)
Lemma strip_line_comments_keeps_absent (c : ascii) (opener : string)
      (s : string) :
  forall inside,
    str_in (String c "") s = false ->
    str_in (String c "") (strip_line_comments opener inside s) = false.
Proof.
  induction s as [|x s IH]; intros inside Hs; [destruct inside; exact Hs|].
  rewrite occurs_cons in Hs. apply orb_false_iff in Hs.
  destruct Hs as [Hx Hs]. cbn [strip_line_comments].
  destruct inside.
  - destruct (Ascii.eqb x line_feed); [|apply IH, Hs].
    rewrite occurs_cons, Hx. apply IH, Hs.
  - destruct (String.prefix opener (String x s)); [apply IH, Hs|].
    rewrite occurs_cons, Hx. apply IH, Hs.
Qed.

Lemma blank_run_line_feeds (c : ascii) (run : nat) :
  Ascii.eqb c line_feed = false ->
  str_in (String c "") (blank_run run) = false.
Proof.
  intros Hc. unfold blank_run. destruct (3 <=? run)%nat.
  - change (nl +:+ nl) with (String line_feed (String line_feed "")).
    rewrite !occurs_cons, Hc. reflexivity.
  - induction run as [|run IH]; [reflexivity|].
    cbn [repeat string_of_list_ascii]. rewrite occurs_cons, Hc. exact IH.
Qed.

(** Collapsing blank lines adds nothing but line feeds. *)
Lemma collapse_keeps_absent (c : ascii) (s : string) :
  Ascii.eqb c line_feed = false ->
  forall run,
    str_in (String c "") s = false ->
    str_in (String c "") (collapse_blank_lines run s) = false.
Proof.
  intros Hc. induction s as [|x s IH]; intros run Hs.
  - apply blank_run_line_feeds, Hc.
  - rewrite occurs_cons in Hs. apply orb_false_iff in Hs.
    destruct Hs as [Hx Hs]. cbn [collapse_blank_lines].
    destruct (Ascii.eqb x line_feed); [apply IH, Hs|].
    rewrite occurs_app, occurs_cons, Hx, (blank_run_line_feeds _ _ Hc).
    apply IH, Hs.
Qed.

(** The pass that removes [#] comments leaves no [#] at all. *)
Lemma hash_comments_gone (s : string) :
  forall inside, str_in "#" (strip_line_comments "#" inside s) = false.
Proof.
  induction s as [|x s IH]; intros inside; [destruct inside; reflexivity|].
  cbn [strip_line_comments]. destruct inside.
  - destruct (Ascii.eqb_spec x line_feed) as [->|Hx]; [|apply IH].
    rewrite occurs_cons. apply IH.
  - change "#" with (String "#"%char "") at 1.
    rewrite prefix_cons, prefix_nil, andb_true_r.
    destruct (Ascii.eqb "#"%char x) eqn:Hx; [apply IH|].
    rewrite occurs_cons, Hx. apply IH.
Qed.

(** *** Around a separator *)

(** A needle occurs neither before nor after a separator it does not
    contain: then it does not occur at all. *)
Lemma not_in_app_sep (needle a : string) (c : ascii) (rest : string) :
  str_in (String c "") needle = false ->
  str_in needle a = false ->
  str_in needle rest = false ->
  str_in needle (a +:+ String c rest) = false.
Proof.
  intros Hc Ha Hrest. induction a as [|x a IH].
  - change ("" +:+ String c rest) with (String c rest).
    rewrite str_in_cons, Hrest, orb_false_r.
    destruct needle as [|n0 needle]; [discriminate Ha|].
    apply absent_cons in Hc. destruct Hc as [Hn0 _].
    rewrite prefix_cons, Ascii.eqb_sym, Hn0. reflexivity.
  - rewrite str_in_cons in Ha. apply orb_false_iff in Ha.
    destruct Ha as [Hp Ha].
    rewrite PathFacts.append_cons, str_in_cons, (IH Ha), orb_false_r.
    apply not_true_is_false. intros Hp'.
    rewrite <- PathFacts.append_cons in Hp'.
    rewrite (prefix_app_sep _ _ _ Hc _ Hp') in Hp. discriminate.
Qed.

Lemma blank_run_cases (run : nat) :
  blank_run run = "" \/ blank_run run = nl \/ blank_run run = nl +:+ nl.
Proof.
  unfold blank_run. destruct run as [|[|[|run]]]; simpl; auto.
Qed.

(** *** The [//] comments *)

Lemma slash_comments_head (s : string) :
  String.prefix "/" (strip_line_comments "//" true s) = false
  /\ (String.prefix "/" (strip_line_comments "//" false s) = true ->
      String.prefix "/" s = true /\ String.prefix "//" s = false).
Proof.
  induction s as [|x s IH]; [split; [reflexivity | discriminate]|].
  destruct IH as [IHin IHout]. cbn [strip_line_comments]. split.
  - destruct (Ascii.eqb_spec x line_feed) as [->|Hx]; [reflexivity | exact IHin].
  - destruct (String.prefix "//" (String x s)) eqn:Hp.
    + rewrite IHin. discriminate.
    + change "/" with (String "/"%char "").
      rewrite !prefix_cons, !prefix_nil. tauto.
Qed.

Lemma slash_comments_gone (s : string) :
  forall inside, str_in "//" (strip_line_comments "//" inside s) = false.
Proof.
  induction s as [|x s IH]; intros inside; [destruct inside; reflexivity|].
  cbn [strip_line_comments]. destruct inside.
  - destruct (Ascii.eqb_spec x line_feed) as [->|Hx]; [|apply IH].
    rewrite str_in_cons, IH. reflexivity.
  - destruct (String.prefix "//" (String x s)) eqn:Hp; [apply IH|].
    rewrite str_in_cons, IH, orb_false_r.
    apply not_true_is_false. intros Hp'.
    change "//" with (String "/"%char "/") in Hp, Hp'.
    rewrite prefix_cons in Hp, Hp'. apply andb_true_iff in Hp'.
    destruct Hp' as [Hx Hhead].
    destruct (proj2 (slash_comments_head s) Hhead) as [Hs _].
    rewrite Hx, Hs in Hp. discriminate.
Qed.

Lemma collapse_head (s : string) :
  forall run,
    String.prefix "/" (collapse_blank_lines run s) = true ->
    run = 0%nat /\ String.prefix "/" s = true.
Proof.
  induction s as [|x s IH]; intros run; cbn [collapse_blank_lines].
  - destruct (blank_run_cases run) as [->|[->| ->]]; discriminate.
  - destruct (Ascii.eqb_spec x line_feed) as [->|Hx].
    + intros Hp. destruct (IH _ Hp) as [Hrun _]. discriminate.
    + destruct run as [|run].
      * change (blank_run 0) with "". intros Hp. split; [reflexivity|].
        change (String.prefix (String "/"%char "")
                              (String x (collapse_blank_lines 0 s)) = true)
          in Hp.
        change "/" with (String "/"%char "").
        rewrite prefix_cons, prefix_nil in Hp |- *. exact Hp.
      * destruct (blank_run_cases (S run)) as [Hb|[-> | ->]];
          [|discriminate|discriminate].
        unfold blank_run in Hb. destruct run as [|[|run]]; discriminate.
Qed.

Lemma collapse_keeps_no_slashes (s : string) :
  str_in "//" s = false ->
  forall run, str_in "//" (collapse_blank_lines run s) = false.
Proof.
  induction s as [|x s IH]; intros Hs run; cbn [collapse_blank_lines].
  - destruct (blank_run_cases run) as [->|[->| ->]]; reflexivity.
  - rewrite str_in_cons in Hs. apply orb_false_iff in Hs.
    destruct Hs as [Hp Hs].
    destruct (Ascii.eqb_spec x line_feed) as [->|Hx]; [apply IH, Hs|].
    assert (Hrest : str_in "//" (String x (collapse_blank_lines 0 s)) = false).
    { rewrite str_in_cons, (IH Hs), orb_false_r.
      apply not_true_is_false. intros Hp'.
      change "//" with (String "/"%char "/") in Hp, Hp'.
      rewrite prefix_cons in Hp, Hp'. apply andb_true_iff in Hp'.
      destruct Hp' as [Hx' Hhead].
      destruct (collapse_head _ _ Hhead) as [_ Hs'].
      rewrite Hx', Hs' in Hp. discriminate. }
    destruct (blank_run_cases run) as [->|[->| ->]].
    + exact Hrest.
    + change (nl +:+ String x (collapse_blank_lines 0 s))
        with (String line_feed (String x (collapse_blank_lines 0 s))).
      rewrite str_in_cons, Hrest. reflexivity.
    + change ((nl +:+ nl) +:+ String x (collapse_blank_lines 0 s))
        with (String line_feed
                (String line_feed (String x (collapse_blank_lines 0 s)))).
      rewrite str_in_cons, str_in_cons, Hrest. reflexivity.
Qed.

(** Aggressive compression leaves neither a [#] nor a [//] in the text:
    every one of them starts a comment or lies inside one, whether it is
    written in code, in a string literal, in a colour code, in a heading
    or in a URL, and none of the later passes writes one. *)
Theorem compress_aggressive_leaves_no_comment_opener (text : string) :
  str_in "#" (compress_content text true) = false
  /\ str_in "//" (compress_content text true) = false.
Proof.
  unfold compress_content. split.
  - rewrite occurs_app. apply orb_false_iff. split; [|reflexivity].
    apply strip_keeps_absent, collapse_keeps_absent; [reflexivity|].
    apply strip_line_comments_keeps_absent, hash_comments_gone.
  - apply not_in_app_sep; [reflexivity | | reflexivity].
    apply strip_keeps_absent, collapse_keeps_no_slashes, slash_comments_gone.
Qed.

(** *** The shape of the result *)

Lemma collapse_leaves_no_triple (s : string) :
  forall run, str_in (nl +:+ nl +:+ nl) (collapse_blank_lines run s) = false.
Proof.
  induction s as [|x s IH]; intros run; cbn [collapse_blank_lines].
  - destruct (blank_run_cases run) as [->|[->| ->]]; reflexivity.
  - destruct (Ascii.eqb_spec x line_feed) as [->|Hx]; [apply IH|].
    apply not_in_app_sep; [| | apply IH].
    + change (nl +:+ nl +:+ nl)
        with (String line_feed (String line_feed (String line_feed ""))).
      rewrite !occurs_cons.
      destruct (Ascii.eqb_spec x line_feed); [contradiction | reflexivity].
    + destruct (blank_run_cases run) as [->|[->| ->]]; reflexivity.
Qed.

Lemma lstrip_with_length (spaces : list string) (s : string) (skip : nat) :
  (String.length (lstrip_with spaces skip s) <= String.length s)%nat.
Proof.
  destruct (lstrip_with_suffix spaces s skip) as [before Heq].
  rewrite Heq at 2. rewrite length_append. lia.
Qed.

Lemma prefix_app_l (w z tail : string) :
  String.prefix w z = true -> String.prefix w (z +:+ tail) = true.
Proof.
  intros Hp. destruct (ContextFacts.prefix_rest _ _ Hp) as [rest ->].
  rewrite append_assoc. apply ClassifierFacts.prefix_append.
Qed.

(** A text that does not start with a space has no beginning that
    does. *)
Lemma lstrip_with_of_prefix (spaces : list string) (z tail : string) :
  Forall (fun w => w <> "") spaces ->
  lstrip_with spaces 0 (z +:+ tail) = z +:+ tail ->
  lstrip_with spaces 0 z = z.
Proof.
  intros Hspaces Hfixed. destruct z as [|c z]; [reflexivity|].
  rewrite lstrip_with_cons.
  destruct (space_at spaces (String c z)) as [[|k]|] eqn:Hsp;
    [reflexivity | exfalso | reflexivity].
  unfold space_at in Hsp.
  destruct (List.find (fun w => String.prefix w (String c z)) spaces)
    as [w|] eqn:Hfind; [|discriminate].
  apply List.find_some in Hfind. destruct Hfind as [Hw Hp].
  rewrite PathFacts.append_cons, lstrip_with_cons in Hfixed.
  unfold space_at in Hfixed.
  destruct (List.find (fun w => String.prefix w (String c (z +:+ tail)))
                      spaces) as [w'|] eqn:Hfind'.
  - apply List.find_some in Hfind'. destruct Hfind' as [Hw' _].
    rewrite List.Forall_forall in Hspaces. apply Hspaces in Hw'.
    destruct w' as [|c' w']; [congruence|]. cbn [fmap option_fmap option_map
                                                 String.length] in Hfixed.
    pose proof (lstrip_with_length spaces (z +:+ tail) (String.length w'))
      as Hlen.
    rewrite Hfixed in Hlen. simpl in Hlen. lia.
  - apply (List.find_none _ _ Hfind') in Hw.
    rewrite <- PathFacts.append_cons, (prefix_app_l _ _ tail Hp) in Hw.
    discriminate.
Qed.

Lemma whitespace_not_empty : Forall (fun w => w <> "") WHITESPACE.
Proof. repeat constructor; discriminate. Qed.

(** Stripping twice is stripping once. *)
Lemma strip_idempotent (s : string) : strip (strip s) = strip s.
Proof.
  unfold strip. set (y := lstrip s).
  assert (Hl : lstrip (rstrip y) = rstrip y).
  { destruct (rstrip_prefix y) as [tail Hy]. unfold lstrip.
    apply (lstrip_with_of_prefix _ _ tail whitespace_not_empty).
    rewrite <- Hy. unfold y, lstrip. apply lstrip_with_fixed. }
  rewrite Hl. apply rstrip_idempotent.
Qed.

(** What [rstrip] returns does not end with a line feed. *)
Lemma rstrip_no_final_line_feed (s t : string) : rstrip s <> t +:+ nl.
Proof.
  intros Heq.
  pose proof (rstrip_idempotent s) as Hidem.
  rewrite Heq, rstrip_line_feed in Hidem.
  destruct (rstrip_prefix t) as [tail Ht].
  rewrite Hidem in Ht.
  apply (f_equal String.length) in Ht. rewrite !length_append in Ht.
  simpl in Ht. lia.
Qed.

Lemma no_triple_before_final_line_feed (body : string) :
  str_in (nl +:+ nl +:+ nl) body = false ->
  (forall t, body <> t +:+ nl) ->
  str_in (nl +:+ nl +:+ nl) (body +:+ nl) = false.
Proof.
  change (nl +:+ nl +:+ nl)
    with (String line_feed (String line_feed (String line_feed ""))).
  induction body as [|x b IH]; intros Hin Hend; [reflexivity|].
  rewrite str_in_cons in Hin. apply orb_false_iff in Hin.
  destruct Hin as [Hp Hin].
  rewrite PathFacts.append_cons, str_in_cons, IH, orb_false_r.
  - apply not_true_is_false. intros Hp'. rewrite prefix_cons in Hp, Hp'.
    apply andb_true_iff in Hp'. destruct Hp' as [Hx Hp'].
    rewrite Hx in Hp. simpl in Hp.
    destruct b as [|y b]; [discriminate Hp'|].
    rewrite PathFacts.append_cons, prefix_cons in Hp'.
    apply andb_true_iff in Hp'. destruct Hp' as [Hy Hp'].
    rewrite prefix_cons, Hy in Hp. simpl in Hp.
    destruct b as [|z b].
    + apply Ascii.eqb_eq in Hy. subst y.
      apply (Hend (String x "")). reflexivity.
    + rewrite PathFacts.append_cons, prefix_cons in Hp'.
      apply andb_true_iff in Hp'. destruct Hp' as [Hz _].
      rewrite prefix_cons, Hz in Hp. simpl in Hp.
      rewrite prefix_nil in Hp. discriminate.
  - exact Hin.
  - intros t Heq. apply (Hend (String x t)). rewrite Heq. reflexivity.
Qed.

(** Whatever the text and the mode, the result is a text without white
    space at either end, possibly empty, followed by one line feed, and it
    never holds three line feeds in a row: no two blank lines follow each
    other, and the result is never empty. *)
Theorem compress_content_shape (text : string) (aggressive : bool) :
  exists body,
    compress_content text aggressive = body +:+ nl
    /\ strip body = body
    /\ str_in (nl +:+ nl +:+ nl) (compress_content text aggressive) = false.
Proof.
  unfold compress_content.
  set (collapsed := collapse_blank_lines 0 _).
  exists (strip collapsed). split; [reflexivity|].
  split; [apply strip_idempotent|].
  apply no_triple_before_final_line_feed.
  - apply strip_keeps_absent, collapse_leaves_no_triple.
  - intros t. unfold strip. apply rstrip_no_final_line_feed.
Qed.

End CompressorFacts.

(** ** The text that is injected *)

Module InjectionTextFacts.
Import ContextFinder Builders TextFacts.

Lemma str_in_join (sep x : string) (l : list string) :
  In x l -> str_in x (join sep l) = true.
Proof.
  unfold join. induction l as [|y l IH]; intros Hin; [destruct Hin|].
  destruct l as [|z l].
  - destruct Hin as [->|[]]. apply ClassifierFacts.str_in_refl.
  - change (String.concat sep (y :: z :: l))
      with (y +:+ sep +:+ String.concat sep (z :: l)).
    destruct Hin as [->|Hin].
    + apply ClassifierFacts.str_in_here.
    + do 2 apply ClassifierFacts.str_in_later. exact (IH Hin).
Qed.

Lemma str_in_injection (x context_text : string) :
  str_in x context_text = true -> str_in x (injection context_text) = true.
Proof.
  intros Hx. unfold injection.
  do 7 apply ClassifierFacts.str_in_later. apply str_in_app_l. exact Hx.
Qed.

(** Everything a package holds is in its injection text, and so in the
    file the text is injected into: every file under a heading with its
    path, its content between code fences; every decision with its
    reason; every module summary under the name of the module.  A package
    that holds nothing gives the empty text. *)
Theorem to_injection_text_holds_the_package (package : ContextPackage) :
  let text := to_injection_text package in
  (forall path content,
      In (path, content) (files package) ->
      let block := "### " +:+ path +:+ nl +:+ "```" +:+ nl +:+ content
                   +:+ nl +:+ "```" in
      str_in block text = true
      /\ forall previous, str_in block (injected_content previous text) = true)
  /\ (forall d,
         In d (decisions package) ->
         str_in ("- " +:+ MemoryManager.DecisionEntry.decision d
                 +:+ " (" +:+ MemoryManager.DecisionEntry.reason d +:+ ")")
                text = true)
  /\ (forall name summary,
         In (name, summary) (module_summaries package) ->
         str_in ("### " +:+ name +:+ nl +:+ summary) text = true)
  /\ (files package = [] -> decisions package = [] ->
      module_summaries package = [] -> text = "").
Proof.
  intros text. subst text. unfold to_injection_text.
  destruct package as [fs ds ms total an]. cbn [files decisions module_summaries].
  split; [|split; [|split]].
  - intros path content Hin.
    match goal with |- ?A /\ _ => assert (Hblock : A) end.
    { apply str_in_join. apply in_or_app. right. apply in_or_app. left.
      destruct fs as [|f fs]; [destruct Hin|]. right.
      apply (in_map (fun '(path, content) =>
                       "### " +:+ path +:+ nl +:+ "```" +:+ nl +:+ content
                       +:+ nl +:+ "```") _ (path, content)). exact Hin. }
    split; [exact Hblock|]. intros previous. unfold injected_content.
    apply ClassifierFacts.str_in_later, str_in_injection. exact Hblock.
  - intros d Hin. apply str_in_join. apply in_or_app. right.
    apply in_or_app. right. destruct ds as [|d0 ds]; [destruct Hin|]. right.
    apply (in_map (fun d =>
                     "- " +:+ MemoryManager.DecisionEntry.decision d
                     +:+ " (" +:+ MemoryManager.DecisionEntry.reason d
                     +:+ ")")). exact Hin.
  - intros name summary Hin. apply str_in_join. apply in_or_app. left.
    destruct ms as [|m ms]; [destruct Hin|]. right.
    apply (in_map (fun '(name, summary) =>
                     "### " +:+ name +:+ nl +:+ summary) _ (name, summary)).
    exact Hin.
  - intros -> -> ->. reflexivity.
Qed.

End InjectionTextFacts.

(** ** Recording the stack: [update_stack] *)

Module StackFacts.
Import Json Sys MemoryManager.

Section Stack.
Context {memory_json : JsonCodec MemoryRecord}.

(** A [save] that returns has left the serialised record in
    [memory.json]. *)
Lemma save_leaves_record (_data0 : MemoryRecord) (data : option MemoryRecord)
      (now tmp : string) (w w' : world) (r : MemoryRecord) :
  save _data0 data now tmp w = (Ok r, w') ->
  r = set_last_updated now (default _data0 data)
  /\ disk w' !! MEMORY_FILE = Some (File (json_dumps r)).
Proof.
  unfold save, atomic_write. io_unfold. cbn [disk set_disk calls].
  rewrite lookup_insert_eq.
  match goal with
  | |- context [(<[tmp:=?e]> (disk w)) !! MEMORY_FILE] =>
      destruct ((<[tmp:=e]> (disk w)) !! MEMORY_FILE) as [[raw|b]|]
  end; intros [= <- <-];
    (split; [reflexivity | apply lookup_insert_eq]).
Qed.

(** When [update_stack] returns, the record it leaves has the given stack
    and the time of the save, and everything else as it was loaded; the
    record is on disk, so that a later [load] returns it, when the JSON
    library reads back what it wrote for it. *)
Theorem update_stack_is_persisted
        (root now_load now_save tmp now_later : string)
        (stack : dict (option string)) (w w' : world) (d : MemoryRecord) :
  json_loads (json_dumps d) = Some d ->
  Utf8.valid (json_dumps d) = true ->
  MemoryUpdater.update_stack root now_load now_save tmp stack w = (Ok d, w') ->
  MemoryManager.stack d = Some stack
  /\ last_updated d = Some now_save
  /\ (exists loaded w0,
         load root now_load w = (Ok loaded, w0)
         /\ project_name d = project_name loaded
         /\ created_at d = created_at loaded
         /\ ai_target d = ai_target loaded
         /\ modules d = modules loaded
         /\ decisions d = decisions loaded
         /\ change_history d = change_history loaded)
  /\ load root now_later w' = (Ok d, w').
Proof.
  intros Hjson Hutf. unfold MemoryUpdater.update_stack. io_unfold.
  destruct (load root now_load w) as [[loaded|e] w0] eqn:Hload;
    [|discriminate].
  intros Hsave. apply save_leaves_record in Hsave.
  destruct Hsave as [-> Hdisk]. cbn [default] in *.
  split; [reflexivity|]. split; [reflexivity|]. split.
  - exists loaded, w0. repeat split.
  - eapply MemoryFacts.memory_load_parsed; eassumption.
Qed.

End Stack.

(** The stack of a new project, in an empty directory. *)
Lemma update_stack_is_persisted_witness :
  exists w',
    MemoryUpdater.update_stack (memory_json := Samples.stacked_codec)
      "demo" "2024-06-01T09:00:00" "2024-06-01T09:00:01" "memory_s7.tmp"
      Samples.python_stack Doubles.empty_world
    = (Ok Samples.stacked, w')
    /\ MemoryManager.stack Samples.stacked = Some Samples.python_stack
    /\ load (memory_json := Samples.stacked_codec) "demo"
            "2024-06-02T00:00:00" w'
       = (Ok Samples.stacked, w').
Proof.
  eexists. split; [vm_compute; reflexivity|].
  match goal with
  | |- _ /\ load _ _ ?w1 = _ =>
      destruct (@update_stack_is_persisted Samples.stacked_codec
                  "demo" "2024-06-01T09:00:00" "2024-06-01T09:00:01"
                  "memory_s7.tmp" "2024-06-02T00:00:00" Samples.python_stack
                  Doubles.empty_world w1 Samples.stacked)
        as (Hstack & _ & _ & Hload)
  end.
  - vm_compute. reflexivity.
  - vm_compute. reflexivity.
  - vm_compute. reflexivity.
  - split; [exact Hstack | exact Hload].
Defined.

End StackFacts.

(** ** The scenarios of the repository's tests, run on the model *)

Module Scenarios.
Import Sys.

(** [test_compressor.py] *)
Example compress_strips_docstrings :
  Compressor.compress_content
    ("def foo():" +:+ nl +:+ "    " +:+ Compressor.triple_double
     +:+ "This is a docstring." +:+ Compressor.triple_double +:+ nl
     +:+ "    return 1" +:+ nl) false
  = "def foo():" +:+ nl +:+ "    " +:+ nl +:+ "    return 1" +:+ nl.
Proof. vm_compute. reflexivity. Qed.

Example compress_strips_js_block_comments :
  Compressor.compress_content
    ("/* This is a comment */" +:+ nl +:+ "const x = 1;" +:+ nl) false
  = "const x = 1;" +:+ nl.
Proof. vm_compute. reflexivity. Qed.

Example compress_collapses_blank_lines :
  Compressor.compress_content
    ("line1" +:+ nl +:+ nl +:+ nl +:+ nl +:+ nl +:+ "line2" +:+ nl) false
  = "line1" +:+ nl +:+ nl +:+ "line2" +:+ nl.
Proof. vm_compute. reflexivity. Qed.

Example compress_aggressive_strips_line_comments :
  Compressor.compress_content
    ("x = 1  # set x" +:+ nl +:+ "y = 2" +:+ nl) true
  = "x = 1  " +:+ nl +:+ "y = 2" +:+ nl.
Proof. vm_compute. reflexivity. Qed.

Example compress_keeps_line_comments_otherwise :
  Compressor.compress_content ("x = 1  # set x" +:+ nl) false
  = "x = 1  # set x" +:+ nl.
Proof. vm_compute. reflexivity. Qed.

Example compress_ends_with_newline :
  Compressor.compress_content "hello" false = "hello" +:+ nl.
Proof. vm_compute. reflexivity. Qed.

Example should_compress_at_threshold :
  Compressor.should_compress 3000 2000 = true
  /\ Compressor.should_compress 1000 2000 = false
  /\ Compressor.should_compress 2000 2000 = false.
Proof. repeat split. Qed.

(** [test_file_indexer.py]: four files are indexed, none of them under
    [node_modules], and the two packages under [src] become modules. *)
Example index_sample_project :
  exists index_data w',
    FileIndexer.index (tokenizer := Doubles.byte_tokenizer)
                      (scanner := Doubles.blind_scanner)
                      (index_json := ClassifierSamples.index_codec)
                      TreeSamples.project "2024-03-01T00:00:00+00:00"
                      "index_q7.tmp" Doubles.empty_world
    = (Ok index_data, w')
    /\ FileIndexer.total_files index_data = Some 4%Z
    /\ dict_keys (default [] (FileIndexer.files index_data))
       = ["app.js"; "src/auth/login.py"; "src/auth/register.py";
          "src/api/users.py"]
    /\ default [] (FileIndexer.modules index_data)
       = [("root", ["app.js"]);
          ("auth", ["src/auth/login.py"; "src/auth/register.py"]);
          ("api", ["src/api/users.py"])].
Proof.
  eexists. eexists. split; [vm_compute; reflexivity|].
  repeat split.
Qed.

(** [test_memory_manager.py] *)
Example memory_accessors :
  let data := MemoryManager._default_memory "demo" "2024-01-01T00:00:00" in
  let data :=
    MemoryManager.set_module data "auth" None
      (Some ["src/auth/login.py"; "src/auth/register.py"]) None None in
  let data :=
    MemoryManager.set_module data "api" (Some "in_progress")
      (Some ["src/api/users.py"]) (Some "REST API") None in
  let data :=
    MemoryManager.add_decision data "2024-01-02" "Use JWT" "Standard" ["auth"] in
  let data :=
    MemoryManager.add_decision data "2024-01-03" "Use REST" "Simple" ["api"] in
  MemoryManager.get_modules_for_files data ["src/auth/login.py"] = ["auth"]
  /\ map MemoryManager.DecisionEntry.decision
         (MemoryManager.get_decisions_for_modules data ["auth"])
     = ["Use JWT"]
  /\ (MemoryManager.ModuleEntry.status
        <$> MemoryManager.get_module data "api") = Some (Some "in_progress")
  /\ MemoryManager.get_module data "nonexistent" = None.
Proof. repeat split. Qed.

(** Two consecutive changes are kept in call order, each with its own
    saving. *)
Example add_change_twice :
  let data := MemoryManager._default_memory "demo" "2024-01-01T00:00:00" in
  let data :=
    MemoryManager.add_change data "2024-01-02" "Added login"
                             ["auth/login.py"] 300 5000 in
  let data :=
    MemoryManager.add_change data "2024-01-03" "Added logout"
                             ["auth/logout.py"] 200 5100 in
  map (fun e => (MemoryManager.ChangeEvent.description e,
                 MemoryManager.ChangeEvent.tokens_saved e))
      (default [] (MemoryManager.change_history data))
  = [("Added login", 5000%Z); ("Added logout", 5100%Z)].
Proof. reflexivity. Qed.

(** [test_context_finder.py]: a change to [login.py] in module [auth]
    selects that file, the decision about [auth] and a summary of the
    module; the total is the token count of the file, uncompressed. *)
Example build_context_for_login :
  exists package w',
    ContextFinder.build_context
      (tokenizer := Doubles.byte_tokenizer)
      (index_json := Fixture.index_codec)
      (memory_json := Fixture.memory_codec)
      Fixture.project "test" "2024-05-01T00:00:00"
      (Fixture.change ["auth"] ["src/auth/login.py"]) Fixture.world
    = (Ok package, w')
    /\ ContextFinder.files package
       = [("src/auth/login.py", "def login(): pass")]
    /\ ContextFinder.total_tokens package = 17%nat
    /\ map MemoryManager.DecisionEntry.decision
           (ContextFinder.decisions package) = ["Use JWT"]
    /\ ContextFinder.module_summaries package
       = [("auth",
           "- src/auth/login.py: User login (30 tokens)" +:+ nl
           +:+ "- src/auth/register.py: User registration (30 tokens)")].
Proof.
  eexists. eexists. split; [vm_compute; reflexivity|].
  repeat split.
Qed.

(** A change to [users.py], which imports [auth.login], brings in
    [login.py] as well, and nothing else. *)
Example working_set_of_users :
  ContextFinder.working_set
    (default [] (FileIndexer.files Fixture.index)) ["src/api/users.py"]
  = {["src/api/users.py"; "src/auth/login.py"]}.
Proof. vm_compute. reflexivity. Qed.

End Scenarios.
